(** * XTV reader (xtvReader.py, xdrfile.py): a shallow embedding and its properties

    The development follows the two Python modules of the TRACE coupling
    workshop:

    - [xdrfile.FileUnpacker]: big-endian decoding over a seekable file,
    - [xtvReader.XtvFile]: header parsing ([XtvFile.__init__]), channel-string
      decoding, the value locator ([getData]), the axial queries
      ([getAxialLocations], [getAxialData], [getTimeVectorAxial]) and the
      bulk queries ([getTimeData], [getTimeVector], [getAxialVector]).

    Python values are modelled as the code has them: [int] as [Z], [float]
    as the IEEE-754 binary64 numbers of [PrimFloat], [str] as [string],
    [None]-or-value as [option], and a raised exception as the left summand
    of the result of a small state-and-exception monad whose state survives
    the exception (a Python object mutated before a [raise] stays mutated). *)

From Stdlib Require Import ZArith List String Ascii Bool Lia Sorted.
From Stdlib Require Import Strings.Byte.
From Stdlib Require Import Uint63 Floats.
Import ListNotations.

Open Scope string_scope.
Open Scope list_scope.
Open Scope Z_scope.

(* ================================================================= *)
(** ** Exceptions and the error table *)

(** The exceptions the modelled code can raise.  [XTVError] carries its
    message, as [raise XTVError, err_codes['...']] does. *)
Inductive exn : Type :=
| XTVError (errmsg : string)
| EOFError
| ValueError
| TypeError
| AttributeError
| IndexError
| ZeroDivisionError
| IOError
| UnboundLocalError
| SystemExit.

(** Keys of the module-level dictionary [err_codes]. *)
Inductive err_key : Type :=
| TIME_UBOUND_ERR | TIME_LBOUND_ERR
| ERR_XRYT_INDEX | ERR_YT_INDEX | ERR_AXRYT_INDEX
| INVALID_CHANNEL1 | INVALID_CHANNEL2
| INDEX_I_LBOUND_ERR | INDEX_J_LBOUND_ERR | INDEX_K_LBOUND_ERR
| INDEX_I_UBOUND_ERR | INDEX_J_UBOUND_ERR | INDEX_K_UBOUND_ERR
| AXIAL_UBOUND_ERR | AXIAL_LBOUND_ERR | AXIAL_SCALAR_ERR.

Definition err_codes (k : err_key) : string :=
  match k with
  | TIME_UBOUND_ERR => "!! Error !! - Requested time point beyond last time edit"
  | TIME_LBOUND_ERR => "!! Error !! - Requested time point is before first time edit"
  | ERR_XRYT_INDEX => "!! Error !! - XR or YT index set > 0 for a variable that does not use them"
  | ERR_YT_INDEX => "!! Error !! - YT index set > 0 for a variable that does not use it"
  | ERR_AXRYT_INDEX => "!! Error !! - A, XR or YT index set > 0 for a variable that does not use them"
  | INVALID_CHANNEL1 => "!! Error !! - The requested variable name, component type, and/or component ID are unknown"
  | INVALID_CHANNEL2 => "!! Error !! - While decoding channel ID, got an unknown channel name or component ID"
  | INDEX_I_LBOUND_ERR => "!! Error !! - Invalid mesh index value - i must be > 0"
  | INDEX_J_LBOUND_ERR => "!! Error !! - Invalid mesh index value - j must be > 0"
  | INDEX_K_LBOUND_ERR => "!! Error !! - Invalid mesh index value - k must be > 0"
  | INDEX_I_UBOUND_ERR => "!! Error !! - Invalid mesh index value - i is too large"
  | INDEX_J_UBOUND_ERR => "!! Error !! - Invalid mesh index value - j is too large"
  | INDEX_K_UBOUND_ERR => "!! Error !! - Invalid mesh index value - k is too large"
  | AXIAL_UBOUND_ERR => "!! Error !! - Invalid axial height - value extends beyond last mesh point"
  | AXIAL_LBOUND_ERR => "!! Error !! - Invalid axial height - value comes before first mesh point"
  | AXIAL_SCALAR_ERR => "!! Error !! - Axial distance requested for a scalar data channel"
  end.

(** [raise XTVError, err_codes[k]] *)
Definition xtv_error (k : err_key) : exn := XTVError (err_codes k).

(* ================================================================= *)
(** ** The state-and-exception monad *)

(** A computation over a mutable state [S] that returns a value or raises.
    The state is returned in both cases. *)
Definition M (S A : Type) : Type := S -> (exn + A) * S.

Definition ret {S A} (a : A) : M S A := fun s => (inr a, s).
Definition raise {S A} (e : exn) : M S A := fun s => (inl e, s).
Definition bind {S A B} (m : M S A) (k : A -> M S B) : M S B :=
  fun s => match m s with
           | (inr a, s') => k a s'
           | (inl e, s') => (inl e, s')
           end.
Definition get {S} : M S S := fun s => (inr s, s).
Definition put {S} (s : S) : M S unit := fun _ => (inr tt, s).
Definition modify {S} (f : S -> S) : M S unit := fun s => (inr tt, f s).

(** The outcome of a computation, the final state dropped. *)
Definition eval {S A} (m : M S A) (s : S) : exn + A := fst (m s).

Notation "x <- c1 ;; c2" := (bind c1 (fun x => c2))
  (at level 61, c1 at next level, right associativity).
Notation "' pat <- c1 ;; c2" := (bind c1 (fun x => match x with pat => c2 end))
  (at level 61, pat pattern, c1 at next level, right associativity).
Notation "c1 ;;; c2" := (bind c1 (fun _ => c2))
  (at level 61, right associativity).

(** A pure value-or-exception, and its embedding in [M]. *)
Definition res (A : Type) : Type := (exn + A)%type.
Definition lift_res {S A} (r : res A) : M S A :=
  match r with inr a => ret a | inl e => raise e end.

(** [for x in xs: body(x)], collecting the results. *)
Fixpoint mapM {S A B} (f : A -> M S B) (xs : list A) : M S (list B) :=
  match xs with
  | [] => ret []
  | x :: xs' => y <- f x ;; ys <- mapM f xs' ;; ret (y :: ys)
  end.

(** [n] repetitions of a computation ([for i in xrange(n)]). *)
Fixpoint replicateM {S A} (n : nat) (m : M S A) : M S (list A) :=
  match n with
  | O => ret []
  | Datatypes.S n' => y <- m ;; ys <- replicateM n' m ;; ret (y :: ys)
  end.

(* ================================================================= *)
(** ** Python sequences and strings *)

(** [l[i]] for a Python list: a negative index counts from the end, an index
    out of range raises [IndexError]. *)
Definition py_getitem {A} (l : list A) (i : Z) : res A :=
  let n := Z.of_nat (List.length l) in
  let i' := if i <? 0 then i + n else i in
  if (i' <? 0) || (n <=? i') then inl IndexError
  else match nth_error l (Z.to_nat i') with
       | Some a => inr a
       | None => inl IndexError
       end.

(** The characters [str.strip()] removes: space, tab, newline, vertical tab,
    form feed and carriage return. *)
Definition is_space (c : ascii) : bool :=
  let n := nat_of_ascii c in
  (Nat.eqb n 32) || ((Nat.leb 9 n) && (Nat.leb n 13)).

Fixpoint lstrip (s : string) : string :=
  match s with
  | String c s' => if is_space c then lstrip s' else s
  | EmptyString => EmptyString
  end.

Fixpoint rev_string (acc s : string) : string :=
  match s with
  | String c s' => rev_string (String c acc) s'
  | EmptyString => acc
  end.

(** [s.strip()] *)
Definition strip (s : string) : string :=
  rev_string "" (lstrip (rev_string "" (lstrip s))).

(** [s.startswith(c)] for a one-character prefix. *)
Definition startswith (s : string) (c : ascii) : bool :=
  match s with
  | String c' _ => Ascii.eqb c' c
  | EmptyString => false
  end.

(** [s.endswith(c)] for a one-character suffix. *)
Fixpoint endswith (s : string) (c : ascii) : bool :=
  match s with
  | EmptyString => false
  | String c' EmptyString => Ascii.eqb c' c
  | String _ s' => endswith s' c
  end.

(* ================================================================= *)
(** ** xdrfile.FileUnpacker *)

(** Big-endian value of a byte string. *)
Definition be_value (bs : list byte) : Z :=
  fold_left (fun acc b => acc * 256 + Z.of_N (Byte.to_N b)) bs 0.

(** An IEEE-754 bit pattern with [ebits] exponent bits and [mbits] fraction
    bits, as the binary64 number [struct.unpack] returns for it.  Every
    binary32 number is a binary64 number, so the conversion is exact. *)
Definition ieee_decode (ebits mbits bits : Z) : float :=
  let sign := Z.testbit bits (ebits + mbits) in
  let e := Z.land (Z.shiftr bits mbits) (2 ^ ebits - 1) in
  let m := Z.land bits (2 ^ mbits - 1) in
  let bias := 2 ^ (ebits - 1) - 1 in
  let mag :=
    if e =? 2 ^ ebits - 1 then (if m =? 0 then infinity else nan)
    else if e =? 0 then Z.ldexp (of_uint63 (Uint63.of_Z m)) (1 - bias - mbits)
    else Z.ldexp (of_uint63 (Uint63.of_Z (m + 2 ^ mbits))) (e - bias - mbits) in
  if sign then (- mag)%float else mag.

Section Unpacker.
(** The content of the open file; the unpacker's state is the file's
    position. *)
Variable file : list byte.

(** [self.file.read(n)] for [n >= 0]: the bytes from the position on, fewer
    than [n] at the end of the file. *)
Definition file_read (n : Z) : M Z (list byte) :=
  fun pos =>
    let data := firstn (Z.to_nat n) (skipn (Z.to_nat pos) file) in
    (inr data, pos + Z.of_nat (List.length data)).

(** [get_position]: [self.file.tell()] *)
Definition get_position : M Z Z := get.

(** [set_position]: [self.file.seek(position)]; a negative offset is
    refused by the file object. *)
Definition set_position (position : Z) : M Z unit :=
  if position <? 0 then raise IOError else put position.

Definition unpack_uint : M Z Z :=
  data <- file_read 4 ;;
  if (Z.of_nat (List.length data) <? 4) then raise EOFError
  else ret (be_value data).

Definition unpack_int : M Z Z :=
  data <- file_read 4 ;;
  if (Z.of_nat (List.length data) <? 4) then raise EOFError
  else let x := be_value data in
       ret (if x <? 2 ^ 31 then x else x - 2 ^ 32).

Definition unpack_float : M Z float :=
  data <- file_read 4 ;;
  if (Z.of_nat (List.length data) <? 4) then raise EOFError
  else ret (ieee_decode 8 23 (be_value data)).

Definition unpack_double : M Z float :=
  data <- file_read 8 ;;
  if (Z.of_nat (List.length data) <? 8) then raise EOFError
  else ret (ieee_decode 11 52 (be_value data)).

(** No end-of-file test here: a short read gives a short string. *)
Definition unpack_fstring (n : Z) : M Z string :=
  if n <? 0 then raise ValueError
  else data <- file_read ((n + 3) / 4 * 4) ;;
       ret (string_of_list_byte (firstn (Z.to_nat n) data)).

Definition unpack_farray {A} (n : Z) (unpack_item : M Z A) : M Z (list A) :=
  replicateM (Z.to_nat n) unpack_item.

(** Inherited from [xdrlib.Unpacker]: a length word, then the content. *)
Definition unpack_string : M Z string :=
  n <- unpack_uint ;; unpack_fstring n.

Definition unpack_array {A} (unpack_item : M Z A) : M Z (list A) :=
  n <- unpack_uint ;; unpack_farray n unpack_item.
End Unpacker.

(* ================================================================= *)
(** ** The header model *)

(** [collections.OrderedDict]: keys in insertion order; assigning to a key
    that is present replaces its value in place. *)
Section OrderedDict.
Context {K V : Type} (keqb : K -> K -> bool).

Fixpoint od_get (d : list (K * V)) (k : K) : option V :=
  match d with
  | [] => None
  | (k', v) :: d' => if keqb k' k then Some v else od_get d' k
  end.

Fixpoint od_set (d : list (K * V)) (k : K) (v : V) : list (K * V) :=
  match d with
  | [] => [(k, v)]
  | (k', v') :: d' =>
      if keqb k' k then (k, v) :: d' else (k', v') :: od_set d' k v
  end.

Definition od_keys (d : list (K * V)) : list K := map fst d.
End OrderedDict.

Record _Template : Type := mk_Template {
  tname : string;
  nCells : Z; nCellsI : Z; nCellsJ : Z; nCellsK : Z;
  dimi : Z; dimj : Z; dimk : Z;
  coordSys : string; coordi : string; coordj : string; coordk : string;
  dynAxI : Z; dynAxJ : Z; dynAxK : Z;
  fI : list float; fJ : list float; fK : list float;
  grav : list float; fa : list float }.

(** [_Template(name)] *)
Definition new_Template (name : string) : _Template :=
  mk_Template name 0 0 0 0 0 0 0 "" "" "" "" 0 0 0 [] [] [] [] [].

Record _SideLeg : Type := mk_SideLeg { sCell : Z; eCell : Z; jCell : Z }.

Record _DynamicAxis : Type := mk_DynamicAxis {
  dsAx : string; varType : string; sVarName : string; lVarName : string;
  vMax : Z }.

(** A channel.  [comp] is the key of the owning component.  The attributes
    from [varLabel] on are set one by one after the object is stored in its
    component, so each may be missing ([None]) on an object whose block was
    cut short; reading a missing attribute raises [AttributeError]. *)
Record _Channel : Type := mk_Channel {
  name : string;
  comp : Z * string;
  startIncrement : Z;
  varLabel : option string; uType : option string; uLabel : option string;
  dimPosAt : option string; freqAt : option string; cMapAt : option string;
  vectAt : option string; spOptAt : option string; vectName : option string;
  vTmpl : option Z; vLength : option Z }.

(** [_Channel(comp, name, startIncrement)] *)
Definition new_Channel (c : Z * string) (n : string) (start : Z) : _Channel :=
  mk_Channel n c start None None None None None None None None None None None.

(** A component.  [templates] holds references into the store of template
    objects ([None] for the placeholder at index 0): the block loop keeps a
    template object in a local variable and may change it after it was
    appended, so the objects are shared, not copied. *)
Record _Component : Type := mk_Component {
  number : Z;
  compType : string;
  channels : list (string * _Channel);
  nJuns : Z;
  nTempl : Z;
  templates : list (option nat);
  nLegs : Z;
  sidelegs : list _SideLeg;
  nDynAx : Z;
  dynAxes : list _DynamicAxis;
  title : option string;
  dim : option Z }.

(** [_Component(number, compType)] *)
Definition new_Component (n : Z) (ct : string) : _Component :=
  mk_Component n ct [] 0 0 [] 0 [] 0 [] None None.

Record StartingBlock : Type := mk_StartingBlock {
  hdrString : string;
  xtvMajorV : Z; xtvMinorV : Z; revNumber : Z; xtvRes : Z; nUnits : Z;
  nComp : Z; nSVar : Z; nDVar : Z; nSChannels : Z; nDCannels : Z;
  dataStart : Z; dataLen : Z; nPoints : Z; status : Z;
  spare1 : Z; spare2 : Z; spare3 : Z;
  fmtString : string; unitsSys : string; sysName : string;
  osString : string; sDate : string; sTime : string; sb_title : string }.

(** The namedtuple constructor applied to the header string, the seventeen
    integers and the seven strings. *)
Definition StartingBlock_of (h : string) (ints : list Z) (strs : list string)
  : res StartingBlock :=
  match ints, strs with
  | [i1; i2; i3; i4; i5; i6; i7; i8; i9; i10; i11; i12; i13; i14; i15; i16; i17],
    [s1; s2; s3; s4; s5; s6; s7] =>
      inr (mk_StartingBlock h i1 i2 i3 i4 i5 i6 i7 i8 i9 i10 i11 i12 i13 i14
             i15 i16 i17 s1 s2 s3 s4 s5 s6 s7)
  | _, _ => inl TypeError
  end.

Definition key_eqb (k1 k2 : Z * string) : bool :=
  (fst k1 =? fst k2) && String.eqb (snd k1) (snd k2).

(** The object [XtvFile.__init__] builds.  [opened] is [None] while the
    attribute has not been assigned. *)
Record XtvFile : Type := mk_XtvFile {
  xtvFile : list byte;
  components : list ((Z * string) * _Component);
  tstore : list _Template;
  times : list float;
  SB : StartingBlock;
  opened : option bool }.

(* ----------------------------------------------------------------- *)
(** *** Attribute assignment

    [obj.attr = v] on each of the three mutable classes. *)

Definition set_nCells (v : Z) (r : _Template) : _Template :=
  mk_Template (tname r) v (nCellsI r) (nCellsJ r) (nCellsK r) (dimi r) (dimj r) (dimk r) (coordSys r) (coordi r) (coordj r) (coordk r) (dynAxI r) (dynAxJ r) (dynAxK r) (fI r) (fJ r) (fK r) (grav r) (fa r).
Definition set_nCellsI (v : Z) (r : _Template) : _Template :=
  mk_Template (tname r) (nCells r) v (nCellsJ r) (nCellsK r) (dimi r) (dimj r) (dimk r) (coordSys r) (coordi r) (coordj r) (coordk r) (dynAxI r) (dynAxJ r) (dynAxK r) (fI r) (fJ r) (fK r) (grav r) (fa r).
Definition set_nCellsJ (v : Z) (r : _Template) : _Template :=
  mk_Template (tname r) (nCells r) (nCellsI r) v (nCellsK r) (dimi r) (dimj r) (dimk r) (coordSys r) (coordi r) (coordj r) (coordk r) (dynAxI r) (dynAxJ r) (dynAxK r) (fI r) (fJ r) (fK r) (grav r) (fa r).
Definition set_nCellsK (v : Z) (r : _Template) : _Template :=
  mk_Template (tname r) (nCells r) (nCellsI r) (nCellsJ r) v (dimi r) (dimj r) (dimk r) (coordSys r) (coordi r) (coordj r) (coordk r) (dynAxI r) (dynAxJ r) (dynAxK r) (fI r) (fJ r) (fK r) (grav r) (fa r).
Definition set_dimi (v : Z) (r : _Template) : _Template :=
  mk_Template (tname r) (nCells r) (nCellsI r) (nCellsJ r) (nCellsK r) v (dimj r) (dimk r) (coordSys r) (coordi r) (coordj r) (coordk r) (dynAxI r) (dynAxJ r) (dynAxK r) (fI r) (fJ r) (fK r) (grav r) (fa r).
Definition set_dimj (v : Z) (r : _Template) : _Template :=
  mk_Template (tname r) (nCells r) (nCellsI r) (nCellsJ r) (nCellsK r) (dimi r) v (dimk r) (coordSys r) (coordi r) (coordj r) (coordk r) (dynAxI r) (dynAxJ r) (dynAxK r) (fI r) (fJ r) (fK r) (grav r) (fa r).
Definition set_dimk (v : Z) (r : _Template) : _Template :=
  mk_Template (tname r) (nCells r) (nCellsI r) (nCellsJ r) (nCellsK r) (dimi r) (dimj r) v (coordSys r) (coordi r) (coordj r) (coordk r) (dynAxI r) (dynAxJ r) (dynAxK r) (fI r) (fJ r) (fK r) (grav r) (fa r).
Definition set_coordSys (v : string) (r : _Template) : _Template :=
  mk_Template (tname r) (nCells r) (nCellsI r) (nCellsJ r) (nCellsK r) (dimi r) (dimj r) (dimk r) v (coordi r) (coordj r) (coordk r) (dynAxI r) (dynAxJ r) (dynAxK r) (fI r) (fJ r) (fK r) (grav r) (fa r).
Definition set_coordi (v : string) (r : _Template) : _Template :=
  mk_Template (tname r) (nCells r) (nCellsI r) (nCellsJ r) (nCellsK r) (dimi r) (dimj r) (dimk r) (coordSys r) v (coordj r) (coordk r) (dynAxI r) (dynAxJ r) (dynAxK r) (fI r) (fJ r) (fK r) (grav r) (fa r).
Definition set_coordj (v : string) (r : _Template) : _Template :=
  mk_Template (tname r) (nCells r) (nCellsI r) (nCellsJ r) (nCellsK r) (dimi r) (dimj r) (dimk r) (coordSys r) (coordi r) v (coordk r) (dynAxI r) (dynAxJ r) (dynAxK r) (fI r) (fJ r) (fK r) (grav r) (fa r).
Definition set_coordk (v : string) (r : _Template) : _Template :=
  mk_Template (tname r) (nCells r) (nCellsI r) (nCellsJ r) (nCellsK r) (dimi r) (dimj r) (dimk r) (coordSys r) (coordi r) (coordj r) v (dynAxI r) (dynAxJ r) (dynAxK r) (fI r) (fJ r) (fK r) (grav r) (fa r).
Definition set_dynAxI (v : Z) (r : _Template) : _Template :=
  mk_Template (tname r) (nCells r) (nCellsI r) (nCellsJ r) (nCellsK r) (dimi r) (dimj r) (dimk r) (coordSys r) (coordi r) (coordj r) (coordk r) v (dynAxJ r) (dynAxK r) (fI r) (fJ r) (fK r) (grav r) (fa r).
Definition set_dynAxJ (v : Z) (r : _Template) : _Template :=
  mk_Template (tname r) (nCells r) (nCellsI r) (nCellsJ r) (nCellsK r) (dimi r) (dimj r) (dimk r) (coordSys r) (coordi r) (coordj r) (coordk r) (dynAxI r) v (dynAxK r) (fI r) (fJ r) (fK r) (grav r) (fa r).
Definition set_dynAxK (v : Z) (r : _Template) : _Template :=
  mk_Template (tname r) (nCells r) (nCellsI r) (nCellsJ r) (nCellsK r) (dimi r) (dimj r) (dimk r) (coordSys r) (coordi r) (coordj r) (coordk r) (dynAxI r) (dynAxJ r) v (fI r) (fJ r) (fK r) (grav r) (fa r).
Definition set_fI (v : list float) (r : _Template) : _Template :=
  mk_Template (tname r) (nCells r) (nCellsI r) (nCellsJ r) (nCellsK r) (dimi r) (dimj r) (dimk r) (coordSys r) (coordi r) (coordj r) (coordk r) (dynAxI r) (dynAxJ r) (dynAxK r) v (fJ r) (fK r) (grav r) (fa r).
Definition set_fJ (v : list float) (r : _Template) : _Template :=
  mk_Template (tname r) (nCells r) (nCellsI r) (nCellsJ r) (nCellsK r) (dimi r) (dimj r) (dimk r) (coordSys r) (coordi r) (coordj r) (coordk r) (dynAxI r) (dynAxJ r) (dynAxK r) (fI r) v (fK r) (grav r) (fa r).
Definition set_fK (v : list float) (r : _Template) : _Template :=
  mk_Template (tname r) (nCells r) (nCellsI r) (nCellsJ r) (nCellsK r) (dimi r) (dimj r) (dimk r) (coordSys r) (coordi r) (coordj r) (coordk r) (dynAxI r) (dynAxJ r) (dynAxK r) (fI r) (fJ r) v (grav r) (fa r).
Definition set_grav (v : list float) (r : _Template) : _Template :=
  mk_Template (tname r) (nCells r) (nCellsI r) (nCellsJ r) (nCellsK r) (dimi r) (dimj r) (dimk r) (coordSys r) (coordi r) (coordj r) (coordk r) (dynAxI r) (dynAxJ r) (dynAxK r) (fI r) (fJ r) (fK r) v (fa r).
Definition set_fa (v : list float) (r : _Template) : _Template :=
  mk_Template (tname r) (nCells r) (nCellsI r) (nCellsJ r) (nCellsK r) (dimi r) (dimj r) (dimk r) (coordSys r) (coordi r) (coordj r) (coordk r) (dynAxI r) (dynAxJ r) (dynAxK r) (fI r) (fJ r) (fK r) (grav r) v.

Definition set_varLabel (v : option string) (r : _Channel) : _Channel :=
  mk_Channel (name r) (comp r) (startIncrement r) v (uType r) (uLabel r) (dimPosAt r) (freqAt r) (cMapAt r) (vectAt r) (spOptAt r) (vectName r) (vTmpl r) (vLength r).
Definition set_uType (v : option string) (r : _Channel) : _Channel :=
  mk_Channel (name r) (comp r) (startIncrement r) (varLabel r) v (uLabel r) (dimPosAt r) (freqAt r) (cMapAt r) (vectAt r) (spOptAt r) (vectName r) (vTmpl r) (vLength r).
Definition set_uLabel (v : option string) (r : _Channel) : _Channel :=
  mk_Channel (name r) (comp r) (startIncrement r) (varLabel r) (uType r) v (dimPosAt r) (freqAt r) (cMapAt r) (vectAt r) (spOptAt r) (vectName r) (vTmpl r) (vLength r).
Definition set_dimPosAt (v : option string) (r : _Channel) : _Channel :=
  mk_Channel (name r) (comp r) (startIncrement r) (varLabel r) (uType r) (uLabel r) v (freqAt r) (cMapAt r) (vectAt r) (spOptAt r) (vectName r) (vTmpl r) (vLength r).
Definition set_freqAt (v : option string) (r : _Channel) : _Channel :=
  mk_Channel (name r) (comp r) (startIncrement r) (varLabel r) (uType r) (uLabel r) (dimPosAt r) v (cMapAt r) (vectAt r) (spOptAt r) (vectName r) (vTmpl r) (vLength r).
Definition set_cMapAt (v : option string) (r : _Channel) : _Channel :=
  mk_Channel (name r) (comp r) (startIncrement r) (varLabel r) (uType r) (uLabel r) (dimPosAt r) (freqAt r) v (vectAt r) (spOptAt r) (vectName r) (vTmpl r) (vLength r).
Definition set_vectAt (v : option string) (r : _Channel) : _Channel :=
  mk_Channel (name r) (comp r) (startIncrement r) (varLabel r) (uType r) (uLabel r) (dimPosAt r) (freqAt r) (cMapAt r) v (spOptAt r) (vectName r) (vTmpl r) (vLength r).
Definition set_spOptAt (v : option string) (r : _Channel) : _Channel :=
  mk_Channel (name r) (comp r) (startIncrement r) (varLabel r) (uType r) (uLabel r) (dimPosAt r) (freqAt r) (cMapAt r) (vectAt r) v (vectName r) (vTmpl r) (vLength r).
Definition set_vectName (v : option string) (r : _Channel) : _Channel :=
  mk_Channel (name r) (comp r) (startIncrement r) (varLabel r) (uType r) (uLabel r) (dimPosAt r) (freqAt r) (cMapAt r) (vectAt r) (spOptAt r) v (vTmpl r) (vLength r).
Definition set_vTmpl (v : option Z) (r : _Channel) : _Channel :=
  mk_Channel (name r) (comp r) (startIncrement r) (varLabel r) (uType r) (uLabel r) (dimPosAt r) (freqAt r) (cMapAt r) (vectAt r) (spOptAt r) (vectName r) v (vLength r).
Definition set_vLength (v : option Z) (r : _Channel) : _Channel :=
  mk_Channel (name r) (comp r) (startIncrement r) (varLabel r) (uType r) (uLabel r) (dimPosAt r) (freqAt r) (cMapAt r) (vectAt r) (spOptAt r) (vectName r) (vTmpl r) v.

Definition set_channels (v : list (string * _Channel)) (r : _Component) : _Component :=
  mk_Component (number r) (compType r) v (nJuns r) (nTempl r) (templates r) (nLegs r) (sidelegs r) (nDynAx r) (dynAxes r) (title r) (dim r).
Definition set_nJuns (v : Z) (r : _Component) : _Component :=
  mk_Component (number r) (compType r) (channels r) v (nTempl r) (templates r) (nLegs r) (sidelegs r) (nDynAx r) (dynAxes r) (title r) (dim r).
Definition set_nTempl (v : Z) (r : _Component) : _Component :=
  mk_Component (number r) (compType r) (channels r) (nJuns r) v (templates r) (nLegs r) (sidelegs r) (nDynAx r) (dynAxes r) (title r) (dim r).
Definition set_templates (v : list (option nat)) (r : _Component) : _Component :=
  mk_Component (number r) (compType r) (channels r) (nJuns r) (nTempl r) v (nLegs r) (sidelegs r) (nDynAx r) (dynAxes r) (title r) (dim r).
Definition set_nLegs (v : Z) (r : _Component) : _Component :=
  mk_Component (number r) (compType r) (channels r) (nJuns r) (nTempl r) (templates r) v (sidelegs r) (nDynAx r) (dynAxes r) (title r) (dim r).
Definition set_sidelegs (v : list _SideLeg) (r : _Component) : _Component :=
  mk_Component (number r) (compType r) (channels r) (nJuns r) (nTempl r) (templates r) (nLegs r) v (nDynAx r) (dynAxes r) (title r) (dim r).
Definition set_nDynAx (v : Z) (r : _Component) : _Component :=
  mk_Component (number r) (compType r) (channels r) (nJuns r) (nTempl r) (templates r) (nLegs r) (sidelegs r) v (dynAxes r) (title r) (dim r).
Definition set_dynAxes (v : list _DynamicAxis) (r : _Component) : _Component :=
  mk_Component (number r) (compType r) (channels r) (nJuns r) (nTempl r) (templates r) (nLegs r) (sidelegs r) (nDynAx r) v (title r) (dim r).
Definition set_title (v : option string) (r : _Component) : _Component :=
  mk_Component (number r) (compType r) (channels r) (nJuns r) (nTempl r) (templates r) (nLegs r) (sidelegs r) (nDynAx r) (dynAxes r) v (dim r).
Definition set_dim (v : option Z) (r : _Component) : _Component :=
  mk_Component (number r) (compType r) (channels r) (nJuns r) (nTempl r) (templates r) (nLegs r) (sidelegs r) (nDynAx r) (dynAxes r) (title r) v.

Definition set_components (v : list ((Z * string) * _Component)) (r : XtvFile) : XtvFile :=
  mk_XtvFile (xtvFile r) v (tstore r) (times r) (SB r) (opened r).
Definition set_tstore (v : list _Template) (r : XtvFile) : XtvFile :=
  mk_XtvFile (xtvFile r) (components r) v (times r) (SB r) (opened r).
Definition set_times (v : list float) (r : XtvFile) : XtvFile :=
  mk_XtvFile (xtvFile r) (components r) (tstore r) v (SB r) (opened r).
Definition set_opened (v : option bool) (r : XtvFile) : XtvFile :=
  mk_XtvFile (xtvFile r) (components r) (tstore r) (times r) (SB r) v.

(* ----------------------------------------------------------------- *)
(** *** XtvFile.__init__ *)

(** In-place change of the value stored under a key that is present. *)
Fixpoint od_modify {K V} (keqb : K -> K -> bool) (d : list (K * V)) (k : K)
  (f : V -> V) : list (K * V) :=
  match d with
  | [] => []
  | (k', v) :: d' =>
      if keqb k' k then (k', f v) :: d' else (k', v) :: od_modify keqb d' k f
  end.

(** In-place change of the object at a reference. *)
Fixpoint store_modify {A} (l : list A) (n : nat) (f : A -> A) : list A :=
  match l, n with
  | [], _ => []
  | a :: l', O => f a :: l'
  | a :: l', Datatypes.S n' => a :: store_modify l' n' f
  end.

(** What the constructor mutates while it walks the blocks: the file
    position, the component table, the template objects, and the local
    variables [currentComp], [currentTempl] and [recordLength] (a local is
    [None] while it is unbound). *)
Record PState : Type := mk_PState {
  p_pos : Z;
  p_components : list ((Z * string) * _Component);
  p_tstore : list _Template;
  currentComp : option (Z * string);
  currentTempl : option nat;
  recordLength : Z }.

Section Init.
Variable file : list byte.

(** An unpacker call inside the constructor: it moves the file position. *)
Definition up {A} (m : M Z A) : M PState A :=
  fun st =>
    let (r, pos') := m (p_pos st) in
    (r, mk_PState pos' (p_components st) (p_tstore st) (currentComp st)
          (currentTempl st) (recordLength st)).

Definition the_currentComp : M PState (Z * string) :=
  st <- get ;;
  match currentComp st with
  | Some k => ret k
  | None => raise UnboundLocalError
  end.

Definition the_currentTempl : M PState nat :=
  st <- get ;;
  match currentTempl st with
  | Some r => ret r
  | None => raise UnboundLocalError
  end.

(** [currentComp.attr = ...] and the like: the component is the one stored
    under its key, the most recent [GCHd] block's. *)
Definition upd_comp (f : _Component -> _Component) : M PState unit :=
  k <- the_currentComp ;;
  modify (fun st =>
    mk_PState (p_pos st) (od_modify key_eqb (p_components st) k f)
      (p_tstore st) (currentComp st) (currentTempl st) (recordLength st)).

(** [currentTempl.attr = ...] *)
Definition upd_templ (f : _Template -> _Template) : M PState unit :=
  r <- the_currentTempl ;;
  modify (fun st =>
    mk_PState (p_pos st) (p_components st) (store_modify (p_tstore st) r f)
      (currentComp st) (currentTempl st) (recordLength st)).

(** [currentChannel.attr = ...] for the channel stored under [key] in the
    current component. *)
Definition upd_chan (key : string) (f : _Channel -> _Channel) : M PState unit :=
  upd_comp (fun c => set_channels (od_modify String.eqb (channels c) key f) c).

(** [currentTempl = _Template(name)]: a fresh object. *)
Definition new_currentTempl (nm : string) : M PState unit :=
  modify (fun st =>
    mk_PState (p_pos st) (p_components st)
      (p_tstore st ++ [new_Template nm]) (currentComp st)
      (Some (List.length (p_tstore st))) (recordLength st)).

(** [currentComp.templates.append(currentTempl)] *)
Definition append_currentTempl : M PState unit :=
  _ <- the_currentComp ;;
  r <- the_currentTempl ;;
  upd_comp (fun c => set_templates (templates c ++ [Some r]) c).

Definition block_GCHd : M PState unit :=
  compID <- up (unpack_int file) ;;
  _ <- up (unpack_int file) ;;
  ct <- up (unpack_string file) ;;
  modify (fun st =>
    mk_PState (p_pos st)
      (od_set key_eqb (p_components st) (compID, strip ct)
         (new_Component compID ct))
      (p_tstore st) (Some (compID, strip ct)) (currentTempl st)
      (recordLength st)) ;;;
  x <- up (unpack_string file) ;; upd_comp (set_title (Some x)) ;;;
  x <- up (unpack_int file) ;; upd_comp (set_dim (Some x)) ;;;
  x <- up (unpack_int file) ;; upd_comp (set_nTempl x) ;;;
  upd_comp (fun c => set_templates (templates c ++ [None]) c) ;;;
  x <- up (unpack_int file) ;; upd_comp (set_nJuns x) ;;;
  x <- up (unpack_int file) ;; upd_comp (set_nLegs x) ;;;
  _ <- up (unpack_int file) ;;
  _ <- up (unpack_int file) ;;
  _ <- up (unpack_int file) ;;
  _ <- up (unpack_int file) ;;
  x <- up (unpack_int file) ;; upd_comp (set_nDynAx x).

Definition block_GD3D : M PState unit :=
  new_currentTempl "GD3D" ;;;
  x <- up (unpack_int file) ;; upd_templ (set_nCells x) ;;;
  x <- up (unpack_int file) ;; upd_templ (set_nCellsI x) ;;;
  x <- up (unpack_int file) ;; upd_templ (set_nCellsJ x) ;;;
  x <- up (unpack_int file) ;; upd_templ (set_nCellsK x) ;;;
  upd_templ (fun t => set_dimi (nCellsI t) t) ;;;
  upd_templ (fun t => set_dimj (nCellsJ t) t) ;;;
  upd_templ (fun t => set_dimk (nCellsK t) t) ;;;
  x <- up (unpack_int file) ;; upd_templ (set_dynAxI x) ;;;
  x <- up (unpack_int file) ;; upd_templ (set_dynAxJ x) ;;;
  x <- up (unpack_int file) ;; upd_templ (set_dynAxK x) ;;;
  x <- up (unpack_string file) ;; upd_templ (set_coordSys (strip x)) ;;;
  let cs := strip x in
  if String.eqb cs "CART3D" then
    upd_templ (set_coordi "x") ;;; upd_templ (set_coordj "y") ;;;
    upd_templ (set_coordk "z")
  else if String.eqb cs "CYL3D" then
    upd_templ (set_coordi "r") ;;; upd_templ (set_coordj "t") ;;;
    upd_templ (set_coordk "z")
  else ret tt.

Definition block_GD3A : M PState unit :=
  x <- up (unpack_array file (unpack_double file)) ;; upd_templ (set_fI x) ;;;
  x <- up (unpack_array file (unpack_double file)) ;; upd_templ (set_fJ x) ;;;
  x <- up (unpack_array file (unpack_double file)) ;; upd_templ (set_fK x) ;;;
  x <- up (unpack_array file (unpack_double file)) ;; upd_templ (set_grav x) ;;;
  append_currentTempl.

Definition block_GD2D : M PState unit :=
  new_currentTempl "GD2D" ;;;
  x <- up (unpack_int file) ;; upd_templ (set_nCells x) ;;;
  x <- up (unpack_int file) ;; upd_templ (set_nCellsI x) ;;;
  x <- up (unpack_int file) ;; upd_templ (set_nCellsJ x) ;;;
  upd_templ (fun t => set_dimi (nCellsI t) t) ;;;
  upd_templ (fun t => set_dimj (nCellsJ t) t) ;;;
  x <- up (unpack_int file) ;; upd_templ (set_dynAxI x) ;;;
  x <- up (unpack_int file) ;; upd_templ (set_dynAxJ x) ;;;
  x <- up (unpack_string file) ;; upd_templ (set_coordSys (strip x)) ;;;
  let cs := strip x in
  if String.eqb cs "CART2D" then
    upd_templ (set_coordi "x") ;;; upd_templ (set_coordj "y")
  else if String.eqb cs "CYLRZ" then
    upd_templ (set_coordi "r") ;;; upd_templ (set_coordj "z")
  else if String.eqb cs "CYLRT" then
    upd_templ (set_coordi "r") ;;; upd_templ (set_coordj "t")
  else if String.eqb cs "CYLTZ" then
    upd_templ (set_coordi "t") ;;; upd_templ (set_coordj "z")
  else ret tt.

Definition block_GD2A : M PState unit :=
  x <- up (unpack_array file (unpack_double file)) ;; upd_templ (set_fI x) ;;;
  x <- up (unpack_array file (unpack_double file)) ;; upd_templ (set_fJ x) ;;;
  x <- up (unpack_array file (unpack_double file)) ;; upd_templ (set_grav x) ;;;
  append_currentTempl.

Definition block_GD1D : M PState unit :=
  new_currentTempl "GD1D" ;;;
  x <- up (unpack_int file) ;; upd_templ (set_nCells x) ;;;
  upd_templ (fun t => set_nCellsI (nCells t) t) ;;;
  upd_templ (fun t => set_dimi (nCells t) t) ;;;
  x <- up (unpack_int file) ;; upd_templ (set_dynAxI x) ;;;
  upd_templ (set_coordi "x").

Definition block_GD1A : M PState unit :=
  x <- up (unpack_array file (unpack_double file)) ;; upd_templ (set_fI x) ;;;
  x <- up (unpack_array file (unpack_double file)) ;; upd_templ (set_grav x) ;;;
  x <- up (unpack_array file (unpack_double file)) ;; upd_templ (set_fa x) ;;;
  append_currentTempl.

Definition block_GDLg : M PState unit :=
  s <- up (unpack_int file) ;;
  e <- up (unpack_int file) ;;
  j <- up (unpack_int file) ;;
  upd_comp (fun c => set_sidelegs (sidelegs c ++ [mk_SideLeg s e j]) c).

Definition block_DsAx : M PState unit :=
  a <- up (unpack_string file) ;;
  b <- up (unpack_string file) ;;
  c <- up (unpack_string file) ;;
  d <- up (unpack_string file) ;;
  e <- up (unpack_int file) ;;
  upd_comp (fun cp =>
    set_dynAxes (dynAxes cp ++ [mk_DynamicAxis a b c d e]) cp).

Definition block_VARD : M PState unit :=
  varName <- up (unpack_string file) ;;
  k <- the_currentComp ;;
  st <- get ;;
  let key := strip varName in
  upd_comp (fun c =>
    set_channels
      (od_set String.eqb (channels c) key
         (new_Channel k varName (recordLength st))) c) ;;;
  x <- up (unpack_string file) ;; upd_chan key (set_varLabel (Some x)) ;;;
  x <- up (unpack_string file) ;; upd_chan key (set_uType (Some x)) ;;;
  x <- up (unpack_string file) ;; upd_chan key (set_uLabel (Some x)) ;;;
  x <- up (unpack_string file) ;; upd_chan key (set_dimPosAt (Some x)) ;;;
  fq <- up (unpack_string file) ;; upd_chan key (set_freqAt (Some fq)) ;;;
  x <- up (unpack_string file) ;; upd_chan key (set_cMapAt (Some x)) ;;;
  x <- up (unpack_string file) ;; upd_chan key (set_vectAt (Some x)) ;;;
  x <- up (unpack_string file) ;; upd_chan key (set_spOptAt (Some x)) ;;;
  x <- up (unpack_string file) ;; upd_chan key (set_vectName (Some x)) ;;;
  x <- up (unpack_int file) ;; upd_chan key (set_vTmpl (Some x)) ;;;
  vl <- up (unpack_int file) ;; upd_chan key (set_vLength (Some vl)) ;;;
  if String.eqb fq "TD" then
    modify (fun st =>
      mk_PState (p_pos st) (p_components st) (p_tstore st) (currentComp st)
        (currentTempl st) (recordLength st + vl * 4))
  else ret tt.

(** One turn of the [while True] loop; [true] when the [DATA] block ends
    it ([break]). *)
Definition block_step : M PState bool :=
  start <- up get_position ;;
  blockType <- up (unpack_string file) ;;
  _ <- up (unpack_int file) ;;
  jump <- up (unpack_int file) ;;
  brk <- (if String.eqb blockType "GCHd" then block_GCHd ;;; ret false
          else if String.eqb blockType "GD3D" then block_GD3D ;;; ret false
          else if String.eqb blockType "GD3A" then block_GD3A ;;; ret false
          else if String.eqb blockType "GD2D" then block_GD2D ;;; ret false
          else if String.eqb blockType "GD2A" then block_GD2A ;;; ret false
          else if String.eqb blockType "GD1D" then block_GD1D ;;; ret false
          else if String.eqb blockType "GD1A" then block_GD1A ;;; ret false
          else if String.eqb blockType "GDLg" then block_GDLg ;;; ret false
          else if String.eqb blockType "DsAx" then block_DsAx ;;; ret false
          else if String.eqb blockType "VARD" then block_VARD ;;; ret false
          else if String.eqb blockType "DATA" then ret true
          else ret false) ;;
  if brk then ret true
  else up (set_position (start + jump)) ;;; ret false.

(** The loop.  A block may declare a size that does not advance the file
    position, so the loop need not end: [None] stands for a run that is
    still looping after [fuel] turns. *)
Fixpoint block_loop (fuel : nat) (st : PState) : option ((exn + unit) * PState) :=
  match fuel with
  | O => None
  | Datatypes.S fuel' =>
      match block_step st with
      | (inl e, st') => Some (inl e, st')
      | (inr true, st') => Some (inr tt, st')
      | (inr false, st') => block_loop fuel' st'
      end
  end.

(** The first [try]: the starting block. *)
Definition read_StartingBlock : M Z StartingBlock :=
  h <- unpack_string file ;;
  ints <- replicateM 17 (unpack_int file) ;;
  strs <- replicateM 7 (unpack_string file) ;;
  lift_res (StartingBlock_of h ints strs).

(** The loop over the time edits: one float at offset 20 of every record.
    [i] counts the records done, [n] those left. *)
Fixpoint read_times (sb : StartingBlock) (i : Z) (n : nat) : M Z (list float) :=
  match n with
  | O => ret []
  | Datatypes.S n' =>
      set_position (dataStart sb + i * dataLen sb + 20) ;;;
      t <- unpack_float file ;;
      ts <- read_times sb (i + 1) n' ;;
      ret (t :: ts)
  end.

(** [XtvFile(xtvFile)] with [verbose=False].  The outcome is [None] when
    the block loop has not ended within [fuel] turns, an exception when one
    leaves the constructor, and the object otherwise.

    - A failure in the starting block is caught and reported, and the next
      statement reads [self.SB], which was never assigned.
    - A file of another format returns early, [opened] unassigned.
    - An exception in the block loop is caught ([self.opened = False]) and
      the constructor goes on with what was parsed up to there.
    - The time loop is outside any [try].
    - The last statement is [self.opened = True]. *)
Definition XtvFile_init (fuel : nat) : option (res XtvFile) :=
  match read_StartingBlock 0 with
  | (inl _, _) => Some (inl AttributeError)
  | (inr sb, pos) =>
      let self := mk_XtvFile file [] [] [] sb None in
      if negb (String.eqb (fmtString sb) "MUX") then Some (inr self)
      else
        match block_loop fuel (mk_PState pos [] [] None None 24) with
        | None => None
        | Some (r, st) =>
            let self := set_tstore (p_tstore st)
                          (set_components (p_components st) self) in
            let self := match r with
                        | inl _ => set_opened (Some false) self
                        | inr _ => self
                        end in
            match read_times sb 0 (Z.to_nat (nPoints sb)) (p_pos st) with
            | (inl e, _) => Some (inl e)
            | (inr ts, _) =>
                let self := set_times ts self in
                Some (inr (set_opened (Some true) self))
            end
        end
  end.
End Init.

(* ================================================================= *)
(** ** Channel strings *)

Definition is_digit (c : ascii) : bool :=
  let n := nat_of_ascii c in (Nat.leb 48 n) && (Nat.leb n 57).

(** The longest prefix of digits, and what follows it. *)
Fixpoint span_digits (s : string) : string * string :=
  match s with
  | String c s' =>
      if is_digit c then let (ds, rest) := span_digits s' in (String c ds, rest)
      else (EmptyString, s)
  | EmptyString => (EmptyString, EmptyString)
  end.

(** One index group of the pattern, [L(\d\d+)] for the letter [L]: the
    letter, then two digits or more. *)
Definition index_group (letter : ascii) (s : string) : option (string * string) :=
  match s with
  | String c s' =>
      if Ascii.eqb c letter then
        let (ds, rest) := span_digits s' in
        if (2 <=? String.length ds)%nat then Some (ds, rest) else None
      else None
  | EmptyString => None
  end.

(** [p.match(s)] for the pattern
    [(?P<id>\d+)(?:A(?P<axial>\d\d+)(?:R(?P<radial>\d\d+)(?:T(?P<theta>\d\d+))?)?)?]:
    the groups [id], [axial], [radial], [theta] of a match at the start of
    [s], or [None] when there is none.  Every digit run is greedy and is
    followed by a letter or by the end of the pattern, and every group after
    [id] is optional, so the first match the backtracking search finds takes
    the whole digit run each time. *)
Definition regex_match (s : string)
  : option (string * option string * option string * option string) :=
  let (id, r0) := span_digits s in
  if (String.length id =? 0)%nat then None
  else match index_group "A" r0 with
       | None => Some (id, None, None, None)
       | Some (a, r1) =>
           match index_group "R" r1 with
           | None => Some (id, Some a, None, None)
           | Some (r, r2) =>
               match index_group "T" r2 with
               | None => Some (id, Some a, Some r, None)
               | Some (t, _) => Some (id, Some a, Some r, Some t)
               end
           end
       end.

(** Split at the last ["-"]: the text before it and the text after it. *)
Fixpoint rsplit_dash (s : string) : option (string * string) :=
  match s with
  | EmptyString => None
  | String c s' =>
      match rsplit_dash s' with
      | Some (h, t) => Some (String c h, t)
      | None => if Ascii.eqb c "-" then Some (EmptyString, s') else None
      end
  end.

(** [s.rpartition('-')]; without a separator the whole string is the last
    part. *)
Definition rpartition (s : string) : string * string * string :=
  match rsplit_dash s with
  | Some (h, t) => (h, "-", t)
  | None => ("", "", s)
  end.

(** The component id as [__parseChannelString] returns it: the matched
    digits, or the integer [0] of the fallback. *)
Inductive comp_id : Type :=
| IdStr (digits : string)
| IdInt (n : Z).

(** [__parseChannelString] *)
Definition parseChannelString (channel : string)
  : string * comp_id * option string * option string * option string :=
  let '(varName, _, id_and_mesh) := rpartition channel in
  match regex_match id_and_mesh with
  | Some (id, a, r, t) => (varName, IdStr id, a, r, t)
  | None => (channel, IdInt 0, Some "0", Some "0", Some "0")
  end.

(** [int(s)] for a string of decimal digits. *)
Definition int_of_digits (s : string) : Z :=
  fold_left (fun acc c => acc * 10 + (Z.of_nat (nat_of_ascii c) - 48))
    (list_ascii_of_string s) 0.

Definition int_of_id (c : comp_id) : Z :=
  match c with
  | IdStr s => int_of_digits s
  | IdInt n => n
  end.

(** [try: int(a) except TypeError: None] *)
Definition int_or_None (a : option string) : option Z :=
  match a with
  | Some s => Some (int_of_digits s)
  | None => None
  end.

Section Queries.
Variable self : XtvFile.

(** [self.components.get((id, compType))]; a [compType] of [None] is no
    key of the table. *)
Definition get_component (id : Z) (ct : option string) : option _Component :=
  match ct with
  | Some c => od_get key_eqb (components self) (id, c)
  | None => None
  end.

(** [__getCompType]: the first key with this id whose component has the
    channel. *)
Fixpoint getCompType_loop (keys : list (Z * string)) (compID : Z)
  (varName : string) : option string :=
  match keys with
  | [] => None
  | (id, ct) :: keys' =>
      if id =? compID then
        match od_get key_eqb (components self) (id, ct) with
        | Some c =>
            match od_get String.eqb (channels c) varName with
            | Some _ => Some ct
            | None => getCompType_loop keys' compID varName
            end
        | None => getCompType_loop keys' compID varName
        end
      else getCompType_loop keys' compID varName
  end.

Definition getCompType (compID : comp_id) (varName : string) : option string :=
  getCompType_loop (od_keys (components self)) (int_of_id compID) varName.

(** [__decode_channel] *)
Definition decode_channel (channel : string)
  : string * option string * Z * option Z * option Z * option Z :=
  let '(varName, id, a, r, t) := parseChannelString channel in
  let ct := getCompType id varName in
  (varName, ct, int_of_id id, int_or_None a, int_or_None r, int_or_None t).

(** [__getDimPosAt]: an unknown component or channel, or a channel without
    the attribute, is an [AttributeError], turned into the [XTVError]. *)
Definition getDimPosAt (id : Z) (ct : option string) (varName : string)
  : res string :=
  match get_component id ct with
  | Some c =>
      match od_get String.eqb (channels c) (strip varName) with
      | Some ch =>
          match dimPosAt ch with
          | Some d => inr (strip d)
          | None => inl (xtv_error INVALID_CHANNEL1)
          end
      | None => inl (xtv_error INVALID_CHANNEL1)
      end
  | None => inl (xtv_error INVALID_CHANNEL1)
  end.

(** [v > 0] for an index that may be [None] (in Python 2 [None] is smaller
    than every number). *)
Definition gt0 (v : option Z) : bool :=
  match v with
  | Some n => 0 <? n
  | None => false
  end.

(** [__transform_indices] *)
Definition transform_indices (id : Z) (ct : option string) (varName : string)
  (xr yt z : option Z) : res (option Z * option Z * option Z) :=
  match getDimPosAt id ct varName with
  | inl e => inl e
  | inr d =>
      if startswith d "3" then inr (xr, yt, z)
      else if startswith d "2" then
        if gt0 yt then inl (xtv_error ERR_YT_INDEX)
        else inr (xr, z, Some 0)
      else if startswith d "1" then
        if gt0 yt || gt0 xr then inl (xtv_error ERR_XRYT_INDEX)
        else inr (z, Some 0, Some 0)
      else if startswith d "0" then
        if gt0 yt || gt0 xr || gt0 z then inl (xtv_error ERR_AXRYT_INDEX)
        else inr (Some 0, Some 0, Some 0)
      else inl ValueError
  end.
End Queries.

(* ================================================================= *)
(** ** Library functions the reader calls *)

(** [rbind]: sequencing of pure value-or-exception steps. *)
Definition rbind {A B} (r : res A) (k : A -> res B) : res B :=
  match r with
  | inr a => k a
  | inl e => inl e
  end.

Notation "x <~ c1 ;; c2" := (rbind c1 (fun x => c2))
  (at level 61, c1 at next level, right associativity).
Notation "' pat <~ c1 ;; c2" := (rbind c1 (fun x => match x with pat => c2 end))
  (at level 61, pat pattern, c1 at next level, right associativity).

(** Reading an attribute of an object that may be [None], or an attribute
    that may be missing. *)
Definition attr {A} (o : option A) : res A :=
  match o with
  | Some a => inr a
  | None => inl AttributeError
  end.

(** [a / b] on Python 2 integers: floor division. *)
Definition py_div (a b : Z) : res Z :=
  if b =? 0 then inl ZeroDivisionError else inr (a / b).

(** The loop of [bisect.bisect_right(a, x)]: while [lo < hi], halve the
    interval on the test [x < a[mid]].  The interval shrinks at every turn, so
    [fuel] above its length is never used up. *)
Fixpoint bisect_loop (a : list float) (x : float) (fuel lo hi : nat) : nat :=
  match fuel with
  | O => lo
  | Datatypes.S fuel' =>
      if (lo <? hi)%nat then
        let mid := ((lo + hi) / 2)%nat in
        match nth_error a mid with
        | Some am =>
            if (x <? am)%float then bisect_loop a x fuel' lo mid
            else bisect_loop a x fuel' (mid + 1)%nat hi
        | None => lo
        end
      else lo
  end.

Definition bisect_right (a : list float) (x : float) : nat :=
  bisect_loop a x (Datatypes.S (List.length a)) 0%nat (List.length a).

(** The nearest binary64 number to the positive rational [p / q], ties to
    the even significand (what [strtod] returns for a decimal string). *)
Definition nearest_double (p q : Z) : float :=
  let e0 := Z.log2 p - Z.log2 q - 53 in
  let scaled e := if e <? 0 then (p * 2 ^ (- e), q) else (p, q * 2 ^ e) in
  let e1 := let (n, d) := scaled e0 in if 2 ^ 53 <=? n / d then e0 + 1 else e0 in
  let e := Z.max e1 (-1074) in
  let (n, d) := scaled e in
  let m := n / d in
  let r := n mod d in
  let m' := if (d <? 2 * r) || ((d =? 2 * r) && Z.odd m) then m + 1 else m in
  Z.ldexp (of_uint63 (Uint63.of_Z m')) e.

(** [round(x, ndigits)] of Python 2 for [0 <= ndigits]: the exact value of
    [x] is rounded to [ndigits] digits after the decimal point, a tie going
    away from zero, and the decimal result is converted back to the nearest
    float.  Zeros, infinities and NaN round to themselves. *)
Definition py_round (x : float) (ndigits : Z) : float :=
  match Prim2SF x with
  | S754_finite s m e =>
      let num := Z.pos m * (if e <? 0 then 1 else 2 ^ e) * 10 ^ ndigits in
      let den := if e <? 0 then 2 ^ (- e) else 1 in
      let q := (2 * num + den) / (2 * den) in
      let mag := if q =? 0 then 0%float else nearest_double q (10 ^ ndigits) in
      if s then (- mag)%float else mag
  | _ => x
  end.

(** Modelled from the spec: the reading of the rounding step in the
    specification's words, "rounded to 13 significant decimal digits".  The
    value is rounded at the [digits]-th digit counted from its leading
    decimal digit instead of from the decimal point.  The source has no such
    function; this one is only compared with [py_round]. *)
Definition round_significant (x : float) (digits : Z) : float :=
  match Prim2SF x with
  | S754_finite s m e =>
      let num0 := Z.pos m * (if e <? 0 then 1 else 2 ^ e) in
      let den0 := if e <? 0 then 2 ^ (- e) else 1 in
      (* the decimal exponent of the leading digit *)
      let d0 := Z.log2 num0 - Z.log2 den0 in
      let guess := (d0 * 30103) / 100000 in
      let ge10 k := if k <? 0 then den0 <=? num0 * 10 ^ (- k)
                    else den0 * 10 ^ k <=? num0 in
      let lead := if ge10 (guess + 1) then guess + 1
                  else if ge10 guess then guess else guess - 1 in
      let nd := digits - 1 - lead in
      let num := if nd <? 0 then num0 else num0 * 10 ^ nd in
      let den := if nd <? 0 then den0 * 10 ^ (- nd) else den0 in
      let q := (2 * num + den) / (2 * den) in
      let mag := if nd <? 0 then nearest_double (q * 10 ^ (- nd)) 1
                 else nearest_double q (10 ^ nd) in
      if s then (- mag)%float else mag
  | _ => x
  end.

(** [l.index(v)]: the position of the first element equal to [v]. *)
Fixpoint list_index (l : list float) (v : float) : res Z :=
  match l with
  | [] => inl ValueError
  | a :: l' =>
      if (a =? v)%float then inr 0
      else n <~ list_index l' v ;; inr (n + 1)
  end.

(** [[(z[i] + z[i+1]) * 0.5 for i in range(len(z) - 1)]] *)
Fixpoint midpoints (z : list float) : list float :=
  match z with
  | a :: (b :: _) as z' => ((a + b) * 0.5)%float :: midpoints z'
  | _ => []
  end.

(* ================================================================= *)
(** ** The value locator and the axial queries *)

Definition _fineMeshVars : list string :=
  ["depthZrRxIn"; "depthZrRxOn"; "eCR50_46"; "hgap"; "hrfgi"; "hrfgo";
   "hrfli"; "hrflo"; "hrfvi"; "hrfvo"; "ihtfi"; "ihtfo"; "qchfi"; "qchfo";
   "rftn"; "tchfi"; "tchfo"; "tmini"; "tmino"; "zht"].

(** [__interpolate]; a float division by zero raises. *)
Definition interpolate (x1 y1 x2 y2 x : float) : res float :=
  let d := (x2 - x1)%float in
  if (d =? 0)%float then inl ZeroDivisionError
  else inr ((y2 - y1) * (x - x1) / d + y1)%float.

(** [v is None or v == 0] *)
Definition none_or_zero (v : option Z) : bool :=
  match v with
  | Some n => n =? 0
  | None => true
  end.

(** [v > n] for an index that may be [None]. *)
Definition gt (v : option Z) (n : Z) : bool :=
  match v with
  | Some m => n <? m
  | None => false
  end.

(** An index in arithmetic: [None] is a [TypeError]. *)
Definition int_of (v : option Z) : res Z :=
  match v with
  | Some n => inr n
  | None => inl TypeError
  end.

Section Locator.
Variable self : XtvFile.

(** [self.components.get((id,compType)).channels.get(key)], read for one of
    its attributes. *)
Definition get_channel (id : Z) (ct : option string) (key : string)
  : res _Channel :=
  c <~ attr (get_component self id ct) ;;
  attr (od_get String.eqb (channels c) key).

(** [self.components.get((id,compType)).templates[tmplInd]]: the object, or
    [None] for the placeholder.  A reference the constructor stored always
    points into the store. *)
Definition get_template (id : Z) (ct : option string) (tmplInd : Z)
  : res (option _Template) :=
  c <~ attr (get_component self id ct) ;;
  r <~ py_getitem (templates c) tmplInd ;;
  match r with
  | None => inr None
  | Some ref =>
      match nth_error (tstore self) ref with
      | Some t => inr (Some t)
      | None => inl IndexError
      end
  end.

(** The 3D branch of [getData] after its lower-bound checks: the extents
    [nmesh_i], [nmesh_j], [nmesh_k] and the cell, by the suffix of
    [dimPosAt] and, for the J faces, the coordinate system. *)
Definition extents3D (d : string) (t : _Template) (vLen iv jv kv : Z)
  : res (Z * Z * Z * Z) :=
  let coordSystem := coordSys t in
  if endswith d "I" then
    ni <~ py_div vLen (dimj t * dimk t) ;;
    nj <~ py_div vLen ((dimi t + 1) * dimk t) ;;
    nk <~ py_div vLen ((dimi t + 1) * dimj t) ;;
    let levdim := (dimi t + 1) * dimj t in
    inr (ni, nj, nk, (kv - 1) * levdim + (jv - 1) * (dimi t + 1) + iv)
  else if endswith d "J" then
    if String.eqb coordSystem "CYL3D" then
      ni <~ py_div vLen (dimj t * dimk t) ;;
      nj <~ py_div vLen (dimi t * dimk t) ;;
      nk <~ py_div vLen (dimi t * dimj t) ;;
      let levdim := dimi t * dimj t in
      inr (ni, nj, nk, (kv - 1) * levdim + (jv - 1) * dimi t + iv)
    else
      ni <~ py_div vLen ((dimj t + 1) * dimk t) ;;
      nj <~ py_div vLen (dimi t * dimk t) ;;
      nk <~ py_div vLen (dimi t * (dimj t + 1)) ;;
      let levdim := dimi t * (dimj t + 1) in
      inr (ni, nj, nk, (kv - 1) * levdim + (jv - 1) * dimi t + iv)
  else if endswith d "K" then
    ni <~ py_div vLen (dimj t * (dimk t + 1)) ;;
    nj <~ py_div vLen (dimi t * (dimk t + 1)) ;;
    nk <~ py_div vLen (dimi t * dimj t) ;;
    let levdim := dimi t * dimj t in
    inr (ni, nj, nk, (kv - 1) * levdim + (jv - 1) * dimi t + iv)
  else if endswith d "c" then
    ni <~ py_div vLen (dimj t * dimk t) ;;
    nj <~ py_div vLen (dimi t * dimk t) ;;
    nk <~ py_div vLen (dimi t * dimj t) ;;
    let levdim := dimi t * dimj t in
    inr (ni, nj, nk, (kv - 1) * levdim + (jv - 1) * dimi t + iv)
  else inl (XTVError "!! Programming Error !! - Unexpected dimPosAt string").

(** The dispatch of [getData] on [dimPosAt]: the index checks and the
    linear cell index.  [tm] is the template the dimensions were read from
    ([None]: the placeholder, whose three dimensions read as [None]; its
    [coordSys] is an [AttributeError]). *)
Definition locate_cell (d : string) (tm : option _Template) (vLen : Z)
  (i j k : option Z) : res Z :=
  if startswith d "3" then
    if none_or_zero i then inl (xtv_error INDEX_I_LBOUND_ERR)
    else if none_or_zero j then inl (xtv_error INDEX_J_LBOUND_ERR)
    else if none_or_zero k then inl (xtv_error INDEX_K_LBOUND_ERR)
    else
      t <~ attr tm ;;
      iv <~ int_of i ;; jv <~ int_of j ;; kv <~ int_of k ;;
      '(nmesh_i, nmesh_j, nmesh_k, cell) <~ extents3D d t vLen iv jv kv ;;
      if gt i nmesh_i then inl (xtv_error INDEX_I_UBOUND_ERR)
      else if gt j nmesh_j then inl (xtv_error INDEX_J_UBOUND_ERR)
      else if gt k nmesh_k then inl (xtv_error INDEX_K_UBOUND_ERR)
      else inr cell
  else if startswith d "2" then
    dj <~ int_of (option_map dimj tm) ;;
    nmesh_i <~ py_div vLen (dj + 1) ;;
    if none_or_zero i then inl (xtv_error INDEX_I_LBOUND_ERR)
    else if gt i nmesh_i then inl (xtv_error INDEX_I_UBOUND_ERR)
    else
      di <~ int_of (option_map dimi tm) ;;
      nmesh_j <~ py_div vLen di ;;
      if none_or_zero j then inl (xtv_error INDEX_J_LBOUND_ERR)
      else if gt j nmesh_j then inl (xtv_error INDEX_J_UBOUND_ERR)
      else
        iv <~ int_of i ;; jv <~ int_of j ;;
        inr ((jv - 1) * di + iv)
  else if startswith d "1" then
    if none_or_zero i then inl (xtv_error INDEX_I_LBOUND_ERR)
    else if gt i vLen then inl (xtv_error INDEX_I_UBOUND_ERR)
    else int_of i
  else if startswith d "0" then inr 1
  else inl (XTVError "!! Programming Error !! - Encountered a variable with a dimension I can't handle").

(** The time checks at the head of a query: a negative time is replaced by
    the last time edit; otherwise a time past the last edit or before the
    first one is refused. *)
Definition check_time (time : float) : res float :=
  if (time <? 0)%float then py_getitem (times self) (-1)
  else
    last <~ py_getitem (times self) (-1) ;;
    if (last <? time)%float then inl (xtv_error TIME_UBOUND_ERR)
    else
      first <~ py_getitem (times self) 0 ;;
      if (time <? first)%float then inl (xtv_error TIME_LBOUND_ERR)
      else inr time.

(** [set_position(dataStart + edit*dataLen + startingPoint)] followed by
    [unpack_float()]. *)
Definition read_value (edit startingPoint : Z) : M Z float :=
  set_position (dataStart (SB self) + edit * dataLen (SB self) + startingPoint) ;;;
  unpack_float (xtvFile self).

(** The first half of [getData], up to [startingPoint]: the channel
    lookups, the mesh dimensions, the index checks.  It gives the channel
    object whose [startIncrement] is read, and the cell. *)
Definition locate (id : Z) (ct : option string) (varName : string)
  (i j k : option Z) : res (_Channel * Z) :=
  d <~ getDimPosAt self id ct varName ;;
  ch <~ get_channel id ct (strip varName) ;;
  tmplInd <~ attr (vTmpl ch) ;;
  vLen <~ attr (vLength ch) ;;
  tm <~ get_template id ct tmplInd ;;
  cell <~ locate_cell d tm vLen i j k ;;
  ch' <~ get_channel id ct varName ;;
  inr (ch', cell).

(** [getData] *)
Definition getData (time : float) (id : Z) (ct : option string)
  (varName : string) (i j k : option Z) : M Z float :=
  '(ch, cell) <- lift_res (locate id ct varName i j k) ;;
  let startingPoint := startIncrement ch + (cell - 1) * 4 in
  time <- lift_res (check_time time) ;;
  let startingEdit := Z.of_nat (bisect_right (times self) time) in
  tprev <- lift_res (py_getitem (times self) (startingEdit - 1)) ;;
  if (time =? tprev)%float then read_value (startingEdit - 1) startingPoint
  else
    y1 <- read_value (startingEdit - 1) startingPoint ;;
    y2 <- read_value startingEdit startingPoint ;;
    t1 <- lift_res (py_getitem (times self) (startingEdit - 1)) ;;
    t2 <- lift_res (py_getitem (times self) startingEdit) ;;
    lift_res (interpolate t1 y1 t2 y2 time).

(** The length of the fine-mesh array of a heat structure, in
    [getAxialLocations]. *)
Definition htstrc_vLength (id : Z) (ct : option string) (varName d : string)
  (tmplInd : Z) : res Z :=
  if String.eqb d "1dFa" then
    ch' <~ get_channel id ct varName ;;
    attr (vLength ch')
  else if String.eqb d "2dFaJ" then
    tm <~ get_template id ct tmplInd ;;
    t <~ attr tm ;;
    inr (dimj t + 1)
  else inl SystemExit.

(** The [zht] array of the time edit at or before [time], read whole. *)
Definition read_zht (time : float) (id : Z) (ct : option string) (vLen : Z)
  : M Z (list float) :=
  let cell := 1 in
  zc <- lift_res (get_channel id ct "zht") ;;
  let startingPoint := startIncrement zc + (cell - 1) * 4 in
  let startingEdit := Z.of_nat (bisect_right (times self) time) in
  set_position (dataStart (SB self)
                + (startingEdit - 1) * dataLen (SB self)
                + startingPoint) ;;;
  unpack_farray vLen (unpack_float (xtvFile self)).

(** The axial locations of [getAxialLocations] before the rounding, for a
    channel that is not a scalar. *)
Definition raw_axial_locations (time : float) (id : Z) (ct : option string)
  (varName d : string) (tmplInd : Z) : M Z (list float) :=
  if match ct with Some c => String.eqb c "htstrc" | None => false end then
    vLen <- lift_res (htstrc_vLength id ct varName d tmplInd) ;;
    if existsb (String.eqb varName) _fineMeshVars then
      zLocs <- read_zht time id ct vLen ;;
      n <- lift_res (list_index zLocs (-1)%float) ;;
      ret (firstn (Z.to_nat n) zLocs)
    else
      tm <- lift_res (get_template id ct tmplInd) ;;
      t <- lift_res (attr tm) ;;
      ret (fJ t)
  else if match ct with Some c => String.eqb c "htstr" | None => false end then
    tm <- lift_res (get_template id ct tmplInd) ;;
    t <- lift_res (attr tm) ;;
    ret (tl (fI t))
  else if match ct with Some c => String.eqb c "vessel" | None => false end then
    tm <- lift_res (get_template id ct tmplInd) ;;
    t <- lift_res (attr tm) ;;
    ret (if negb (String.eqb d "3dFaK") then midpoints (fK t) else fK t)
  else
    if startswith d "1" then
      tm <- lift_res (get_template id ct tmplInd) ;;
      t <- lift_res (attr tm) ;;
      ret (if String.eqb d "1dCc" then midpoints (fI t) else fI t)
    else raise SystemExit.

(** [getAxialLocations] *)
Definition getAxialLocations (time : float) (id : Z) (ct : option string)
  (varName : string) : M Z (list float) :=
  d <- lift_res (getDimPosAt self id ct varName) ;;
  ch <- lift_res (get_channel id ct (strip varName)) ;;
  tmplInd <- lift_res (attr (vTmpl ch)) ;;
  if String.eqb d "0D" then ret []
  else
    zLocs <- raw_axial_locations time id ct varName d tmplInd ;;
    ret (map (fun z => py_round z 13) zLocs).

(** The spatial lookup [getAxialData] and [getTimeVectorAxial] repeat for
    each time they need: bisect the axial locations, then read the value at
    the mesh index found, or interpolate between it and the next one. *)
Definition axial_lookup (time : float) (id : Z) (ct : option string)
  (varName : string) (zht : list float) (zLoc : float) (xr yt : option Z)
  : M Z float :=
  let z := Z.of_nat (bisect_right zht zLoc) in
  zprev <- lift_res (py_getitem zht (z - 1)) ;;
  if (zLoc =? zprev)%float then
    '(i, j, k) <- lift_res (transform_indices self id ct varName xr yt (Some z)) ;;
    getData time id ct varName i j k
  else
    '(i, j, k) <- lift_res (transform_indices self id ct varName xr yt (Some z)) ;;
    lVal <- getData time id ct varName i j k ;;
    '(i, j, k) <- lift_res (transform_indices self id ct varName xr yt (Some (z + 1))) ;;
    uVal <- getData time id ct varName i j k ;;
    z1 <- lift_res (py_getitem zht (z - 1)) ;;
    z2 <- lift_res (py_getitem zht z) ;;
    lift_res (interpolate z1 lVal z2 uVal zLoc).

(** The input checks of [getAxialData] on the axial locations. *)
Definition check_axial (zht : list float) (zLoc : float) : res unit :=
  if (List.length zht =? 0)%nat then inl (xtv_error AXIAL_SCALAR_ERR)
  else
    last <~ py_getitem zht (-1) ;;
    if (last <? zLoc)%float then inl (xtv_error AXIAL_UBOUND_ERR)
    else
      first <~ py_getitem zht 0 ;;
      if (zLoc <? first)%float then inl (xtv_error AXIAL_LBOUND_ERR)
      else inr tt.

(** [getAxialData] *)
Definition getAxialData (time : float) (id : Z) (ct : option string)
  (varName : string) (zLoc : float) (xr yt : option Z) : M Z float :=
  time <- lift_res (check_time time) ;;
  let time_index := Z.of_nat (bisect_right (times self) time) in
  tprev <- lift_res (py_getitem (times self) (time_index - 1)) ;;
  if (time =? tprev)%float then
    zht <- getAxialLocations time id ct varName ;;
    lift_res (check_axial zht zLoc) ;;;
    axial_lookup time id ct varName zht zLoc xr yt
  else
    timeLower <- lift_res (py_getitem (times self) (time_index - 1)) ;;
    timeUpper <- lift_res (py_getitem (times self) time_index) ;;
    zht <- getAxialLocations timeLower id ct varName ;;
    lift_res (check_axial zht zLoc) ;;;
    lvalue <- axial_lookup timeLower id ct varName zht zLoc xr yt ;;
    zht <- getAxialLocations timeUpper id ct varName ;;
    uvalue <- axial_lookup timeUpper id ct varName zht zLoc xr yt ;;
    lift_res (interpolate timeLower lvalue timeUpper uvalue time).

(** [getAxialDataChannel] *)
Definition getAxialDataChannel (time : float) (channel : string)
  (zLoc : float) : M Z float :=
  let '(varName, ct, id, a, r, t) := decode_channel self channel in
  getAxialData time id ct varName zLoc r t.

(** [getDataChannel] *)
Definition getDataChannel (time : float) (channel : string) : M Z float :=
  let '(varName, ct, id, a, r, t) := decode_channel self channel in
  '(i, j, k) <- lift_res (transform_indices self id ct varName r t a) ;;
  getData time id ct varName i j k.

(** [getTimeVector] *)
Definition getTimeVector (channel : string) : M Z (list (float * float)) :=
  let '(varName, ct, id, a, r, t) := decode_channel self channel in
  '(i, j, k) <- lift_res (transform_indices self id ct varName r t a) ;;
  mapM (fun time =>
          value <- getData time id ct varName i j k ;;
          ret (time, value))
       (times self).

(** [getTimeVectorAxial]: no check of the axial locations before the
    lookup. *)
Definition getTimeVectorAxial (channel : string) (zLoc : float)
  : M Z (list (float * float)) :=
  let '(varName, ct, id, a, xr, yt) := decode_channel self channel in
  mapM (fun time =>
          zLocs <- getAxialLocations time id ct varName ;;
          value <- axial_lookup time id ct varName zLocs zLoc xr yt ;;
          ret (time, value))
       (times self).
End Locator.

(* ================================================================= *)
(** ** Sample files

    Small XTV files, written out byte by byte with the encoders below and
    read back by the constructor.  Each has a pipe (a cell-centred and a
    face 1D channel and a scalar), a heat structure with a fine-mesh channel,
    and a vessel (a cell-centred and a face 3D channel), over three time
    edits. *)

Definition octets (l : list Z) : list byte :=
  map (fun z => match Byte.of_N (Z.to_N z) with Some b => b | None => x00 end) l.

Definition xdr_int (z : Z) : list Z :=
  let u := z mod 2 ^ 32 in
  [u / 2 ^ 24; (u / 2 ^ 16) mod 256; (u / 2 ^ 8) mod 256; u mod 256].

Definition xdr_string (s : string) : list Z :=
  let n := String.length s in
  xdr_int (Z.of_nat n)
  ++ map (fun c => Z.of_nat (nat_of_ascii c)) (list_ascii_of_string s)
  ++ repeat 0 ((4 - n mod 4) mod 4)%nat.

(** A binary64 bit pattern. *)
Definition xdr_double (bits : Z) : list Z :=
  xdr_int (bits / 2 ^ 32) ++ xdr_int (bits mod 2 ^ 32).

Definition xdr_array (items : list (list Z)) : list Z :=
  xdr_int (Z.of_nat (List.length items)) ++ List.concat items.

(** A block: type, revision, size, content. *)
Definition xdr_block (ty : string) (body : list Z) : list Z :=
  let hd := xdr_string ty ++ xdr_int 0 in
  hd ++ xdr_int (Z.of_nat (List.length hd) + 4 + Z.of_nat (List.length body)) ++ body.

(** The binary32 bit pattern of a small natural number. *)
Definition f32_of_nat (n : Z) : Z :=
  if n =? 0 then 0
  else let e := Z.log2 n in
       Z.shiftl (127 + e) 23 + Z.shiftl (n - 2 ^ e) (23 - e).

(** Bit patterns: the doubles 0, 1, 2 and 4097 + 2^-16; the single-precision
    numbers -1, 0.5 and 1.5. *)
Definition d0 : Z := 0.
Definition d1 : Z := 1023 * 2 ^ 52.
Definition d2 : Z := 1024 * 2 ^ 52.
Definition d_wide : Z := 1035 * 2 ^ 52 + 2 ^ 40 + 2 ^ 24.
Definition s_minus1 : Z := 3212836864.
Definition s_half : Z := 1056964608.
Definition s_3half : Z := 1069547520.

Definition xdr_VARD (nm dpa : string) (tmpl len : Z) : list Z :=
  xdr_block "VARD"
    (xdr_string nm ++ xdr_string "label" ++ xdr_string "u" ++ xdr_string "U"
     ++ xdr_string dpa ++ xdr_string "TD" ++ xdr_string "" ++ xdr_string ""
     ++ xdr_string "" ++ xdr_string "" ++ xdr_int tmpl ++ xdr_int len).

Definition xdr_GCHd (id : Z) (ct : string) (dm : Z) : list Z :=
  xdr_block "GCHd"
    (xdr_int id ++ xdr_int 0 ++ xdr_string ct ++ xdr_string "title"
     ++ xdr_int dm ++ xdr_int 1 ++ List.concat (repeat (xdr_int 0) 7)).

Definition faces : list Z := xdr_array [xdr_double d0; xdr_double d1; xdr_double d2].
Definition wide_faces : list Z :=
  xdr_array [xdr_double d0; xdr_double d1; xdr_double d_wide].

Definition sample_header (start : Z) : list Z :=
  xdr_string "XTV"
  ++ List.concat (map xdr_int [1; 0; 0; 0; 0; 3; 0; 7; 0; 7; start; 164; 3; 2; 0; 0; 0])
  ++ List.concat (map xdr_string ["MUX"; "SI"; "sys"; "os"; "date"; "time"; "sample"])
  ++ xdr_GCHd 500 "pipe" 1
  ++ xdr_block "GD1D" (xdr_int 2 ++ xdr_int 0)
  ++ xdr_block "GD1A" (faces ++ xdr_array [] ++ xdr_array [])
  ++ xdr_VARD "pn" "1dCc" 1 2
  ++ xdr_VARD "vln" "1dFa" 1 3
  ++ xdr_VARD "power" "0D" 0 1
  ++ xdr_GCHd 140 "htstrc" 2
  ++ xdr_block "GD2D" (List.concat (map xdr_int [4; 2; 2; 0; 0]) ++ xdr_string "CYLRZ")
  ++ xdr_block "GD2A" (faces ++ faces ++ xdr_array [])
  ++ xdr_VARD "rftn" "2dFaJ" 1 6
  ++ xdr_VARD "zht" "1dFa" 1 3
  ++ xdr_GCHd 200 "vessel" 3
  ++ xdr_block "GD3D" (List.concat (map xdr_int [8; 2; 2; 2; 0; 0; 0]) ++ xdr_string "CYL3D")
  ++ xdr_block "GD3A" (faces ++ faces ++ wide_faces ++ xdr_array [])
  ++ xdr_VARD "pn" "3dCc" 1 8
  ++ xdr_VARD "vlnz" "3dFaK" 1 12
  ++ xdr_block "DATA" [].

(** One time record: twenty bytes, the time, then thirty-five values; the
    value in slot [s] of record [r] is the number [100*r + s + 1], except the
    three slots of [zht] (12 to 14), which hold [zht]. *)
Definition sample_record (zht : list Z) (r : Z) (tbits : Z) : list Z :=
  repeat 0 20%nat ++ xdr_int tbits
  ++ List.concat (map (fun s => xdr_int (f32_of_nat (100 * r + s + 1))) [0; 1; 2; 3; 4; 5; 6; 7; 8; 9; 10; 11])
  ++ List.concat (map xdr_int zht)
  ++ List.concat (map (fun s => xdr_int (f32_of_nat (100 * r + s + 1)))
               [15; 16; 17; 18; 19; 20; 21; 22; 23; 24; 25; 26; 27; 28; 29;
                30; 31; 32; 33; 34]).

(** The file with the three times [t0], [t1], [t2] (binary32 bit patterns)
    and the fine-mesh heights [zht]. *)
Definition sample_file (t0 t1 t2 : Z) (zht : list Z) : list byte :=
  let start := Z.of_nat (List.length (sample_header 0)) in
  octets (sample_header start ++ sample_record zht 0 t0
          ++ sample_record zht 1 t1 ++ sample_record zht 2 t2).

Definition no_file : XtvFile :=
  mk_XtvFile [] [] [] []
    (mk_StartingBlock "" 0 0 0 0 0 0 0 0 0 0 0 0 0 0 0 0 0 "" "" "" "" "" "" "")
    None.

Definition opened_file (file : list byte) : XtvFile :=
  match XtvFile_init file 100 with
  | Some (inr x) => x
  | _ => no_file
  end.

(** Times 0, 1, 2; heights 0.5, 1.5 and the end marker. *)
Definition sample : XtvFile :=
  Eval vm_compute in
    opened_file (sample_file 0 (f32_of_nat 1) (f32_of_nat 2)
                   [s_half; s_3half; s_minus1]).

(** Times -1, 0, 1. *)
Definition sample_neg : XtvFile :=
  Eval vm_compute in
    opened_file (sample_file s_minus1 0 (f32_of_nat 1)
                   [s_half; s_3half; s_minus1]).

(** No end marker among the heights. *)
Definition sample_full : XtvFile :=
  Eval vm_compute in
    opened_file (sample_file 0 (f32_of_nat 1) (f32_of_nat 2)
                   [s_half; s_3half; f32_of_nat 2]).

(** A header and nothing after it: no block, no time edit. *)
Definition hdr_only : list byte :=
  octets (repeat 0 72%nat ++ xdr_string "MUX" ++ repeat 0 24%nat).

(** Times 1, 2, 4: a file whose first time edit is after 0. *)
Definition sample_late : XtvFile :=
  Eval vm_compute in
    opened_file (sample_file (f32_of_nat 1) (f32_of_nat 2) (f32_of_nat 4)
                   [s_half; s_3half; s_minus1]).

(** The channel [pn] of the pipe in the sample files. *)
Definition pn_channel : _Channel :=
  mk_Channel "pn" (500, "pipe") 24 (Some "label") (Some "u") (Some "U")
    (Some "1dCc") (Some "TD") (Some "") (Some "") (Some "") (Some "")
    (Some 1) (Some 2).


(* ================================================================= *)
(** ** The bulk queries *)

(** [getTimeData]: [getData] at each time of a list, in order. *)
Definition getTimeData (self : XtvFile) (times_wanted : list float) (id : Z)
  (ct : option string) (varName : string) (i j k : option Z)
  : M Z (list float) :=
  mapM (fun time => getData self time id ct varName i j k) times_wanted.

(** [getAxialVector]: the axial locations at a time, then [getAxialData] at
    each of them.  The mesh indices of the channel string are decoded and
    only the radial and theta ones are used. *)
Definition getAxialVector (self : XtvFile) (time : float) (channel : string)
  : M Z (list (float * float)) :=
  let '(varName, ct, id, a, r, t) := decode_channel self channel in
  zLocs <- getAxialLocations self time id ct varName ;;
  mapM (fun z =>
          value <- getAxialData self time id ct varName z r t ;;
          ret (z, value))
       zLocs.

(* ================================================================= *)
(** ** More notions and sample files *)

(** The block types the constructor knows. *)
Definition known_block (blockType : string) : bool :=
  existsb (String.eqb blockType)
    ["GCHd"; "GD3D"; "GD3A"; "GD2D"; "GD2A"; "GD1D"; "GD1A"; "GDLg"; "DsAx";
     "VARD"; "DATA"].

(** The starting block of [hdr_only], then a block of an unknown type that
    declares the size 0. *)
Definition zero_size_block : list byte :=
  hdr_only ++ octets (xdr_string "JUNK" ++ xdr_int 0 ++ xdr_int 0).

(** A property of every character of a string. *)
Fixpoint string_forall (p : ascii -> bool) (s : string) : bool :=
  match s with
  | EmptyString => true
  | String c s' => p c && string_forall p s'
  end.

(** A string of decimal digits, and a string without a hyphen. *)
Definition all_digits (s : string) : bool := string_forall is_digit s.
Definition no_dash (s : string) : bool :=
  string_forall (fun c => negb (Ascii.eqb c "-")) s.

(** An index of a channel identifier: two decimal digits at least. *)
Definition index_ok (o : option string) : bool :=
  match o with
  | Some s => all_digits s && (2 <=? String.length s)%nat
  | None => true
  end.

(** A channel identifier as the documentation writes it,
    [<variable>-<id>[A<axial>[R<radial>[T<theta>]]]]: a group is written
    only when the one before it is. *)
Definition channel_string (varName id : string) (a r t : option string)
  : string :=
  varName ++ "-" ++ id ++
  match a with
  | None => ""
  | Some a' =>
      "A" ++ a' ++
      match r with
      | None => ""
      | Some r' =>
          "R" ++ r' ++
          match t with
          | None => ""
          | Some t' => "T" ++ t'
          end
      end
  end.

(** Text after an identifier that the pattern cannot take for more of it:
    no hyphen, and no digit and none of the letters [A], [R], [T] at its
    start. *)
Definition trailing_text (s : string) : bool :=
  no_dash s &&
  match s with
  | EmptyString => true
  | String c _ =>
      negb (is_digit c) && negb (Ascii.eqb c "A") && negb (Ascii.eqb c "R")
      && negb (Ascii.eqb c "T")
  end.

(** A loop over pure steps: the results in order, or the first exception. *)
Fixpoint mapR {A B} (f : A -> res B) (xs : list A) : res (list B) :=
  match xs with
  | [] => inr []
  | x :: xs' => y <~ f x ;; ys <~ mapR f xs' ;; inr (y :: ys)
  end.

(** The entries of a list with their positions, [enumerate(l)]. *)
Definition enumerate {A} (l : list A) : list (nat * A) :=
  combine (seq 0 (List.length l)) l.

(** The component table as the data model has it: every component is
    stored under its number and its stripped type, every channel under its
    stripped name, and no key is there twice. *)
Definition channel_keyed (e : string * _Channel) : Prop :=
  fst e = strip (name (snd e)).

Definition component_keyed (e : (Z * string) * _Component) : Prop :=
  fst e = (number (snd e), strip (compType (snd e)))
  /\ Forall channel_keyed (channels (snd e))
  /\ NoDup (od_keys (channels (snd e))).

Definition components_keyed (l : list ((Z * string) * _Component)) : Prop :=
  Forall component_keyed l /\ NoDup (od_keys l).

(** A step of the constructor keeps the table keyed, whether it returns or
    raises. *)
Definition keeps_keyed {A} (m : M PState A) : Prop :=
  forall st, components_keyed (p_components st) ->
             components_keyed (p_components (snd (m st))).

(** [lstrip] on the list of characters, and a list that does not start
    with white space. *)
Fixpoint drop_space (l : list ascii) : list ascii :=
  match l with
  | c :: l' => if is_space c then drop_space l' else l
  | [] => []
  end.

Definition no_space_first (l : list ascii) : Prop :=
  match l with
  | c :: _ => is_space c = false
  | [] => True
  end.

(* ================================================================= *)
(** ** Notions the statements use *)

(** The time index as the data model has it: numbers (no NaN) in
    non-decreasing order. *)
Definition ascending (l : list float) : Prop :=
  StronglySorted (fun a b => (a <=? b)%float = true) l
  /\ Forall (fun a => (a =? a)%float = true) l.

(** Whether a token starts with a decimal digit. *)
Definition starts_with_digit (s : string) : bool :=
  match s with
  | String c _ => is_digit c
  | EmptyString => false
  end.

(** A decoded float that is not a zero. *)
Definition SFnonzero (x : spec_float) : Prop :=
  match x with
  | S754_zero _ => False
  | _ => True
  end.

(** The float decoded at an absolute offset of the file. *)
Definition float_at (file : list byte) (offset : Z) : res float :=
  eval (set_position offset ;;; unpack_float file) 0.

(** [getData] read as a function of the file content alone. *)
Definition getData_pure (self : XtvFile) (time : float) (id : Z)
  (ct : option string) (varName : string) (i j k : option Z) : res float :=
  '(ch, cell) <~ locate self id ct varName i j k ;;
  let sp := startIncrement ch + (cell - 1) * 4 in
  let at_edit e :=
    float_at (xtvFile self) (dataStart (SB self) + e * dataLen (SB self) + sp) in
  t <~ check_time self time ;;
  let se := Z.of_nat (bisect_right (times self) t) in
  tprev <~ py_getitem (times self) (se - 1) ;;
  if (t =? tprev)%float then at_edit (se - 1)
  else
    y1 <~ at_edit (se - 1) ;;
    y2 <~ at_edit se ;;
    t1 <~ py_getitem (times self) (se - 1) ;;
    t2 <~ py_getitem (times self) se ;;
    interpolate t1 y1 t2 y2 t.

(* ================================================================= *)
(** ** The sample files are what the constructor returns *)

Lemma sample_is_parsed :
  XtvFile_init (sample_file 0 (f32_of_nat 1) (f32_of_nat 2)
                  [s_half; s_3half; s_minus1]) 100 = Some (inr sample)
  /\ XtvFile_init (sample_file s_minus1 0 (f32_of_nat 1)
                     [s_half; s_3half; s_minus1]) 100 = Some (inr sample_neg)
  /\ XtvFile_init (sample_file 0 (f32_of_nat 1) (f32_of_nat 2)
                     [s_half; s_3half; f32_of_nat 2]) 100
     = Some (inr sample_full)
  /\ XtvFile_init (sample_file (f32_of_nat 1) (f32_of_nat 2) (f32_of_nat 4)
                     [s_half; s_3half; s_minus1]) 100
     = Some (inr sample_late).
Proof. repeat split; vm_compute; reflexivity. Qed.

(* ================================================================= *)
(** ** Order on floats

    The comparisons of [PrimFloat] are specified through [SFcompare] on the
    decoded numbers: a lexicographic comparison of sign, exponent and
    significand, in which NaN compares with nothing. *)

(** Two finite numbers of one sign compare by exponent, then significand;
    the result is reversed for negative numbers. *)
Lemma SFcompare_finite_same_sign (s : bool) (m1 m2 : positive) (e1 e2 : Z) :
  SFcompare (S754_finite s m1 e1) (S754_finite s m2 e2)
  = Some (let c := match (e1 ?= e2)%Z with
                   | Eq => (m1 ?= m2)%positive
                   | c => c
                   end in
          if s then CompOpp c else c).
Proof.
  destruct s; simpl; unfold Pos.compare; destruct (e1 ?= e2)%Z; reflexivity.
Qed.

(** Case analysis on every comparison of exponents or significands. *)
Ltac cmp_cases :=
  repeat match goal with
    | H : context [(?a ?= ?b)%Z] |- _ =>
        destruct (Z.compare_spec a b); simpl in H
    | H : context [(?a ?= ?b)%positive] |- _ =>
        destruct (Pos.compare_spec a b); simpl in H
    | |- context [(?a ?= ?b)%Z] =>
        destruct (Z.compare_spec a b); simpl
    | |- context [(?a ?= ?b)%positive] =>
        destruct (Pos.compare_spec a b); simpl
    end.

(** An order fact on floats: pass to the decoded numbers, split on their
    shape and sign, and settle the comparisons that remain by arithmetic. *)
Ltac sf_order :=
  rewrite ?ltb_spec, ?leb_spec, ?eqb_spec;
  unfold SFltb, SFleb, SFeqb;
  repeat match goal with
    | |- context [Prim2SF ?x] => generalize (Prim2SF x); clear x
    end;
  intros;
  repeat match goal with
    | x : spec_float |- _ => destruct x as [[]|[]| |[] ? ?]
    end;
  rewrite ?SFcompare_finite_same_sign in *;
  simpl in *; try discriminate; try reflexivity;
  cmp_cases; subst; try discriminate; try reflexivity; try lia.

Lemma fle_eq_not_lt (a b t : float) :
  (a <=? b)%float = true -> (t =? b)%float = true -> (t <? a)%float = false.
Proof. sf_order. Qed.

Lemma feq_fle_neq_lt (a b t : float) :
  (t =? a)%float = true -> (a <=? b)%float = true ->
  (t =? b)%float = false -> (t <? b)%float = true.
Proof. sf_order. Qed.

Lemma fle_lt_not_lt (a b t : float) :
  (a <=? b)%float = true -> (b <? t)%float = true -> (t <? a)%float = false.
Proof. sf_order. Qed.

Lemma flt_fle_lt (a b t : float) :
  (t <? b)%float = true -> (b <=? a)%float = true -> (t <? a)%float = true.
Proof. sf_order. Qed.

Lemma feq_not_lt (a t : float) :
  (t =? a)%float = true -> (t <? a)%float = false /\ (a <? t)%float = false.
Proof. split; revert H; sf_order. Qed.


Lemma flt_is_fle (a b : float) :
  (a <? b)%float = true -> (a <=? b)%float = true.
Proof. sf_order. Qed.

Lemma flt_trans (a b c : float) :
  (a <? b)%float = true -> (b <? c)%float = true -> (a <? c)%float = true.
Proof. sf_order. Qed.

(** Addition of floats is commutative. *)
Lemma fadd_comm (x y : float) : (x + y)%float = (y + x)%float.
Proof.
  apply Prim2SF_inj. rewrite !add_spec. unfold SF64add, SFadd.
  destruct (Prim2SF x) as [[]|[]| |sx mx ex], (Prim2SF y) as [[]|[]| |sy my ey];
    try reflexivity.
  rewrite (Z.min_comm ex ey). f_equal. apply Z.add_comm.
Qed.

(* ================================================================= *)
(** ** The difference of two distinct floats is not zero *)

Lemma digits2_pos_bounds (m : positive) :
  2 ^ (Z.pos (digits2_pos m) - 1) <= Z.pos m < 2 ^ Z.pos (digits2_pos m).
Proof.
  induction m as [m IH|m IH|]; cbn [digits2_pos].
  - rewrite Pos2Z.inj_succ.
    replace (Z.succ (Z.pos (digits2_pos m)) - 1) with (Z.pos (digits2_pos m)) by lia.
    rewrite Z.pow_succ_r by lia.
    assert (2 ^ Z.pos (digits2_pos m)
            = 2 * 2 ^ (Z.pos (digits2_pos m) - 1)).
    { rewrite <- Z.pow_succ_r by lia. f_equal. lia. }
    lia.
  - rewrite Pos2Z.inj_succ.
    replace (Z.succ (Z.pos (digits2_pos m)) - 1) with (Z.pos (digits2_pos m)) by lia.
    rewrite Z.pow_succ_r by lia.
    assert (2 ^ Z.pos (digits2_pos m)
            = 2 * 2 ^ (Z.pos (digits2_pos m) - 1)).
    { rewrite <- Z.pow_succ_r by lia. f_equal. lia. }
    lia.
  - simpl. lia.
Qed.

Lemma shr_1_m (r : shr_record) :
  0 <= shr_m r -> shr_m (shr_1 r) = shr_m r / 2.
Proof.
  destruct r as [m rb sb]. cbn [shr_m]. intros Hm. unfold shr_1.
  destruct m as [|[p|p|]|p]; cbn [shr_m].
  - reflexivity.
  - apply Z.div_unique with (r := 1); lia.
  - apply Z.div_unique with (r := 0); lia.
  - reflexivity.
  - lia.
Qed.

Lemma iter_shr_1_m (p : positive) :
  forall r, 0 <= shr_m r ->
            shr_m (iter_pos shr_1 p r) = shr_m r / 2 ^ Z.pos p.
Proof.
  induction p as [p IH|p IH|]; intros r Hr; cbn [iter_pos];
    try assert (Hpow : 0 < 2 ^ Z.pos p) by (apply Z.pow_pos_nonneg; lia).
  - assert (H1 : 0 <= shr_m (shr_1 r))
      by (rewrite shr_1_m by assumption; apply Z.div_pos; lia).
    assert (H2 : 0 <= shr_m (iter_pos shr_1 p (shr_1 r)))
      by (rewrite IH by assumption; apply Z.div_pos; lia).
    rewrite IH, IH, shr_1_m by assumption.
    rewrite !Z.div_div by lia. f_equal.
    assert (E : Z.pos p~1 = 1 + Z.pos p + Z.pos p) by lia.
    rewrite E, !Z.pow_add_r by lia. change (2 ^ 1) with 2. ring.
  - assert (H2 : 0 <= shr_m (iter_pos shr_1 p r))
      by (rewrite IH by assumption; apply Z.div_pos; lia).
    rewrite IH, IH by assumption.
    rewrite !Z.div_div by lia. f_equal.
    assert (E : Z.pos p~0 = Z.pos p + Z.pos p) by lia.
    rewrite E, Z.pow_add_r by lia. ring.
  - rewrite shr_1_m by assumption. reflexivity.
Qed.

Lemma shr_record_of_loc_m (m : Z) (l : location) :
  shr_m (shr_record_of_loc m l) = m.
Proof. destruct l as [|[]]; reflexivity. Qed.

Lemma shr_fexp_pos (m e : Z) (l : location) :
  0 < m -> SpecFloat.emin prec emax <= e ->
  0 < shr_m (fst (shr_fexp prec emax m e l))
  /\ SpecFloat.emin prec emax <= snd (shr_fexp prec emax m e l).
Proof.
  intros Hm He. unfold shr_fexp, shr.
  destruct m as [|p|p]; try lia. cbn [Zdigits2].
  pose proof (digits2_pos_bounds p) as Hd.
  set (d := Z.pos (digits2_pos p)) in *.
  unfold fexp.
  destruct (Z.max (d + e - prec) (SpecFloat.emin prec emax) - e) as [|q|q] eqn:En;
    cbn [fst snd].
  - rewrite shr_record_of_loc_m. lia.
  - assert (Hq : Z.pos q = d - prec) by lia.
    split; [|lia].
    rewrite iter_shr_1_m by (rewrite shr_record_of_loc_m; lia).
    rewrite shr_record_of_loc_m.
    apply Z.div_str_pos. split; [apply Z.pow_pos_nonneg; lia|].
    apply Z.le_trans with (2 ^ (d - 1)); [|lia].
    apply Z.pow_le_mono_r; [lia|]. unfold prec in Hq. lia.
  - rewrite shr_record_of_loc_m. lia.
Qed.

Lemma round_nearest_even_pos (m : Z) (l : location) :
  0 < m -> 0 < round_nearest_even m l.
Proof.
  intros Hm. unfold round_nearest_even.
  destruct l as [|[]]; try lia. destruct (Z.even m); lia.
Qed.

Lemma binary_round_aux_nonzero (s : bool) (m e : Z) (l : location) :
  0 < m -> SpecFloat.emin prec emax <= e ->
  SFnonzero (binary_round_aux prec emax s m e l).
Proof.
  intros Hm He. unfold binary_round_aux.
  destruct (shr_fexp_pos m e l Hm He) as [H1 H2].
  destruct (shr_fexp prec emax m e l) as [mrs' e']. cbn [fst snd] in H1, H2.
  pose proof (round_nearest_even_pos (shr_m mrs') (loc_of_shr_record mrs') H1)
    as Hr.
  destruct (shr_fexp_pos _ e' loc_Exact Hr H2) as [H3 _].
  destruct (shr_fexp prec emax _ e' loc_Exact) as [mrs'' e''].
  cbn [fst] in H3.
  destruct (shr_m mrs'') as [|q|q]; try lia.
  destruct (e'' <=? emax - prec); exact I.
Qed.

Lemma binary_normalize_nonzero (D e : Z) :
  D <> 0 -> SpecFloat.emin prec emax <= e ->
  SFnonzero (binary_normalize prec emax D e false).
Proof.
  intros HD He. unfold binary_normalize.
  assert (Hround : forall s m,
             SFnonzero (binary_round prec emax s m e)).
  { intros s m. unfold binary_round.
    assert (Hf : SpecFloat.emin prec emax
                 <= fexp prec emax (Z.pos (digits2_pos m) + e))
      by (unfold fexp; lia).
    unfold shl_align.
    destruct (fexp prec emax (Z.pos (digits2_pos m) + e) - e) eqn:E;
      apply binary_round_aux_nonzero; lia. }
  destruct D as [|p|p]; [lia| |]; apply Hround.
Qed.

Lemma shl_align_value (m : positive) (e ez : Z) :
  ez <= e -> Z.pos (fst (shl_align m e ez)) = Z.pos m * 2 ^ (e - ez).
Proof.
  intros H. unfold shl_align.
  destruct (ez - e) as [|d|d] eqn:E; cbn [fst]; try lia.
  - replace (e - ez) with 0 by lia. lia.
  - replace (e - ez) with (Z.pos d) by lia.
    rewrite <- Z.shiftl_mul_pow2 by lia.
    apply (shift_equiv (Z.pos d) m). lia.
Qed.

Lemma bounded_facts (m : positive) (e : Z) :
  bounded prec emax m e = true ->
  SpecFloat.emin prec emax <= e
  /\ Z.pos m < 2 ^ 53
  /\ (SpecFloat.emin prec emax < e -> 2 ^ 52 <= Z.pos m).
Proof.
  unfold bounded, canonical_mantissa, fexp. intros H.
  apply andb_prop in H. destruct H as [H _]. apply Z.eqb_eq in H.
  pose proof (digits2_pos_bounds m) as Hd.
  set (d := Z.pos (digits2_pos m)) in *.
  assert (Hp : 0 < d) by (unfold d; lia).
  unfold prec in *. split; [lia|]. split.
  - apply Z.lt_le_trans with (2 ^ d); [lia|].
    apply Z.pow_le_mono_r; lia.
  - intros He. assert (d = 53) by lia.
    replace 52 with (d - 1) by lia. lia.
Qed.

Lemma aligned_difference_nonzero
  (sx : bool) (mx : positive) (ex : Z) (sy : bool) (my : positive) (ey : Z) :
  bounded prec emax mx ex = true -> bounded prec emax my ey = true ->
  SFcompare (S754_finite sx mx ex) (S754_finite sy my ey) = Some Lt ->
  cond_Zopp sy (Z.pos (fst (shl_align my ey (Z.min ey ex))))
  - cond_Zopp sx (Z.pos (fst (shl_align mx ex (Z.min ey ex)))) <> 0.
Proof.
  intros Bx By Hc.
  destruct (bounded_facts mx ex Bx) as (Hex & Hmx & Hnx).
  destruct (bounded_facts my ey By) as (Hey & Hmy & Hny).
  rewrite !shl_align_value by lia.
  assert (Pow : forall k, 1 <= k -> 2 <= 2 ^ k).
  { intros k Hk. change 2 with (2 ^ 1) at 1. apply Z.pow_le_mono_r; lia. }
  assert (H53 : 2 ^ 53 = 2 * 2 ^ 52) by reflexivity.
  destruct sx, sy; unfold cond_Zopp;
    rewrite ?SFcompare_finite_same_sign in Hc; cbv zeta in Hc.
  - (* both negative: the comparison of the magnitudes is reversed *)
    destruct (Z.compare_spec ex ey) as [E|E|E];
      [destruct (Pos.compare_spec mx my) as [E'|E'|E']| |];
      simpl in Hc; try discriminate.
    + subst ey. rewrite Z.min_id, Z.sub_diag. simpl (2 ^ 0). lia.
    + rewrite Z.min_l by lia. rewrite Z.sub_diag. simpl (2 ^ 0).
      specialize (Pow (ex - ey) ltac:(lia)).
      specialize (Hnx ltac:(lia)). nia.
  - (* x negative, y positive *)
    assert (0 < 2 ^ (ey - Z.min ey ex)) by (apply Z.pow_pos_nonneg; lia).
    assert (0 < 2 ^ (ex - Z.min ey ex)) by (apply Z.pow_pos_nonneg; lia).
    nia.
  - discriminate.
  - (* both positive *)
    destruct (Z.compare_spec ex ey) as [E|E|E];
      [destruct (Pos.compare_spec mx my) as [E'|E'|E']| |];
      simpl in Hc; try discriminate.
    + subst ey. rewrite Z.min_id, Z.sub_diag. simpl (2 ^ 0). lia.
    + rewrite Z.min_r by lia. rewrite Z.sub_diag. simpl (2 ^ 0).
      specialize (Pow (ey - ex) ltac:(lia)).
      specialize (Hny ltac:(lia)). nia.
Qed.

Lemma SFsub_nonzero (x y : spec_float) :
  valid_binary x = true -> valid_binary y = true ->
  SFltb x y = true -> SFnonzero (SFsub prec emax y x).
Proof.
  unfold SFltb. intros Vx Vy Hlt.
  destruct (SFcompare x y) as [[]|] eqn:Hc; try discriminate. clear Hlt.
  destruct x as [[]|[]| |sx mx ex], y as [[]|[]| |sy my ey];
    simpl in Hc; try discriminate; try exact I.
  unfold SFsub. apply binary_normalize_nonzero.
  - apply aligned_difference_nonzero; assumption.
  - destruct (bounded_facts mx ex Vx) as (Hex & _).
    destruct (bounded_facts my ey Vy) as (Hey & _). lia.
Qed.

Lemma Prim2SF_zero : Prim2SF 0 = S754_zero false.
Proof. reflexivity. Qed.

(** The difference of two floats, the second strictly above the first, is
    not zero (there is no underflow to zero in a subtraction). *)
Lemma fsub_nonzero (a b : float) :
  (a <? b)%float = true -> (b - a =? 0)%float = false.
Proof.
  rewrite ltb_spec, eqb_spec, sub_spec, Prim2SF_zero. intros Hlt.
  pose proof (SFsub_nonzero (Prim2SF a) (Prim2SF b)
                (Prim2SF_valid a) (Prim2SF_valid b) Hlt) as Hnz.
  unfold SF64sub. destruct (SFsub prec emax (Prim2SF b) (Prim2SF a))
    as [[]|[]| |[] ? ?]; simpl in Hnz; try contradiction; reflexivity.
Qed.

(* ================================================================= *)
(** ** Lists, bisection and the time index *)

Lemma py_getitem_nth {A} (l : list A) (n : nat) (a : A) :
  nth_error l n = Some a -> py_getitem l (Z.of_nat n) = inr a.
Proof.
  intros H. unfold py_getitem. cbv zeta.
  assert (Hn : (n < List.length l)%nat) by (apply nth_error_Some; congruence).
  assert (E1 : (Z.of_nat n <? 0) = false) by (apply Z.ltb_ge; lia).
  assert (E2 : (Z.of_nat (List.length l) <=? Z.of_nat n) = false)
    by (apply Z.leb_gt; lia).
  rewrite !E1, E2. simpl. now rewrite Nat2Z.id, H.
Qed.

Lemma py_getitem_last {A} (l : list A) (n : nat) (a : A) :
  List.length l = Datatypes.S n -> nth_error l n = Some a ->
  py_getitem l (-1) = inr a.
Proof.
  intros Hl H. unfold py_getitem. rewrite Hl.
  change (-1 <? 0) with true. cbv iota zeta.
  replace (-1 + Z.of_nat (Datatypes.S n)) with (Z.of_nat n) by lia.
  assert (E1 : (Z.of_nat n <? 0) = false) by (apply Z.ltb_ge; lia).
  assert (E2 : (Z.of_nat (Datatypes.S n) <=? Z.of_nat n) = false)
    by (apply Z.leb_gt; lia).
  rewrite E1, E2. simpl. now rewrite Nat2Z.id, H.
Qed.

Lemma py_getitem_empty {A} (i : Z) : @py_getitem A [] i = inl IndexError.
Proof.
  unfold py_getitem. simpl List.length. cbv zeta.
  destruct (i <? 0) eqn:E.
  - rewrite Z.add_0_r, E. reflexivity.
  - rewrite E. simpl. destruct (0 <=? i) eqn:E2; [reflexivity|].
    apply Z.ltb_ge in E. apply Z.leb_gt in E2. lia.
Qed.

Lemma StronglySorted_nth {A} (R : A -> A -> Prop) (l : list A) :
  StronglySorted R l ->
  forall i j a b, (i < j)%nat ->
    nth_error l i = Some a -> nth_error l j = Some b -> R a b.
Proof.
  induction 1 as [|x l Hs IH Hall]; intros i j a b Hij Ha Hb.
  - destruct i; discriminate.
  - destruct j as [|j]; [lia|]. simpl in Hb.
    destruct i as [|i]; simpl in Ha.
    + injection Ha as <-. rewrite Forall_forall in Hall.
      apply Hall. eapply nth_error_In; eauto.
    + apply (IH i j); auto. lia.
Qed.

(** The loop of [bisect_right] on an array the test [x < a[i]] splits at
    [r]: false below [r], true from [r] on. *)
Lemma bisect_loop_partition (a : list float) (x : float) (r : nat) :
  (forall i am, nth_error a i = Some am -> (x <? am)%float = (r <=? i)%nat) ->
  forall fuel lo hi,
    (lo <= r)%nat -> (r <= hi)%nat -> (hi <= List.length a)%nat ->
    (hi - lo < fuel)%nat ->
    bisect_loop a x fuel lo hi = r.
Proof.
  intros Hsplit. induction fuel as [|fuel IH]; intros lo hi Hlo Hhi Hlen Hf.
  - lia.
  - cbn [bisect_loop]. destruct (lo <? hi)%nat eqn:Elh.
    + apply Nat.ltb_lt in Elh.
      assert (Hmid : (lo <= (lo + hi) / 2 /\ (lo + hi) / 2 < hi)%nat).
      { split.
        - apply Nat.div_le_lower_bound; lia.
        - apply Nat.Div0.div_lt_upper_bound; lia. }
      set (mid := ((lo + hi) / 2)%nat) in *.
      destruct (nth_error a mid) as [am|] eqn:En.
      * rewrite (Hsplit _ _ En).
        destruct (r <=? mid)%nat eqn:Er.
        -- apply Nat.leb_le in Er. apply IH; lia.
        -- apply Nat.leb_gt in Er. apply IH; lia.
      * apply nth_error_None in En. lia.
    + apply Nat.ltb_ge in Elh. lia.
Qed.

Lemma bisect_right_partition (a : list float) (x : float) (r : nat) :
  (r <= List.length a)%nat ->
  (forall i am, nth_error a i = Some am -> (x <? am)%float = (r <=? i)%nat) ->
  bisect_right a x = r.
Proof.
  intros Hr Hsplit. unfold bisect_right.
  apply bisect_loop_partition; auto; lia.
Qed.

(* ================================================================= *)
(** ** The queries do not depend on the file position *)

Lemma eval_bind_lift {S A B} (r : res A) (k : A -> M S B) (s : S) :
  eval (bind (lift_res r) k) s
  = match r with inl e => inl e | inr a => eval (k a) s end.
Proof. destruct r; reflexivity. Qed.

Lemma eval_lift {S A} (r : res A) (s : S) : eval (lift_res r) s = r.
Proof. destruct r; reflexivity. Qed.

Lemma read_value_run (self : XtvFile) (edit sp pos : Z) :
  exists pos',
    read_value self edit sp pos
    = (float_at (xtvFile self)
         (dataStart (SB self) + edit * dataLen (SB self) + sp), pos').
Proof.
  unfold read_value, float_at, eval, set_position, bind.
  destruct (_ <? 0); simpl.
  - eexists; reflexivity.
  - unfold put. eexists. apply surjective_pairing.
Qed.

Lemma eval_bind_read {B} (self : XtvFile) (edit sp : Z) (k : float -> M Z B)
  (pos : Z) :
  exists pos',
    eval (bind (read_value self edit sp) k) pos
    = match float_at (xtvFile self)
              (dataStart (SB self) + edit * dataLen (SB self) + sp) with
      | inl e => inl e
      | inr v => eval (k v) pos'
      end.
Proof.
  destruct (read_value_run self edit sp pos) as [pos' H].
  exists pos'. unfold eval, bind. rewrite H.
  destruct (float_at _ _); reflexivity.
Qed.

(** The steps of [getData] one after the other: the pure steps are the
    same on both sides, and each read is an absolute seek followed by the
    decoding of four bytes. *)
Ltac getData_steps :=
  unfold getData, getData_pure;
  rewrite eval_bind_lift; unfold rbind at 1;
  destruct (locate _ _ _ _ _ _ _) as [?|[? ?]]; [reflexivity|];
  cbv zeta;
  rewrite eval_bind_lift; unfold rbind at 1;
  destruct (check_time _ _) as [?|?]; [reflexivity|];
  rewrite eval_bind_lift; unfold rbind at 1;
  destruct (py_getitem (times _) _) as [?|?]; [reflexivity|];
  match goal with
  | |- context [if ?c then _ else _] => destruct c
  end;
  [ match goal with
    | |- eval (read_value ?s ?e ?sp) ?p = _ =>
        let H := fresh in
        destruct (read_value_run s e sp p) as [? H];
        unfold eval; now rewrite H
    end
  | match goal with
    | |- eval (bind (read_value ?s ?e ?sp) ?k) ?p = _ =>
        let H := fresh in
        destruct (eval_bind_read s e sp k p) as [? H]; rewrite H
    end;
    unfold rbind at 1;
    destruct (float_at _ _) as [?|?]; [reflexivity|];
    match goal with
    | |- eval (bind (read_value ?s ?e ?sp) ?k) ?p = _ =>
        let H := fresh in
        destruct (eval_bind_read s e sp k p) as [? H]; rewrite H
    end;
    unfold rbind at 1;
    destruct (float_at _ _) as [?|?]; [reflexivity|];
    rewrite eval_bind_lift; unfold rbind at 1;
    rewrite eval_bind_lift; unfold rbind at 1;
    destruct (py_getitem (times _) _) as [?|?]; [reflexivity|];
    apply eval_lift ].

(** [getData] computes [getData_pure], from every file position. *)
Lemma getData_eval (self : XtvFile) (time : float) (id : Z)
  (ct : option string) (varName : string) (i j k : option Z) (pos : Z) :
  eval (getData self time id ct varName i j k) pos
  = getData_pure self time id ct varName i j k.
Proof.
  getData_steps.
Qed.

(* ================================================================= *)
(** ** Bisection of an ascending time index *)

Lemma feq_fle (a t : float) :
  (t =? a)%float = true -> (a <=? t)%float = true /\ (t <=? a)%float = true.
Proof. split; revert H; sf_order. Qed.

Lemma fle_fle_not_lt (a b t : float) :
  (a <=? b)%float = true -> (b <=? t)%float = true -> (t <? a)%float = false.
Proof. sf_order. Qed.

Lemma ends_of_list {A} (l : list A) (r : nat) (a : A) :
  nth_error l r = Some a ->
  exists first last n,
    nth_error l 0 = Some first /\ List.length l = Datatypes.S n
    /\ nth_error l n = Some last /\ (r <= n)%nat.
Proof.
  intros H.
  assert (Hr : (r < List.length l)%nat) by (apply nth_error_Some; congruence).
  destruct l as [|x l]; [simpl in Hr; lia|].
  destruct (nth_error (x :: l) (List.length l)) as [z|] eqn:E.
  - exists x, z, (List.length l). repeat split; auto. simpl in Hr. lia.
  - apply nth_error_None in E. simpl in E. lia.
Qed.

(** An entry of an ascending list is at least every entry at or before it. *)
Lemma ascending_le (l : list float) (i j : nat) (a b : float) :
  ascending l -> (i <= j)%nat ->
  nth_error l i = Some a -> nth_error l j = Some b ->
  (a <=? b)%float = true.
Proof.
  intros [Hs Hn] Hij Ha Hb.
  destruct (Nat.eq_dec i j) as [->|Hne].
  - rewrite Ha in Hb. injection Hb as <-.
    rewrite Forall_forall in Hn.
    specialize (Hn a (nth_error_In _ _ Ha)).
    now apply feq_fle in Hn.
  - apply (StronglySorted_nth _ l Hs i j); auto. lia.
Qed.

(** A time between two entries of the index (both included) passes the time
    checks unchanged, unless it is negative. *)
Lemma check_time_inside (self : XtvFile) (t : float) (r1 r2 : nat)
  (a b : float) :
  ascending (times self) ->
  (t <? 0)%float = false ->
  nth_error (times self) r1 = Some a -> nth_error (times self) r2 = Some b ->
  (a <=? t)%float = true -> (t <=? b)%float = true ->
  check_time self t = inr t.
Proof.
  intros Hasc Hneg Ha Hb Hat Htb. unfold check_time. rewrite Hneg.
  destruct (ends_of_list _ _ _ Hb) as (first & last & n & H0 & Hlen & Hlast & Hr2).
  rewrite (py_getitem_last _ _ _ Hlen Hlast). unfold rbind at 1.
  assert (Hbl : (b <=? last)%float = true)
    by (apply (ascending_le (times self) r2 n); auto).
  assert (Hfa : (first <=? a)%float = true)
    by (apply (ascending_le (times self) 0%nat r1); auto; lia).
  rewrite (fle_fle_not_lt t b last Htb Hbl).
  change 0 with (Z.of_nat 0).
  rewrite (py_getitem_nth _ 0%nat _ H0). unfold rbind at 1.
  now rewrite (fle_fle_not_lt first a t Hfa Hat).
Qed.

(** The bisection stops after the last entry equal to the time. *)
Lemma bisect_exact (l : list float) (t tr : float) (r : nat) :
  ascending l -> nth_error l r = Some tr -> (t =? tr)%float = true ->
  (forall r' t', (r < r')%nat -> nth_error l r' = Some t' ->
                 (t =? t')%float = false) ->
  bisect_right l t = Datatypes.S r.
Proof.
  intros Hasc Hr Heq Hlast. apply bisect_right_partition.
  - apply Nat.le_succ_l. apply nth_error_Some. congruence.
  - intros i am Hi.
    destruct (Nat.leb_spec (Datatypes.S r) i) as [Hle|Hlt].
    + apply (feq_fle_neq_lt tr am t Heq).
      * apply (ascending_le l r i); auto. lia.
      * apply (Hlast i); auto.
    + apply (fle_eq_not_lt am tr t); auto.
      apply (ascending_le l i r); auto. lia.
Qed.

(** The bisection stops between two adjacent entries that enclose the
    time. *)
Lemma bisect_between (l : list float) (t t1 t2 : float) (r : nat) :
  ascending l ->
  nth_error l r = Some t1 -> nth_error l (Datatypes.S r) = Some t2 ->
  (t1 <? t)%float = true -> (t <? t2)%float = true ->
  bisect_right l t = Datatypes.S r.
Proof.
  intros Hasc H1 H2 Hlo Hhi. apply bisect_right_partition.
  - apply Nat.lt_le_incl. apply nth_error_Some. congruence.
  - intros i am Hi.
    destruct (Nat.leb_spec (Datatypes.S r) i) as [Hle|Hlt].
    + apply (flt_fle_lt am t2 t Hhi).
      apply (ascending_le l (Datatypes.S r) i); auto.
    + apply (fle_lt_not_lt am t1 t); auto.
      apply (ascending_le l i r); auto. lia.
Qed.

(* ================================================================= *)
(** ** The value locator: claims C3, C4, C5 and C9 *)

(** C3 (as amended).  For a valid channel and valid indices ([locate]
    succeeds with the channel object and the cell), an ascending time index,
    and a requested time that is not negative and equals the entry of record
    [r], the last entry equal to it: [getData] gives exactly the outcome of
    decoding the float at the absolute offset
    [dataStart + r*dataLen + startIncrement + (cell-1)*4], whatever the file
    position was, and interpolates nothing. *)
Theorem getData_exact_time
  (self : XtvFile) (time : float) (id : Z) (ct : option string)
  (varName : string) (i j k : option Z) (ch : _Channel) (cell : Z)
  (r : nat) (tr : float) (pos : Z) :
  locate self id ct varName i j k = inr (ch, cell) ->
  ascending (times self) ->
  (time <? 0)%float = false ->
  nth_error (times self) r = Some tr ->
  (time =? tr)%float = true ->
  (forall r' t', (r < r')%nat -> nth_error (times self) r' = Some t' ->
                 (time =? t')%float = false) ->
  eval (getData self time id ct varName i j k) pos
  = float_at (xtvFile self)
      (dataStart (SB self) + Z.of_nat r * dataLen (SB self)
       + (startIncrement ch + (cell - 1) * 4)).
Proof.
  intros Hloc Hasc Hneg Hr Heq Hlast.
  rewrite getData_eval. unfold getData_pure. rewrite Hloc.
  unfold rbind at 1. cbv zeta.
  destruct (feq_fle tr time Heq) as [Hle1 Hle2].
  rewrite (check_time_inside self time r r tr tr Hasc Hneg Hr Hr Hle1 Hle2).
  unfold rbind at 1.
  rewrite (bisect_exact _ _ _ _ Hasc Hr Heq Hlast).
  replace (Z.of_nat (Datatypes.S r) - 1) with (Z.of_nat r) by lia.
  rewrite (py_getitem_nth _ _ _ Hr). unfold rbind at 1.
  now rewrite Heq.
Qed.

(** C4 (as amended).  For a valid channel and valid indices, an ascending
    time index and a requested time that is not negative and lies strictly
    between the adjacent entries [t1 < t2] of records [r] and [r+1], whose
    decoded values at the point are [v1] and [v2]: [getData] returns
    [v1 + (v2-v1)*(t-t1)/(t2-t1)], computed in floating point. *)
Theorem getData_between_times
  (self : XtvFile) (time : float) (id : Z) (ct : option string)
  (varName : string) (i j k : option Z) (ch : _Channel) (cell : Z)
  (r : nat) (t1 t2 v1 v2 : float) (pos : Z) :
  locate self id ct varName i j k = inr (ch, cell) ->
  ascending (times self) ->
  (time <? 0)%float = false ->
  nth_error (times self) r = Some t1 ->
  nth_error (times self) (Datatypes.S r) = Some t2 ->
  (t1 <? time)%float = true -> (time <? t2)%float = true ->
  float_at (xtvFile self)
    (dataStart (SB self) + Z.of_nat r * dataLen (SB self)
     + (startIncrement ch + (cell - 1) * 4)) = inr v1 ->
  float_at (xtvFile self)
    (dataStart (SB self) + Z.of_nat (Datatypes.S r) * dataLen (SB self)
     + (startIncrement ch + (cell - 1) * 4)) = inr v2 ->
  eval (getData self time id ct varName i j k) pos
  = inr (v1 + (v2 - v1) * (time - t1) / (t2 - t1))%float.
Proof.
  intros Hloc Hasc Hneg H1 H2 Hlo Hhi Hv1 Hv2.
  pose proof (fsub_nonzero t1 t2 (flt_trans _ _ _ Hlo Hhi)) as Hd.
  rewrite getData_eval. unfold getData_pure. rewrite Hloc.
  unfold rbind at 1. cbv zeta.
  rewrite (check_time_inside self time r (Datatypes.S r) t1 t2 Hasc Hneg H1 H2
             (flt_is_fle _ _ Hlo) (flt_is_fle _ _ Hhi)).
  unfold rbind at 1.
  rewrite (bisect_between _ _ _ _ _ Hasc H1 H2 Hlo Hhi).
  replace (Z.of_nat (Datatypes.S r) - 1) with (Z.of_nat r) by lia.
  rewrite (py_getitem_nth _ _ _ H1). unfold rbind at 1.
  assert (Hne : (time =? t1)%float = false).
  { destruct (time =? t1)%float eqn:E; [|reflexivity].
    apply feq_not_lt in E. destruct E as [_ E]. congruence. }
  rewrite Hne, Hv1, Hv2. unfold rbind.
  rewrite (py_getitem_nth _ _ _ H2).
  unfold interpolate. rewrite Hd. f_equal. apply fadd_comm.
Qed.








Lemma startswith_0 (d : string) :
  startswith d "0" = true ->
  startswith d "3" = false /\ startswith d "2" = false
  /\ startswith d "1" = false.
Proof.
  destruct d as [|c d]; [discriminate|]. simpl.
  intros H. apply Ascii.eqb_eq in H. subst c. repeat split; reflexivity.
Qed.

Lemma locate_cell_0D (d : string) (tm : option _Template) (vLen : Z)
  (i j k : option Z) :
  startswith d "0" = true -> locate_cell d tm vLen i j k = inr 1.
Proof.
  intros H. unfold locate_cell.
  destruct (startswith_0 d H) as (H3 & H2 & H1).
  now rewrite H3, H2, H1, H.
Qed.

(** C9.  For a channel whose [dimPosAt] starts with ['0'] and a fixed time,
    [getData] has the same outcome for all values of the mesh indices
    [i], [j], [k] (and whatever the file position is): the indices are not
    checked and do not reach the result, and the cell is always 1. *)
Theorem getData_scalar_ignores_indices
  (self : XtvFile) (time : float) (id : Z) (ct : option string)
  (varName d : string) (i j k i' j' k' : option Z) (pos pos' : Z) :
  getDimPosAt self id ct varName = inr d ->
  startswith d "0" = true ->
  eval (getData self time id ct varName i j k) pos
  = eval (getData self time id ct varName i' j' k') pos'
  /\ forall ch cell,
       locate self id ct varName i j k = inr (ch, cell) -> cell = 1.
Proof.
  intros Hd H0.
  assert (Hloc : forall a b c,
             locate self id ct varName a b c
             = (ch <~ get_channel self id ct (strip varName) ;;
                tmplInd <~ attr (vTmpl ch) ;;
                vLen <~ attr (vLength ch) ;;
                tm <~ get_template self id ct tmplInd ;;
                ch' <~ get_channel self id ct varName ;;
                inr (ch', 1))).
  { intros a b c. unfold locate, rbind. rewrite Hd.
    destruct (get_channel self id ct (strip varName)) as [e|ch0]; [reflexivity|].
    destruct (attr (vTmpl ch0)) as [e|ti]; [reflexivity|].
    destruct (attr (vLength ch0)) as [e|vl]; [reflexivity|].
    destruct (get_template self id ct ti) as [e|tm]; [reflexivity|].
    now rewrite locate_cell_0D. }
  split.
  - rewrite !getData_eval. unfold getData_pure. now rewrite !Hloc.
  - intros ch cell H. rewrite Hloc in H. unfold rbind in H.
    repeat match type of H with
           | match ?x with _ => _ end = _ => destruct x; try discriminate
           end.
    now injection H.
Qed.

Lemma getData_exact_time_witness :
  eval (getData sample 1 500 (Some "pipe") "pn" (Some 2) (Some 0) (Some 0)) 0
  = float_at (xtvFile sample)
      (dataStart (SB sample) + 1 * dataLen (SB sample) + (24 + (2 - 1) * 4))
  /\ float_at (xtvFile sample)
       (dataStart (SB sample) + 1 * dataLen (SB sample) + (24 + (2 - 1) * 4))
     = inr 102%float.
Proof.
  split.
  - apply (getData_exact_time sample 1 500 (Some "pipe") "pn"
             (Some 2) (Some 0) (Some 0) pn_channel 2 1%nat 1%float 0).
    + vm_compute; reflexivity.
    + split; repeat constructor.
    + reflexivity.
    + reflexivity.
    + reflexivity.
    + intros r' t' Hr Ht.
      destruct r' as [|[|[|[|r']]]]; try lia; simpl in Ht; try discriminate.
      injection Ht as <-. reflexivity.
  - vm_compute; reflexivity.
Defined.

(** C3 as stated fails on a time index with a negative entry: in the file
    with the times -1, 0, 1 the requested time -1 equals the entry of record
    0, whose value for the cell is 1, and [getData] returns 201, the value
    of the last record. *)
Lemma getData_exact_time_negative_entry :
  locate sample_neg 500 (Some "pipe") "pn" (Some 1) (Some 0) (Some 0)
  = inr (pn_channel, 1)
  /\ nth_error (times sample_neg) 0 = Some (-1)%float
  /\ float_at (xtvFile sample_neg)
       (dataStart (SB sample_neg) + 0 * dataLen (SB sample_neg)
        + (startIncrement pn_channel + (1 - 1) * 4)) = inr 1%float
  /\ eval (getData sample_neg (-1) 500 (Some "pipe") "pn"
             (Some 1) (Some 0) (Some 0)) 0 = inr 201%float.
Proof. vm_compute. repeat split. Qed.

Lemma getData_between_times_witness :
  eval (getData sample 0.5 500 (Some "pipe") "pn" (Some 2) (Some 0) (Some 0)) 0
  = inr (2 + (102 - 2) * (0.5 - 0) / (1 - 0))%float.
Proof.
  apply (getData_between_times sample 0.5 500 (Some "pipe") "pn"
           (Some 2) (Some 0) (Some 0) pn_channel 2 0%nat 0%float 1%float
           2%float 102%float 0).
  - vm_compute; reflexivity.
  - split; repeat constructor.
  - reflexivity.
  - reflexivity.
  - reflexivity.
  - reflexivity.
  - reflexivity.
  - vm_compute; reflexivity.
  - vm_compute; reflexivity.
Defined.

(** C4 as stated fails for a negative time: in the file with the times
    -1, 0, 1 the time -0.5 lies strictly between the entries of records 0
    and 1, whose values for the cell are 1 and 101; the formula gives 51 and
    [getData] returns 201, the value of the last record. *)
Lemma getData_between_times_negative :
  locate sample_neg 500 (Some "pipe") "pn" (Some 1) (Some 0) (Some 0)
  = inr (pn_channel, 1)
  /\ nth_error (times sample_neg) 0 = Some (-1)%float
  /\ nth_error (times sample_neg) 1 = Some 0%float
  /\ (-1 <? -0.5)%float = true /\ (-0.5 <? 0)%float = true
  /\ float_at (xtvFile sample_neg)
       (dataStart (SB sample_neg) + 0 * dataLen (SB sample_neg)
        + (startIncrement pn_channel + (1 - 1) * 4)) = inr 1%float
  /\ float_at (xtvFile sample_neg)
       (dataStart (SB sample_neg) + 1 * dataLen (SB sample_neg)
        + (startIncrement pn_channel + (1 - 1) * 4)) = inr 101%float
  /\ (1 + (101 - 1) * (-0.5 - -1) / (0 - -1))%float = 51%float
  /\ eval (getData sample_neg (-0.5) 500 (Some "pipe") "pn"
             (Some 1) (Some 0) (Some 0)) 0 = inr 201%float.
Proof. vm_compute. repeat split. Qed.



Lemma getData_scalar_ignores_indices_witness :
  eval (getData sample 1 500 (Some "pipe") "power" (Some 7) None (Some (-3))) 0
  = eval (getData sample 1 500 (Some "pipe") "power" (Some 0) (Some 0) (Some 0)) 40.
Proof.
  apply (getData_scalar_ignores_indices sample 1 500 (Some "pipe") "power" "0D");
    reflexivity.
Defined.

(* ================================================================= *)
(** ** Channel strings: claim C2 *)

(** C2 as stated fails on its own example: the token after the last ['-'] of
    ["totally-unparseable-999"] is ["999"], which the pattern matches, so the
    name is ["totally-unparseable"], the component id 999, and the three
    mesh indices are absent. *)
Lemma parse_totally_unparseable_999 :
  rpartition "totally-unparseable-999" = ("totally-unparseable", "-", "999")
  /\ regex_match "999" = Some ("999", None, None, None)
  /\ parseChannelString "totally-unparseable-999"
     = ("totally-unparseable", IdStr "999", None, None, None)
  /\ decode_channel sample "totally-unparseable-999"
     = ("totally-unparseable", None, 999, None, None, None).
Proof. repeat split. Qed.

(** The pattern fails exactly on a token that does not start with a digit. *)
Lemma regex_match_None (s : string) :
  regex_match s = None <-> starts_with_digit s = false.
Proof.
  unfold regex_match. destruct s as [|c s]; simpl.
  - split; reflexivity.
  - destruct (is_digit c).
    + destruct (span_digits s) as [ds rest]. simpl.
      split; [|discriminate].
      destruct (index_group "A" rest) as [[a r1]|]; [|discriminate].
      destruct (index_group "R" r1) as [[r r2]|]; [|discriminate].
      destruct (index_group "T" r2) as [[t r3]|]; discriminate.
    + simpl. split; reflexivity.
Qed.

(** C2 (as amended).  Whenever the token after the last ['-'] of the
    identifier (the whole identifier when it has no ['-']) does not match the
    pattern, that is, does not start with a digit, the whole identifier is
    the variable name, the component id is 0 and the axial, radial and theta
    indices are 0, in [__parseChannelString] (indices as the strings ['0'])
    and in [__decode_channel] (as integers); nothing is raised. *)
Theorem parseChannelString_fallback (self : XtvFile) (channel : string) :
  starts_with_digit (snd (rpartition channel)) = false ->
  parseChannelString channel
  = (channel, IdInt 0, Some "0", Some "0", Some "0")
  /\ decode_channel self channel
     = (channel, getCompType self (IdInt 0) channel, 0, Some 0, Some 0, Some 0).
Proof.
  intros H. apply regex_match_None in H.
  assert (Hp : parseChannelString channel
               = (channel, IdInt 0, Some "0", Some "0", Some "0")).
  { unfold parseChannelString.
    destruct (rpartition channel) as [[v sep] tok]. simpl in H. now rewrite H. }
  split; [exact Hp|].
  unfold decode_channel. rewrite Hp. reflexivity.
Qed.

Lemma parseChannelString_fallback_witness :
  parseChannelString "totally-unparseable"
  = ("totally-unparseable", IdInt 0, Some "0", Some "0", Some "0")
  /\ decode_channel sample "totally-unparseable"
     = ("totally-unparseable", None, 0, Some 0, Some 0, Some 0).
Proof.
  apply (parseChannelString_fallback sample "totally-unparseable").
  reflexivity.
Defined.

(* ================================================================= *)
(** ** Index checks: claim C6 *)

(** C6 as stated fails for a 2D channel: its checks go axis by axis, so a
    [j] of 0 is reported only after [i] has passed its extent check.  For the
    channel [rftn] of the sample (i-extent 2) the indices [i = 3], [j = 0]
    raise the upper-bound error of [i], not the lower-bound error of [j]. *)
Lemma getData_2D_extent_before_lower_bound :
  getDimPosAt sample 140 (Some "htstrc") "rftn" = inr "2dFaJ"
  /\ none_or_zero (Some 0) = true
  /\ eval (getData sample 2 140 (Some "htstrc") "rftn"
             (Some 3) (Some 0) (Some 0)) 0
     = inl (xtv_error INDEX_I_UBOUND_ERR)
  /\ eval (getDataChannel sample 2 "rftn-140A00R03") 0
     = inl (xtv_error INDEX_I_UBOUND_ERR).
Proof. vm_compute. repeat split. Qed.

(** Decided comparisons of integers, rewritten from the hypotheses. *)
Ltac zbool :=
  repeat match goal with
    | H : ?n <> 0 |- context [?n =? 0] =>
        rewrite (proj2 (Z.eqb_neq n 0) H)
    | H : ?a < ?b |- context [?a <? ?b] =>
        rewrite (proj2 (Z.ltb_lt a b) H)
    | H : ?b <= ?a |- context [?a <? ?b] =>
        rewrite (proj2 (Z.ltb_ge a b) H)
    end.

Lemma py_div_nz (a b : Z) : b <> 0 -> py_div a b = inr (a / b).
Proof. intros H. unfold py_div. now zbool. Qed.

(** The dispatch on [dimPosAt], branch by branch. *)
Lemma locate_cell_checks
  (d : string) (tm : option _Template) (vLen : Z) (i j k : option Z) :
  (startswith d "3" = true ->
     (none_or_zero i = true ->
        locate_cell d tm vLen i j k = inl (xtv_error INDEX_I_LBOUND_ERR))
     /\ (none_or_zero i = false -> none_or_zero j = true ->
           locate_cell d tm vLen i j k = inl (xtv_error INDEX_J_LBOUND_ERR))
     /\ (none_or_zero i = false -> none_or_zero j = false ->
         none_or_zero k = true ->
           locate_cell d tm vLen i j k = inl (xtv_error INDEX_K_LBOUND_ERR))
     /\ (forall t iv jv kv ni nj nk cell,
           tm = Some t -> i = Some iv -> j = Some jv -> k = Some kv ->
           iv <> 0 -> jv <> 0 -> kv <> 0 ->
           extents3D d t vLen iv jv kv = inr (ni, nj, nk, cell) ->
           (ni < iv ->
              locate_cell d tm vLen i j k = inl (xtv_error INDEX_I_UBOUND_ERR))
           /\ (iv <= ni -> nj < jv ->
                 locate_cell d tm vLen i j k
                 = inl (xtv_error INDEX_J_UBOUND_ERR))
           /\ (iv <= ni -> jv <= nj -> nk < kv ->
                 locate_cell d tm vLen i j k
                 = inl (xtv_error INDEX_K_UBOUND_ERR))
           /\ (iv <= ni -> jv <= nj -> kv <= nk ->
                 locate_cell d tm vLen i j k = inr cell)))
  /\ (startswith d "3" = false -> startswith d "2" = true ->
      (tm = None -> locate_cell d tm vLen i j k = inl TypeError)
      /\ forall t, tm = Some t ->
        (dimj t + 1 = 0 -> locate_cell d tm vLen i j k = inl ZeroDivisionError)
        /\ (dimj t + 1 <> 0 ->
        (none_or_zero i = true ->
           locate_cell d tm vLen i j k = inl (xtv_error INDEX_I_LBOUND_ERR))
        /\ (forall iv, i = Some iv -> iv <> 0 -> vLen / (dimj t + 1) < iv ->
              locate_cell d tm vLen i j k
              = inl (xtv_error INDEX_I_UBOUND_ERR))
        /\ (forall iv, i = Some iv -> iv <> 0 -> iv <= vLen / (dimj t + 1) ->
            (dimi t = 0 ->
               locate_cell d tm vLen i j k = inl ZeroDivisionError)
            /\ (dimi t <> 0 ->
              (none_or_zero j = true ->
                 locate_cell d tm vLen i j k
                 = inl (xtv_error INDEX_J_LBOUND_ERR))
              /\ (forall jv, j = Some jv -> jv <> 0 -> vLen / dimi t < jv ->
                    locate_cell d tm vLen i j k
                    = inl (xtv_error INDEX_J_UBOUND_ERR))
              /\ (forall jv, j = Some jv -> jv <> 0 -> jv <= vLen / dimi t ->
                    locate_cell d tm vLen i j k
                    = inr ((jv - 1) * dimi t + iv))))))
  /\ (startswith d "3" = false -> startswith d "2" = false ->
      startswith d "1" = true ->
        (none_or_zero i = true ->
           locate_cell d tm vLen i j k = inl (xtv_error INDEX_I_LBOUND_ERR))
        /\ (forall iv, i = Some iv -> iv <> 0 -> vLen < iv ->
              locate_cell d tm vLen i j k
              = inl (xtv_error INDEX_I_UBOUND_ERR))
        /\ (forall iv, i = Some iv -> iv <> 0 -> iv <= vLen ->
              locate_cell d tm vLen i j k = inr iv)).
Proof.
  unfold locate_cell. split; [|split].
  - intros H3. rewrite H3. split; [|split; [|split]].
    + intros Hi. now rewrite Hi.
    + intros Hi Hj. now rewrite Hi, Hj.
    + intros Hi Hj Hk. now rewrite Hi, Hj, Hk.
    + intros t iv jv kv ni nj nk cell -> -> -> -> Hiv Hjv Hkv He.
      simpl. zbool. rewrite He. simpl.
      split; [|split; [|split]]; intros; zbool; reflexivity.
  - intros H3 H2. rewrite H3, H2. split; [intros ->; reflexivity|].
    intros t ->. simpl. split.
    + intros Hdj. unfold py_div. rewrite Hdj. reflexivity.
    + intros Hdj. rewrite (py_div_nz vLen _ Hdj). simpl.
      split; [|split].
      * intros Hi. now rewrite Hi.
      * intros iv -> Hiv Hgt. simpl. zbool. reflexivity.
      * intros iv -> Hiv Hle. simpl. zbool. split.
        -- intros Hdi. unfold py_div. rewrite Hdi. reflexivity.
        -- intros Hdi. rewrite (py_div_nz vLen _ Hdi). simpl.
           split; [|split].
           ++ intros Hj. now rewrite Hj.
           ++ intros jv -> Hjv Hgt. simpl. zbool. reflexivity.
           ++ intros jv -> Hjv Hle'. simpl. zbool. reflexivity.
  - intros H3 H2 H1. rewrite H3, H2, H1. split; [|split].
    + intros Hi. now rewrite Hi.
    + intros iv -> Hiv Hgt. simpl. zbool. reflexivity.
    + intros iv -> Hiv Hle. simpl. zbool. reflexivity.
Qed.

(** What [getData] does with the outcome of the dispatch, for a channel
    whose lookups succeed: an exception of the dispatch is the exception of
    [getData], before the time is looked at; a cell is the cell the value is
    read at. *)
Lemma getData_dispatch
  (self : XtvFile) (id : Z) (ct : option string) (varName d : string)
  (i j k : option Z) (ch : _Channel) (tmplInd vLen : Z)
  (tm : option _Template) :
  getDimPosAt self id ct varName = inr d ->
  get_channel self id ct (strip varName) = inr ch ->
  vTmpl ch = Some tmplInd -> vLength ch = Some vLen ->
  get_template self id ct tmplInd = inr tm ->
  (forall e, locate_cell d tm vLen i j k = inl e ->
     forall time pos,
       eval (getData self time id ct varName i j k) pos = inl e)
  /\ (forall cell, locate_cell d tm vLen i j k = inr cell ->
        forall ch', get_channel self id ct varName = inr ch' ->
                    locate self id ct varName i j k = inr (ch', cell)).
Proof.
  intros Hd Hch Ht Hv Htm.
  assert (Hloc : locate self id ct varName i j k
                 = (cell <~ locate_cell d tm vLen i j k ;;
                    ch' <~ get_channel self id ct varName ;;
                    inr (ch', cell))).
  { unfold locate. rewrite Hd, Hch. unfold rbind at 1. unfold rbind at 1.
    rewrite Ht, Hv. simpl attr. unfold rbind at 1. unfold rbind at 1.
    now rewrite Htm. }
  split.
  - intros e He time pos. rewrite getData_eval. unfold getData_pure.
    now rewrite Hloc, He.
  - intros cell Hc ch' Hch'. now rewrite Hloc, Hc, Hch'.
Qed.

(** C6 (as amended).  The index checks of [getData], by dimensionality, for
    a channel whose lookups succeed ([dimPosAt] is [d], the vector length is
    [vLen], the template entry is [tm]), at every time and from every file
    position: the checks come before the time is looked at.
    - 3D: the three indices are tested for 0 or absence first, in the order
      [i], [j], [k], before any extent is computed; once the extents are
      computed, an index above its extent raises the upper-bound error of
      the first such axis in the same order.
    - 2D: the extent of [i], [vLength/(dimj+1)], is computed before any
      check: it is a [TypeError] when the template entry is the [None]
      placeholder and a [ZeroDivisionError] when [dimj + 1 = 0].  Then the
      checks go axis by axis: [i] against 0 or absence, [i] against its
      extent, then the extent of [j], [vLength/dimi] (a
      [ZeroDivisionError] when [dimi = 0]), [j] against 0 or absence, [j]
      against its extent.  So the lower-bound error of [j] needs an [i]
      within its extent.
    - 1D: [i] alone, lower bound, then the vector length as extent.
    With all indices within their bounds no index error is raised, and the
    value is read at the cell the branch computes.  A 0D channel has no
    check (see C9). *)
Theorem index_bound_checks
  (self : XtvFile) (time : float) (id : Z) (ct : option string)
  (varName d : string) (i j k : option Z) (ch : _Channel)
  (tmplInd vLen : Z) (tm : option _Template) (pos : Z) :
  getDimPosAt self id ct varName = inr d ->
  get_channel self id ct (strip varName) = inr ch ->
  vTmpl ch = Some tmplInd -> vLength ch = Some vLen ->
  get_template self id ct tmplInd = inr tm ->
  (startswith d "3" = true ->
     (none_or_zero i = true ->
        eval (getData self time id ct varName i j k) pos
        = inl (xtv_error INDEX_I_LBOUND_ERR))
     /\ (none_or_zero i = false -> none_or_zero j = true ->
           eval (getData self time id ct varName i j k) pos
           = inl (xtv_error INDEX_J_LBOUND_ERR))
     /\ (none_or_zero i = false -> none_or_zero j = false ->
         none_or_zero k = true ->
           eval (getData self time id ct varName i j k) pos
           = inl (xtv_error INDEX_K_LBOUND_ERR))
     /\ (forall t iv jv kv ni nj nk cell,
           tm = Some t -> i = Some iv -> j = Some jv -> k = Some kv ->
           iv <> 0 -> jv <> 0 -> kv <> 0 ->
           extents3D d t vLen iv jv kv = inr (ni, nj, nk, cell) ->
           (ni < iv ->
              eval (getData self time id ct varName i j k) pos
              = inl (xtv_error INDEX_I_UBOUND_ERR))
           /\ (iv <= ni -> nj < jv ->
                 eval (getData self time id ct varName i j k) pos
                 = inl (xtv_error INDEX_J_UBOUND_ERR))
           /\ (iv <= ni -> jv <= nj -> nk < kv ->
                 eval (getData self time id ct varName i j k) pos
                 = inl (xtv_error INDEX_K_UBOUND_ERR))
           /\ (iv <= ni -> jv <= nj -> kv <= nk ->
               forall ch', get_channel self id ct varName = inr ch' ->
                 locate self id ct varName i j k = inr (ch', cell))))
  /\ (startswith d "3" = false -> startswith d "2" = true ->
      (tm = None ->
         eval (getData self time id ct varName i j k) pos = inl TypeError)
      /\ forall t, tm = Some t ->
        (dimj t + 1 = 0 ->
           eval (getData self time id ct varName i j k) pos
           = inl ZeroDivisionError)
        /\ (dimj t + 1 <> 0 ->
        (none_or_zero i = true ->
           eval (getData self time id ct varName i j k) pos
           = inl (xtv_error INDEX_I_LBOUND_ERR))
        /\ (forall iv, i = Some iv -> iv <> 0 -> vLen / (dimj t + 1) < iv ->
              eval (getData self time id ct varName i j k) pos
              = inl (xtv_error INDEX_I_UBOUND_ERR))
        /\ (forall iv, i = Some iv -> iv <> 0 -> iv <= vLen / (dimj t + 1) ->
            (dimi t = 0 ->
               eval (getData self time id ct varName i j k) pos
               = inl ZeroDivisionError)
            /\ (dimi t <> 0 ->
              (none_or_zero j = true ->
                 eval (getData self time id ct varName i j k) pos
                 = inl (xtv_error INDEX_J_LBOUND_ERR))
              /\ (forall jv, j = Some jv -> jv <> 0 -> vLen / dimi t < jv ->
                    eval (getData self time id ct varName i j k) pos
                    = inl (xtv_error INDEX_J_UBOUND_ERR))
              /\ (forall jv, j = Some jv -> jv <> 0 -> jv <= vLen / dimi t ->
                  forall ch', get_channel self id ct varName = inr ch' ->
                    locate self id ct varName i j k
                    = inr (ch', (jv - 1) * dimi t + iv))))))
  /\ (startswith d "3" = false -> startswith d "2" = false ->
      startswith d "1" = true ->
        (none_or_zero i = true ->
           eval (getData self time id ct varName i j k) pos
           = inl (xtv_error INDEX_I_LBOUND_ERR))
        /\ (forall iv, i = Some iv -> iv <> 0 -> vLen < iv ->
              eval (getData self time id ct varName i j k) pos
              = inl (xtv_error INDEX_I_UBOUND_ERR))
        /\ (forall iv, i = Some iv -> iv <> 0 -> iv <= vLen ->
            forall ch', get_channel self id ct varName = inr ch' ->
              locate self id ct varName i j k = inr (ch', iv))).
Proof.
  intros Hd Hch Ht Hv Htm.
  destruct (getData_dispatch self id ct varName d i j k ch tmplInd vLen tm
              Hd Hch Ht Hv Htm) as [Herr Hcell].
  assert (E : forall e, locate_cell d tm vLen i j k = inl e ->
                eval (getData self time id ct varName i j k) pos = inl e)
    by (intros e He; now apply Herr).
  destruct (locate_cell_checks d tm vLen i j k) as (C3 & C2 & C1).
  split; [|split].
  - intros H3. destruct (C3 H3) as (Li & Lj & Lk & U).
    split; [|split; [|split]].
    + intros Hi. apply E. now apply Li.
    + intros Hi Hj. apply E. now apply Lj.
    + intros Hi Hj Hk. apply E. now apply Lk.
    + intros t iv jv kv ni nj nk cell Etm Ei Ej Ek Hiv Hjv Hkv He.
      destruct (U t iv jv kv ni nj nk cell Etm Ei Ej Ek Hiv Hjv Hkv He)
        as (Ui & Uj & Uk & Ok).
      split; [|split; [|split]].
      * intros Hgt. apply E. now apply Ui.
      * intros Hle Hgt. apply E. now apply Uj.
      * intros Hle Hle' Hgt. apply E. now apply Uk.
      * intros Hle Hle' Hle'' ch' Hch'. apply Hcell; [now apply Ok|exact Hch'].
  - intros H3 H2. destruct (C2 H3 H2) as [N S].
    split; [intros Etm; apply E; now apply N|].
    intros t Etm. destruct (S t Etm) as [Z0 NZ].
    split; [intros Hdj; apply E; now apply Z0|].
    intros Hdj. destruct (NZ Hdj) as (Li & Ui & J).
    split; [|split].
    + intros Hi. apply E. now apply Li.
    + intros iv Ei Hiv Hgt. apply E. now apply (Ui iv).
    + intros iv Ei Hiv Hle. destruct (J iv Ei Hiv Hle) as [Z1 NZ1].
      split; [intros Hdi; apply E; now apply Z1|].
      intros Hdi. destruct (NZ1 Hdi) as (Lj & Uj & Ok).
      split; [|split].
      * intros Hj. apply E. now apply Lj.
      * intros jv Ej Hjv Hgt. apply E. now apply (Uj jv).
      * intros jv Ej Hjv Hle' ch' Hch'.
        apply Hcell; [now apply (Ok jv)|exact Hch'].
  - intros H3 H2 H1. destruct (C1 H3 H2 H1) as (Li & Ui & Ok).
    split; [|split].
    + intros Hi. apply E. now apply Li.
    + intros iv Ei Hiv Hgt. apply E. now apply (Ui iv).
    + intros iv Ei Hiv Hle ch' Hch'.
      apply Hcell; [now apply (Ok iv)|exact Hch'].
Qed.

Lemma index_bound_checks_witness :
  eval (getData sample 99 200 (Some "vessel") "pn" (Some 1) None (Some 0)) 0
  = inl (xtv_error INDEX_J_LBOUND_ERR)
  /\ eval (getData sample 1 200 (Some "vessel") "pn"
             (Some 1) (Some 3) (Some 1)) 0
     = inl (xtv_error INDEX_J_UBOUND_ERR)
  /\ eval (getData sample 1 140 (Some "htstrc") "rftn"
             (Some 2) (Some 0) None) 0
     = inl (xtv_error INDEX_J_LBOUND_ERR)
  /\ eval (getData sample 1 500 (Some "pipe") "pn" (Some 3) None None) 0
     = inl (xtv_error INDEX_I_UBOUND_ERR).
Proof.
  assert (V : get_channel sample 200 (Some "vessel") (strip "pn")
              = inr (mk_Channel "pn" (200, "vessel") 84 (Some "label")
                       (Some "u") (Some "U") (Some "3dCc") (Some "TD")
                       (Some "") (Some "") (Some "") (Some "") (Some 1)
                       (Some 8))) by reflexivity.
  assert (R : get_channel sample 140 (Some "htstrc") (strip "rftn")
              = inr (mk_Channel "rftn" (140, "htstrc") 48 (Some "label")
                       (Some "u") (Some "U") (Some "2dFaJ") (Some "TD")
                       (Some "") (Some "") (Some "") (Some "") (Some 1)
                       (Some 6))) by reflexivity.
  assert (P : get_channel sample 500 (Some "pipe") (strip "pn")
              = inr pn_channel) by reflexivity.
  split; [|split; [|split]].
  - destruct (index_bound_checks sample 99 200 (Some "vessel") "pn" "3dCc"
                (Some 1) None (Some 0) _ 1 8 (nth_error (tstore sample) 2) 0
                eq_refl V eq_refl eq_refl eq_refl) as [H _].
    destruct (H eq_refl) as (_ & Hj & _). now apply Hj.
  - destruct (index_bound_checks sample 1 200 (Some "vessel") "pn" "3dCc"
                (Some 1) (Some 3) (Some 1) _ 1 8
                (nth_error (tstore sample) 2) 0
                eq_refl V eq_refl eq_refl eq_refl) as [H _].
    destruct (H eq_refl) as (_ & _ & _ & Hu).
    edestruct Hu as (_ & Hj & _);
      [reflexivity | reflexivity | reflexivity | reflexivity
      | lia | lia | lia | vm_compute; reflexivity | ].
    apply Hj; lia.
  - destruct (index_bound_checks sample 1 140 (Some "htstrc") "rftn" "2dFaJ"
                (Some 2) (Some 0) None _ 1 6 (nth_error (tstore sample) 1) 0
                eq_refl R eq_refl eq_refl eq_refl) as (_ & H & _).
    destruct (H eq_refl eq_refl) as [_ S].
    destruct (S _ eq_refl) as [_ NZ].
    destruct NZ as (_ & _ & Hj); [vm_compute; discriminate|].
    destruct (Hj 2 eq_refl) as [_ Hj'];
      [lia | vm_compute; discriminate | ].
    destruct Hj' as [Hj0 _]; [vm_compute; discriminate|].
    now apply Hj0.
  - destruct (index_bound_checks sample 1 500 (Some "pipe") "pn" "1dCc"
                (Some 3) None None _ 1 2 (nth_error (tstore sample) 0) 0
                eq_refl P eq_refl eq_refl eq_refl) as (_ & _ & H).
    destruct (H eq_refl eq_refl eq_refl) as (_ & Hu & _).
    apply (Hu 3); [reflexivity|lia|lia].
Defined.

(* ================================================================= *)
(** ** Axial locations: claims C8 and C10 *)

Lemma bind_inr {S A B} (m : M S A) (k : A -> M S B) (s : S) (b : B) :
  eval (bind m k) s = inr b ->
  exists a s', m s = (inr a, s') /\ eval (k a) s' = inr b.
Proof.
  unfold eval, bind. destruct (m s) as [[e|a] s']; [discriminate|].
  intros H. now exists a, s'.
Qed.

(** C8 as stated fails: [round(z, 13)] keeps 13 digits after the decimal
    point, not 13 significant digits.  The face height 4097 + 2^-16 of the
    vessel of the sample, 4097.0000152587890625, is returned as it is, with
    its twenty significant digits; rounded to 13 significant digits it would
    be 4097.000015259, a larger number (below 4097 + 2^-16 + 2^-30). *)
Lemma getAxialLocations_keeps_17_digits :
  eval (getAxialLocations sample 0 200 (Some "vessel") "vlnz") 0
  = inr [0; 1; 4097.0000152587890625]%float
  /\ py_round 4097.0000152587890625 13 = 4097.0000152587890625%float
  /\ (4097.0000152587890625
      <? round_significant 4097.0000152587890625 13)%float = true
  /\ (round_significant 4097.0000152587890625 13
      <? 4097.000015259720385074615478515625)%float = true.
Proof. vm_compute. repeat split. Qed.

(** C8 (as amended).  Every value in the list [getAxialLocations] returns
    is [round(z, 13)] of an axial location [z]: rounded to 13 digits after
    the decimal point. *)
Theorem getAxialLocations_rounded
  (self : XtvFile) (time : float) (id : Z) (ct : option string)
  (varName : string) (pos : Z) (zs : list float) :
  eval (getAxialLocations self time id ct varName) pos = inr zs ->
  exists raw, zs = map (fun z => py_round z 13) raw.
Proof.
  unfold getAxialLocations. intros H.
  apply bind_inr in H. destruct H as (d & s1 & _ & H).
  apply bind_inr in H. destruct H as (ch & s2 & _ & H).
  apply bind_inr in H. destruct H as (ti & s3 & _ & H).
  destruct (String.eqb d "0D").
  - exists []. unfold eval, ret in H. simpl in H. now injection H as <-.
  - apply bind_inr in H. destruct H as (raw & s4 & _ & H).
    exists raw. unfold eval, ret in H. simpl in H. now injection H as <-.
Qed.

Lemma getAxialLocations_rounded_witness :
  exists raw, [0.5; 1.5]%float = map (fun z => py_round z 13) raw.
Proof.
  apply (getAxialLocations_rounded sample 0 500 (Some "pipe") "pn" 0).
  vm_compute. reflexivity.
Defined.

Lemma list_index_absent (l : list float) (v : float) :
  Forall (fun z => (z =? v)%float = false) l -> list_index l v = inl ValueError.
Proof.
  induction 1 as [|z l Hz _ IH]; simpl; [reflexivity|].
  now rewrite Hz, IH.
Qed.

(** C10.  For a fine-mesh variable of an ['htstrc'] component (its channel
    lookups succeed and give the array length [vLen]), when the [zht] array
    read from the time record at or before the requested time holds no entry
    equal to -1.0, [getAxialLocations] raises [ValueError], the exception of
    [list.index], and no [XTVError]. *)
Theorem fine_mesh_without_marker
  (self : XtvFile) (time : float) (id : Z) (varName d : string)
  (ch : _Channel) (tmplInd vLen : Z) (zs : list float) (pos pos' : Z) :
  getDimPosAt self id (Some "htstrc") varName = inr d ->
  get_channel self id (Some "htstrc") (strip varName) = inr ch ->
  vTmpl ch = Some tmplInd ->
  htstrc_vLength self id (Some "htstrc") varName d tmplInd = inr vLen ->
  existsb (String.eqb varName) _fineMeshVars = true ->
  read_zht self time id (Some "htstrc") vLen pos = (inr zs, pos') ->
  Forall (fun z => (z =? -1)%float = false) zs ->
  eval (getAxialLocations self time id (Some "htstrc") varName) pos
  = inl ValueError.
Proof.
  intros Hd Hch Ht Hv Hfine Hread Hno.
  unfold getAxialLocations.
  rewrite eval_bind_lift, Hd, eval_bind_lift, Hch, eval_bind_lift, Ht.
  simpl attr. cbv iota.
  destruct (String.eqb d "0D") eqn:E0.
  - apply String.eqb_eq in E0. subst d. discriminate Hv.
  - unfold raw_axial_locations. simpl (String.eqb "htstrc" "htstrc").
    cbv iota. unfold eval, bind at 1. unfold bind at 1.
    unfold lift_res at 1. rewrite Hv. unfold ret at 1.
    rewrite Hfine. unfold bind at 1. rewrite Hread.
    unfold bind at 1. rewrite (list_index_absent _ _ Hno). reflexivity.
Qed.

Lemma fine_mesh_without_marker_witness :
  eval (getAxialLocations sample_full 1 140 (Some "htstrc") "rftn") 0
  = inl ValueError.
Proof.
  apply (fine_mesh_without_marker sample_full 1 140 "rftn" "2dFaJ"
           (mk_Channel "rftn" (140, "htstrc") 48 (Some "label") (Some "u")
              (Some "U") (Some "2dFaJ") (Some "TD") (Some "") (Some "")
              (Some "") (Some "") (Some 1) (Some 6))
           1 3 [0.5; 1.5; 2]%float 0 1664).
  - reflexivity.
  - reflexivity.
  - reflexivity.
  - reflexivity.
  - reflexivity.
  - vm_compute. reflexivity.
  - repeat constructor.
Defined.

(* ================================================================= *)
(** ** Axial queries on a scalar: claim C7 *)

Lemma getAxialLocations_scalar (self : XtvFile) (time : float) (id : Z)
  (ct : option string) (varName : string) (ch : _Channel) (tmplInd : Z)
  (pos : Z) :
  getDimPosAt self id ct varName = inr "0D" ->
  get_channel self id ct (strip varName) = inr ch ->
  vTmpl ch = Some tmplInd ->
  getAxialLocations self time id ct varName pos = (inr [], pos).
Proof.
  intros Hd Hch Ht. unfold getAxialLocations, bind, lift_res.
  rewrite Hd. unfold ret at 1. rewrite Hch. unfold ret at 1.
  rewrite Ht. reflexivity.
Qed.

(** X2.  The single-point axial query on a scalar: once the time has passed the
    time checks, the answer is the error [AXIAL_SCALAR_ERR], whatever the
    axial location asked for. *)
Theorem getAxialData_scalar
  (self : XtvFile) (time : float) (id : Z) (ct : option string)
  (varName : string) (zLoc : float) (xr yt : option Z)
  (ch : _Channel) (tmplInd : Z) (t tprev : float) (pos : Z) :
  getDimPosAt self id ct varName = inr "0D" ->
  get_channel self id ct (strip varName) = inr ch ->
  vTmpl ch = Some tmplInd ->
  check_time self time = inr t ->
  py_getitem (times self) (Z.of_nat (bisect_right (times self) t) - 1)
  = inr tprev ->
  ((t =? tprev)%float = true
   \/ exists tup,
        py_getitem (times self) (Z.of_nat (bisect_right (times self) t))
        = inr tup) ->
  eval (getAxialData self time id ct varName zLoc xr yt) pos
  = inl (xtv_error AXIAL_SCALAR_ERR).
Proof.
  intros Hd Hch Ht Hc Hp Hcase. unfold getAxialData.
  rewrite eval_bind_lift, Hc. cbv zeta.
  rewrite eval_bind_lift, Hp.
  destruct (t =? tprev)%float eqn:E.
  - unfold eval, bind at 1.
    now rewrite (getAxialLocations_scalar self t id ct varName ch tmplInd pos).
  - destruct Hcase as [?|[tup Hu]]; [discriminate|].
    rewrite eval_bind_lift. cbv iota. rewrite eval_bind_lift, Hu.
    unfold eval, bind at 1.
    now rewrite (getAxialLocations_scalar self tprev id ct varName ch
                   tmplInd pos).
Qed.

Lemma getAxialData_scalar_witness :
  eval (getAxialData sample 1 500 (Some "pipe") "power" 7 None None) 0
  = inl (xtv_error AXIAL_SCALAR_ERR)
  /\ eval (getAxialData sample 1.5 500 (Some "pipe") "power" 0.25 None None) 0
     = inl (xtv_error AXIAL_SCALAR_ERR).
Proof.
  split.
  - apply (getAxialData_scalar sample 1 500 (Some "pipe") "power" 7 None None
             (mk_Channel "power" (500, "pipe") 44 (Some "label") (Some "u")
                (Some "U") (Some "0D") (Some "TD") (Some "") (Some "")
                (Some "") (Some "") (Some 0) (Some 1)) 0 1 1 0);
      try reflexivity.
    left; reflexivity.
  - apply (getAxialData_scalar sample 1.5 500 (Some "pipe") "power" 0.25
             None None
             (mk_Channel "power" (500, "pipe") 44 (Some "label") (Some "u")
                (Some "U") (Some "0D") (Some "TD") (Some "") (Some "")
                (Some "") (Some "") (Some 0) (Some 1)) 0 1.5 1 0);
      try reflexivity.
    right; exists 2%float; reflexivity.
Defined.

(** X3.  The bulk axial query on a scalar, over a time index that is not empty:
    the empty list of axial locations is indexed at [z-1] without a check,
    and the query ends in [IndexError]. *)
Theorem getTimeVectorAxial_scalar
  (self : XtvFile) (channel varName : string) (ct : option string)
  (id : Z) (a xr yt : option Z) (zLoc : float)
  (ch : _Channel) (tmplInd : Z) (t0 : float) (rest : list float) (pos : Z) :
  decode_channel self channel = (varName, ct, id, a, xr, yt) ->
  getDimPosAt self id ct varName = inr "0D" ->
  get_channel self id ct (strip varName) = inr ch ->
  vTmpl ch = Some tmplInd ->
  times self = t0 :: rest ->
  eval (getTimeVectorAxial self channel zLoc) pos = inl IndexError.
Proof.
  intros Hdec Hd Hch Ht Htimes. unfold getTimeVectorAxial.
  rewrite Hdec, Htimes. cbn [mapM].
  unfold eval, bind at 1. unfold bind at 1.
  rewrite (getAxialLocations_scalar self t0 id ct varName ch tmplInd pos Hd Hch Ht).
  unfold bind at 1. unfold axial_lookup.
  unfold bind at 1. unfold lift_res at 1.
  now rewrite py_getitem_empty.
Qed.

Lemma getTimeVectorAxial_scalar_witness :
  eval (getTimeVectorAxial sample "power-500" 1) 0 = inl IndexError.
Proof.
  apply (getTimeVectorAxial_scalar sample "power-500" "power" (Some "pipe")
           500 None None None 1
           (mk_Channel "power" (500, "pipe") 44 (Some "label") (Some "u")
              (Some "U") (Some "0D") (Some "TD") (Some "") (Some "")
              (Some "") (Some "") (Some 0) (Some 1)) 0 0 [1; 2]%float 0);
    reflexivity.
Defined.

(** C7 at its failing input.  In the sample file the scalar [power] of the
    pipe 500 has no axial location.  The single-point queries answer with
    the error [AXIAL_SCALAR_ERR]; the bulk query [getTimeVectorAxial] ends in
    [IndexError]. *)
Lemma axial_queries_on_scalar :
  eval (getAxialLocations sample 0 500 (Some "pipe") "power") 0 = inr []
  /\ eval (getAxialData sample 0 500 (Some "pipe") "power" 1 None None) 0
     = inl (xtv_error AXIAL_SCALAR_ERR)
  /\ eval (getAxialDataChannel sample 0 "power-500" 1) 0
     = inl (xtv_error AXIAL_SCALAR_ERR)
  /\ eval (getTimeVectorAxial sample "power-500" 1) 0 = inl IndexError.
Proof. vm_compute. repeat split. Qed.

(* ================================================================= *)
(** ** The constructor: claim C1 *)

(** C1 at its failing input.  The file [hdr_only] ends after the starting
    block: the first read of the block loop raises [EOFError], the handler
    sets [opened] to [False], and the constructor goes on to its last
    statement, which sets it to [True]; no exception leaves the
    constructor. *)
Lemma init_opened_after_loop_exception :
  read_StartingBlock hdr_only 0
  = (inr (mk_StartingBlock "" 0 0 0 0 0 0 0 0 0 0 0 0 0 0 0 0 0
            "MUX" "" "" "" "" "" ""), 104)
  /\ block_loop hdr_only 10 (mk_PState 104 [] [] None None 24)
     = Some (inl EOFError, mk_PState 104 [] [] None None 24)
  /\ option_map (fun r => match r with
                          | inr x => opened x
                          | inl _ => None
                          end) (XtvFile_init hdr_only 10)
     = Some (Some true).
Proof. vm_compute. repeat split. Qed.

(** X1.  Whatever the file, an object the constructor returns has [opened] set to
    [True], unless the format string is not ["MUX"], in which case the
    attribute was never set: no run ends with [opened] being [False]. *)
Theorem init_never_leaves_opened_False
  (file : list byte) (fuel : nat) (x : XtvFile) :
  XtvFile_init file fuel = Some (inr x) ->
  opened x = Some true
  \/ (opened x = None /\ String.eqb (fmtString (SB x)) "MUX" = false).
Proof.
  unfold XtvFile_init.
  destruct (read_StartingBlock file 0) as [[e|sb] pos]; [discriminate|].
  destruct (String.eqb (fmtString sb) "MUX") eqn:E; simpl.
  - destruct (block_loop file fuel _) as [[r st]|]; [|discriminate].
    destruct (read_times file sb 0 _ _) as [[e|ts] p]; [discriminate|].
    intros H. injection H as <-. left. reflexivity.
  - intros H. injection H as <-. right. split; [reflexivity|exact E].
Qed.

Lemma init_never_leaves_opened_False_witness :
  opened (opened_file hdr_only) = Some true
  \/ (opened (opened_file hdr_only) = None
      /\ String.eqb (fmtString (SB (opened_file hdr_only))) "MUX" = false).
Proof.
  apply (init_never_leaves_opened_False hdr_only 100).
  vm_compute. reflexivity.
Defined.

(* ================================================================= *)
(** ** More of the reader *)

(** X4.  The outcome of [getData] is the same from every file position: each
    read follows an absolute seek, so the query is a function of the file
    content, the header and its arguments. *)
Theorem getData_position_independent
  (self : XtvFile) (time : float) (id : Z) (ct : option string)
  (varName : string) (i j k : option Z) (pos pos' : Z) :
  eval (getData self time id ct varName i j k) pos
  = eval (getData self time id ct varName i j k) pos'.
Proof.
  transitivity (getData_pure self time id ct varName i j k).
  - getData_steps.
  - symmetry. getData_steps.
Qed.

(* ================================================================= *)
(** ** The unpacker *)

(** A read of [n] bytes returns what is left of the file, [n] bytes at most,
    and moves the position past it. *)
Lemma file_read_run (file : list byte) (n pos : Z) :
  0 <= n -> 0 <= pos ->
  exists data,
    file_read file n pos = (inr data, pos + Z.of_nat (List.length data))
    /\ data = firstn (Z.to_nat n) (skipn (Z.to_nat pos) file)
    /\ Z.of_nat (List.length data)
       = Z.min n (Z.max 0 (Z.of_nat (List.length file) - pos)).
Proof.
  intros Hn Hp. eexists. split; [reflexivity|]. split; [reflexivity|].
  rewrite length_firstn, length_skipn. lia.
Qed.

Lemma be_value_app (l : list byte) (b : byte) :
  be_value (l ++ [b]) = be_value l * 256 + Z.of_N (Byte.to_N b).
Proof. unfold be_value. now rewrite fold_left_app. Qed.

Lemma byte_bound (b : byte) : 0 <= Z.of_N (Byte.to_N b) < 256.
Proof. pose proof (Byte.to_N_bounded b). lia. Qed.

(** A byte string of length [n] is a number below [256^n]. *)
Lemma be_value_bound (l : list byte) :
  0 <= be_value l < 256 ^ Z.of_nat (List.length l).
Proof.
  induction l as [|b l IH] using rev_ind.
  - simpl. unfold be_value. simpl. lia.
  - rewrite be_value_app, length_app. simpl List.length.
    replace (Z.of_nat (List.length l + 1)) with (Z.of_nat (List.length l) + 1)
      by lia.
    rewrite Z.pow_add_r by lia. change (256 ^ 1) with 256.
    pose proof (byte_bound b). nia.
Qed.

(** The four fixed-width readers share one shape. *)
Lemma fixed_width_run {A} (file : list byte) (w : Z) (dec : Z -> A) (pos : Z) :
  0 < w -> 0 <= pos ->
  let m := (data <- file_read file w ;;
            if (Z.of_nat (List.length data) <? w) then raise EOFError
            else ret (dec (be_value data))) in
  (pos + w <= Z.of_nat (List.length file) ->
     exists data,
       m pos = (inr (dec (be_value data)), pos + w)
       /\ data = firstn (Z.to_nat w) (skipn (Z.to_nat pos) file)
       /\ Z.of_nat (List.length data) = w)
  /\ (Z.of_nat (List.length file) < pos + w ->
        m pos = (inl EOFError,
                 pos + Z.max 0 (Z.of_nat (List.length file) - pos))).
Proof.
  intros Hw Hp m. subst m. unfold bind.
  destruct (file_read_run file w pos) as (data & Hr & Hd & Hl); [lia|lia|].
  rewrite Hr. split; intros H.
  - exists data. rewrite Hl.
    replace (Z.min _ _) with w in * by lia.
    rewrite Z.ltb_irrefl. unfold ret. repeat split; auto. 
  - rewrite Hl.
    replace (Z.min _ _) with (Z.max 0 (Z.of_nat (List.length file) - pos)) by lia.
    replace (_ <? w) with true by (symmetry; apply Z.ltb_lt; lia).
    reflexivity.
Qed.

Lemma unpack_float_run (file : list byte) (pos : Z) :
  0 <= pos ->
  (pos + 4 <= Z.of_nat (List.length file) ->
     exists v, unpack_float file pos = (inr v, pos + 4))
  /\ (Z.of_nat (List.length file) < pos + 4 ->
        eval (unpack_float file) pos = inl EOFError).
Proof.
  intros Hp.
  destruct (fixed_width_run file 4 (ieee_decode 8 23) pos) as [H1 H2];
    [lia|lia|].
  split; intros H.
  - destruct (H1 H) as (d & E & _). eexists. exact E.
  - unfold eval, unpack_float. now rewrite (H2 H).
Qed.

Lemma unpack_double_run (file : list byte) (pos : Z) :
  0 <= pos ->
  (pos + 8 <= Z.of_nat (List.length file) ->
     exists v, unpack_double file pos = (inr v, pos + 8))
  /\ (Z.of_nat (List.length file) < pos + 8 ->
        eval (unpack_double file) pos = inl EOFError).
Proof.
  intros Hp.
  destruct (fixed_width_run file 8 (ieee_decode 11 52) pos) as [H1 H2];
    [lia|lia|].
  split; intros H.
  - destruct (H1 H) as (d & E & _). eexists. exact E.
  - unfold eval, unpack_double. now rewrite (H2 H).
Qed.

(** X5.  The two integer readers of [FileUnpacker]: with four bytes left at
    the position both succeed and move the position by four; the unsigned
    value is in [0, 2^32), the signed one in [-2^31, 2^31), and they are the
    same number modulo [2^32] (two's complement).  With fewer than four bytes
    left both raise [EOFError]. *)
Theorem unpack_uint_int_spec (file : list byte) (pos : Z) :
  0 <= pos ->
  (pos + 4 <= Z.of_nat (List.length file) ->
     exists u i,
       unpack_uint file pos = (inr u, pos + 4)
       /\ unpack_int file pos = (inr i, pos + 4)
       /\ 0 <= u < 2 ^ 32 /\ - 2 ^ 31 <= i < 2 ^ 31
       /\ u = i mod 2 ^ 32)
  /\ (Z.of_nat (List.length file) < pos + 4 ->
        eval (unpack_uint file) pos = inl EOFError
        /\ eval (unpack_int file) pos = inl EOFError).
Proof.
  intros Hp.
  destruct (fixed_width_run file 4 (fun x => x) pos) as [U1 U2]; [lia|lia|].
  destruct (fixed_width_run file 4
              (fun x => if x <? 2 ^ 31 then x else x - 2 ^ 32) pos)
    as [I1 I2]; [lia|lia|].
  split; intros H.
  - destruct (U1 H) as (d & EU & Hd & Hl).
    destruct (I1 H) as (d' & EI & Hd' & _).
    rewrite <- Hd in Hd'. subst d'.
    exists (be_value d), (if be_value d <? 2 ^ 31 then be_value d
                          else be_value d - 2 ^ 32).
    pose proof (be_value_bound d) as Hb.
    replace (Z.of_nat (List.length d)) with 4 in Hb by lia.
    change (256 ^ 4) with (2 ^ 32) in Hb.
    split; [exact EU|]. split; [exact EI|]. split; [exact Hb|].
    destruct (be_value d <? 2 ^ 31) eqn:E.
    + apply Z.ltb_lt in E. split; [lia|].
      symmetry. apply Z.mod_small. lia.
    + apply Z.ltb_ge in E. split; [lia|].
      apply (Z.mod_unique _ _ (-1)); lia.
  - unfold eval, unpack_uint, unpack_int.
    now rewrite (U2 H), (I2 H).
Qed.

Lemma unpack_uint_int_spec_witness :
  0 <= 0
  /\ exists u i,
       unpack_uint (octets [255; 255; 255; 254]) 0 = (inr u, 0 + 4)
       /\ unpack_int (octets [255; 255; 255; 254]) 0 = (inr i, 0 + 4)
       /\ 0 <= u < 2 ^ 32 /\ - 2 ^ 31 <= i < 2 ^ 31
       /\ u = i mod 2 ^ 32.
Proof.
  split; [lia|].
  apply (unpack_uint_int_spec (octets [255; 255; 255; 254]) 0); [lia|].
  vm_compute. discriminate.
Defined.

(** The bytes of [octets] are the numbers they were made from. *)
Lemma octets_value (z : Z) :
  0 <= z < 256 ->
  Z.of_N (Byte.to_N (match Byte.of_N (Z.to_N z) with
                     | Some b => b
                     | None => x00
                     end)) = z.
Proof.
  intros Hz.
  destruct (Byte.of_N (Z.to_N z)) as [b|] eqn:E.
  - apply Byte.to_of_N in E. lia.
  - apply Byte.of_N_None_iff in E. lia.
Qed.

Lemma be_value_xdr_int (z : Z) :
  be_value (octets (xdr_int z)) = z mod 2 ^ 32.
Proof.
  assert (Hu : 0 <= z mod 2 ^ 32 < 2 ^ 32) by (apply Z.mod_pos_bound; lia).
  unfold xdr_int, octets, be_value. cbv zeta.
  set (u := z mod 2 ^ 32) in *. cbn [map fold_left].
  rewrite !octets_value.
  - change (2 ^ 24) with (2 ^ 16 * 256). change (2 ^ 16) with (2 ^ 8 * 256).
    change (2 ^ 8) with 256.
    rewrite <- !Z.div_div by lia.
    pose proof (Z.div_mod u 256 ltac:(lia)).
    pose proof (Z.div_mod (u / 256) 256 ltac:(lia)).
    pose proof (Z.div_mod (u / 256 / 256) 256 ltac:(lia)).
    lia.
  - apply Z.mod_pos_bound. lia.
  - apply Z.mod_pos_bound. lia.
  - apply Z.mod_pos_bound. lia.
  - split.
    + apply Z.div_pos; lia.
    + apply Z.div_lt_upper_bound; lia.
Qed.

(** Reading at the end of a prefix returns what follows it. *)
Lemma read_after_prefix (pre mid rest : list byte) :
  firstn (List.length mid)
    (skipn (Z.to_nat (Z.of_nat (List.length pre))) (pre ++ mid ++ rest)) = mid.
Proof.
  rewrite Nat2Z.id, skipn_app, Nat.sub_diag, skipn_all. simpl.
  rewrite firstn_app, Nat.sub_diag, firstn_all. simpl. apply app_nil_r.
Qed.

(** X6.  Round trip of the integers: the four bytes of the big-endian two's
    complement encoding of [z], wherever they stand in the file, are read
    back as [z] by [unpack_int] for [-2^31 <= z < 2^31], and also by
    [unpack_uint] when [0 <= z]; the position moves by four. *)
Theorem unpack_int_round_trip (pre rest : list byte) (z : Z) :
  - 2 ^ 31 <= z < 2 ^ 31 ->
  unpack_int (pre ++ octets (xdr_int z) ++ rest) (Z.of_nat (List.length pre))
  = (inr z, Z.of_nat (List.length pre) + 4)
  /\ (0 <= z ->
      unpack_uint (pre ++ octets (xdr_int z) ++ rest)
        (Z.of_nat (List.length pre))
      = (inr z, Z.of_nat (List.length pre) + 4)).
Proof.
  intros Hz.
  set (file := pre ++ octets (xdr_int z) ++ rest).
  set (pos := Z.of_nat (List.length pre)).
  assert (Hread : file_read file 4 pos
                  = (inr (octets (xdr_int z)), pos + 4)).
  { unfold file_read. subst file pos.
    change (Z.to_nat 4) with (List.length (octets (xdr_int z))).
    rewrite read_after_prefix. reflexivity. }
  split; [|intros H0].
  - unfold unpack_int, bind. rewrite Hread.
    change (Z.of_nat (List.length (octets (xdr_int z))) <? 4) with false.
    cbv iota. rewrite be_value_xdr_int. unfold ret. f_equal. f_equal.
    destruct (Z.leb_spec 0 z).
    + rewrite Z.mod_small by lia.
      replace (z <? 2 ^ 31) with true by (symmetry; apply Z.ltb_lt; lia).
      reflexivity.
    + replace (z mod 2 ^ 32) with (z + 2 ^ 32)
        by (apply (Z.mod_unique _ _ (-1)); lia).
      replace (z + 2 ^ 32 <? 2 ^ 31) with false
        by (symmetry; apply Z.ltb_ge; lia).
      lia.
  - unfold unpack_uint, bind. rewrite Hread.
    change (Z.of_nat (List.length (octets (xdr_int z))) <? 4) with false.
    cbv iota. rewrite be_value_xdr_int. unfold ret.
    now rewrite Z.mod_small by lia.
Qed.

Lemma unpack_int_round_trip_witness :
  unpack_int (octets [1; 2] ++ octets (xdr_int (-7)) ++ octets [3])
    (Z.of_nat (List.length (octets [1; 2])))
  = (inr (-7), Z.of_nat (List.length (octets [1; 2])) + 4).
Proof.
  apply (unpack_int_round_trip (octets [1; 2]) (octets [3]) (-7)). lia.
Defined.

Lemma length_string_of_list_byte (l : list byte) :
  String.length (string_of_list_byte l) = List.length l.
Proof.
  unfold string_of_list_byte. induction l as [|b l IH]; simpl; congruence.
Qed.

(** X7.  [unpack_fstring] has no end-of-file test.  For a size [n >= 0] it
    never raises: it returns the first [n] bytes of what is left of the file,
    fewer when the file ends before, and moves the position past the padded
    size or to the end of the file.  A negative size is a [ValueError] and
    the position stays. *)
Theorem unpack_fstring_never_eof (file : list byte) (n pos : Z) :
  0 <= pos ->
  let left := Z.max 0 (Z.of_nat (List.length file) - pos) in
  (0 <= n ->
     exists s,
       unpack_fstring file n pos
       = (inr s, pos + Z.min ((n + 3) / 4 * 4) left)
       /\ Z.of_nat (String.length s) = Z.min n left
       /\ s = string_of_list_byte
                (firstn (Z.to_nat n) (skipn (Z.to_nat pos) file)))
  /\ (n < 0 -> unpack_fstring file n pos = (inl ValueError, pos)).
Proof.
  intros Hp left. split; intros Hn.
  - assert (Hpad : n <= (n + 3) / 4 * 4).
    { pose proof (Z.div_mod (n + 3) 4 ltac:(lia)).
      pose proof (Z.mod_pos_bound (n + 3) 4 ltac:(lia)). lia. }
    unfold unpack_fstring.
    replace (n <? 0) with false by (symmetry; apply Z.ltb_ge; lia).
    unfold bind.
    destruct (file_read_run file ((n + 3) / 4 * 4) pos) as (data & Hr & Hd & Hl);
      [lia|lia|].
    rewrite Hr. unfold ret. eexists. split; [|split].
    + rewrite Hl. reflexivity.
    + rewrite length_string_of_list_byte, length_firstn. subst left. lia.
    + f_equal. rewrite Hd, firstn_firstn. f_equal. lia.
  - unfold unpack_fstring.
    replace (n <? 0) with true by (symmetry; apply Z.ltb_lt; lia).
    reflexivity.
Qed.

Lemma unpack_fstring_never_eof_witness :
  0 <= 2
  /\ exists s,
       unpack_fstring (octets [97; 98; 99; 100; 101]) 8 2
       = (inr s, 2 + Z.min ((8 + 3) / 4 * 4) 3)
       /\ Z.of_nat (String.length s) = Z.min 8 3
       /\ s = string_of_list_byte
                (firstn (Z.to_nat 8)
                   (skipn (Z.to_nat 2) (octets [97; 98; 99; 100; 101]))).
Proof.
  split; [lia|].
  apply (unpack_fstring_never_eof (octets [97; 98; 99; 100; 101]) 8 2); lia.
Defined.

(** [n] items of a fixed width [w]: all of them when [n*w] bytes are left,
    [EOFError] otherwise. *)
Lemma replicateM_fixed_width {A} (file : list byte) (item : M Z A) (w : Z) :
  0 < w ->
  (forall pos, 0 <= pos ->
     (pos + w <= Z.of_nat (List.length file) ->
        exists v, item pos = (inr v, pos + w))
     /\ (Z.of_nat (List.length file) < pos + w ->
           eval item pos = inl EOFError)) ->
  forall (n : nat) (pos : Z), 0 <= pos ->
    (pos + Z.of_nat n * w <= Z.of_nat (List.length file) ->
       exists l, replicateM n item pos = (inr l, pos + Z.of_nat n * w)
                 /\ List.length l = n)
    /\ ((0 < n)%nat -> Z.of_nat (List.length file) < pos + Z.of_nat n * w ->
          eval (replicateM n item) pos = inl EOFError).
Proof.
  intros Hw Hitem. induction n as [|n IH]; intros pos Hp.
  - split; [intros H|intros H0 H].
    + exists []. simpl. unfold ret. split; [f_equal; lia|reflexivity].
    + lia.
  - destruct (Hitem pos Hp) as [Hok Hbad].
    split; [intros H|intros _ H].
    + destruct Hok as [v Hv]; [lia|].
      destruct (IH (pos + w)) as [IHok _]; [lia|].
      destruct IHok as (l & Hl & Hlen); [lia|].
      exists (v :: l). cbn [replicateM]. unfold bind. rewrite Hv, Hl.
      unfold ret. split; [f_equal; lia|simpl; congruence].
    + cbn [replicateM]. unfold eval, bind.
      destruct (Z.le_gt_cases (pos + w) (Z.of_nat (List.length file))) as [Hle|Hgt].
      * destruct (Hok Hle) as [v Hv]. rewrite Hv.
        destruct (IH (pos + w)) as [_ IHbad]; [lia|].
        specialize (IHbad ltac:(nia) ltac:(lia)). unfold eval in IHbad.
        destruct (replicateM n item (pos + w)) as [[e|l] p]; simpl in *;
          congruence.
      * specialize (Hbad Hgt). unfold eval in Hbad.
        destruct (item pos) as [[e|v] p]; simpl in *; congruence.
Qed.

(** X8.  [unpack_farray] of [n] floats (4 bytes each) or doubles (8 bytes
    each): when that many bytes are left at the position it returns exactly
    [n] items and moves the position past them; when fewer are left it
    raises [EOFError]; a count that is not positive gives the empty list and
    reads nothing. *)
Theorem unpack_farray_spec (file : list byte) (n pos : Z) :
  0 <= pos ->
  (0 <= n ->
     (pos + n * 4 <= Z.of_nat (List.length file) ->
        exists l, unpack_farray n (unpack_float file) pos = (inr l, pos + n * 4)
                  /\ Z.of_nat (List.length l) = n)
     /\ (0 < n -> Z.of_nat (List.length file) < pos + n * 4 ->
           eval (unpack_farray n (unpack_float file)) pos = inl EOFError)
     /\ (pos + n * 8 <= Z.of_nat (List.length file) ->
           exists l, unpack_farray n (unpack_double file) pos
                     = (inr l, pos + n * 8)
                     /\ Z.of_nat (List.length l) = n)
     /\ (0 < n -> Z.of_nat (List.length file) < pos + n * 8 ->
           eval (unpack_farray n (unpack_double file)) pos = inl EOFError))
  /\ (n <= 0 ->
        unpack_farray n (unpack_float file) pos = (inr [], pos)
        /\ unpack_farray n (unpack_double file) pos = (inr [], pos)).
Proof.
  intros Hp. split.
  - intros Hn. unfold unpack_farray.
    destruct (replicateM_fixed_width file (unpack_float file) 4 ltac:(lia)
                (fun p => unpack_float_run file p) (Z.to_nat n) pos Hp)
      as [F1 F2].
    destruct (replicateM_fixed_width file (unpack_double file) 8 ltac:(lia)
                (fun p => unpack_double_run file p) (Z.to_nat n) pos Hp)
      as [D1 D2].
    rewrite Z2Nat.id in * by lia.
    split; [|split; [|split]].
    + intros H. destruct (F1 H) as (l & E & Hl). exists l. split; [exact E|lia].
    + intros H0 H. apply F2; lia.
    + intros H. destruct (D1 H) as (l & E & Hl). exists l. split; [exact E|lia].
    + intros H0 H. apply D2; lia.
  - intros Hn. unfold unpack_farray.
    replace (Z.to_nat n) with 0%nat by lia. split; reflexivity.
Qed.

Lemma unpack_farray_spec_witness :
  0 <= 1
  /\ eval (unpack_farray 2 (unpack_float (octets [0; 63; 0; 0; 0; 63; 0; 0])))
          1
     = inl EOFError.
Proof.
  split; [lia|].
  apply (unpack_farray_spec (octets [0; 63; 0; 0; 0; 63; 0; 0]) 2 1);
    [lia|lia|lia|].
  vm_compute. reflexivity.
Defined.

(* ================================================================= *)
(** ** The constructor *)

(** A seek and a float, from any position. *)
Lemma seek_float_eval (file : list byte) (offset pos : Z) :
  eval (set_position offset ;;; unpack_float file) pos = float_at file offset.
Proof.
  unfold float_at, eval, bind, set_position.
  destruct (offset <? 0); reflexivity.
Qed.

Lemma read_times_spec (file : list byte) (sb : StartingBlock) (n : nat) :
  forall (i pos : Z) (ts : list float) (pos' : Z),
    read_times file sb i n pos = (inr ts, pos') ->
    List.length ts = n
    /\ forall j t, nth_error ts j = Some t ->
         float_at file (dataStart sb + (i + Z.of_nat j) * dataLen sb + 20)
         = inr t.
Proof.
  induction n as [|n IH]; intros i pos ts pos' H.
  - cbn [read_times] in H. unfold ret in H. injection H as <- _.
    split; [reflexivity|]. intros [|j] t Hj; discriminate.
  - cbn [read_times] in H.
    pose proof (seek_float_eval file (dataStart sb + i * dataLen sb + 20) pos)
      as Hf.
    unfold eval, bind in Hf. unfold bind in H.
    destruct (set_position (dataStart sb + i * dataLen sb + 20) pos)
      as [[e|[]] p1]; [discriminate|].
    destruct (unpack_float file p1) as [[e|t0] p2]; [discriminate|].
    simpl in Hf.
    destruct (read_times file sb (i + 1) n p2) as [[e|ts'] p3] eqn:E;
      [discriminate|].
    unfold ret in H. injection H as <- _.
    destruct (IH _ _ _ _ E) as [Hlen Hnth].
    split; [simpl; congruence|].
    intros [|j] t Hj.
    + simpl in Hj. injection Hj as <-.
      replace (i + Z.of_nat 0) with i by lia. now rewrite <- Hf.
    + simpl in Hj. rewrite <- (Hnth j t Hj). f_equal. lia.
Qed.

(** X9.  The time index of an opened file: an object the constructor returns
    with [opened] set holds exactly [nPoints] times, and the time of record
    [j] is the float decoded at offset 20 of that record, at
    [dataStart + j*dataLen + 20] of the file. *)
Theorem init_times (file : list byte) (fuel : nat) (x : XtvFile) :
  XtvFile_init file fuel = Some (inr x) ->
  opened x = Some true ->
  xtvFile x = file
  /\ List.length (times x) = Z.to_nat (nPoints (SB x))
  /\ forall j t, nth_error (times x) j = Some t ->
       float_at file (dataStart (SB x) + Z.of_nat j * dataLen (SB x) + 20)
       = inr t.
Proof.
  unfold XtvFile_init.
  destruct (read_StartingBlock file 0) as [[e|sb] pos]; [discriminate|].
  destruct (String.eqb (fmtString sb) "MUX"); simpl.
  - destruct (block_loop file fuel _) as [[r st]|]; [|discriminate].
    destruct (read_times file sb 0 _ _) as [[e|ts] p] eqn:E; [discriminate|].
    intros H _. injection H as <-.
    destruct (read_times_spec _ _ _ _ _ _ _ E) as [Hlen Hnth].
    destruct r; (split; [reflexivity|]; split; [exact Hlen|]);
      intros j t Hj; apply (Hnth j t Hj).
  - intros H Ho. injection H as <-. discriminate Ho.
Qed.

Lemma init_times_witness :
  xtvFile sample
  = sample_file 0 (f32_of_nat 1) (f32_of_nat 2) [s_half; s_3half; s_minus1]
  /\ List.length (times sample) = Z.to_nat (nPoints (SB sample))
  /\ forall j t, nth_error (times sample) j = Some t ->
       float_at (sample_file 0 (f32_of_nat 1) (f32_of_nat 2)
                   [s_half; s_3half; s_minus1])
         (dataStart (SB sample) + Z.of_nat j * dataLen (SB sample) + 20)
       = inr t.
Proof.
  apply (init_times _ 100 sample).
  - vm_compute. reflexivity.
  - reflexivity.
Defined.

(** A block of a type the loop does not know: only the seek to the declared
    end of the block is left of the turn. *)
Lemma block_step_unknown (file : list byte)
  (comps : list ((Z * string) * _Component)) (ts : list _Template)
  (cc : option (Z * string)) (ct : option nat) (rl : Z)
  (pos p1 p2 p3 rev jump : Z) (bt : string) :
  unpack_string file pos = (inr bt, p1) ->
  unpack_int file p1 = (inr rev, p2) ->
  unpack_int file p2 = (inr jump, p3) ->
  known_block bt = false ->
  block_step file (mk_PState pos comps ts cc ct rl)
  = if pos + jump <? 0 then (inl IOError, mk_PState p3 comps ts cc ct rl)
    else (inr false, mk_PState (pos + jump) comps ts cc ct rl).
Proof.
  intros Hs Hr Hj Hk. unfold known_block in Hk. cbn [existsb] in Hk.
  repeat (apply orb_false_elim in Hk; destruct Hk as [? Hk]).
  unfold block_step, bind, up, get_position, get. simpl p_pos.
  rewrite Hs. simpl p_pos. rewrite Hr. simpl p_pos. rewrite Hj.
  repeat match goal with
         | H : String.eqb bt _ = false |- _ => rewrite H; clear H
         end.
  unfold ret. simpl p_pos. unfold set_position.
  destruct (pos + jump <? 0); reflexivity.
Qed.

(** X10.  Forward compatibility of the block loop: a block of a type the
    constructor does not know changes nothing of what was parsed; the turn
    ends with the file position at the start of the block plus its declared
    size, whatever was read in between, and the loop goes on.  (A declared
    size that leads before the start of the file is refused by the seek.) *)
Theorem unknown_block_is_skipped (file : list byte) (st : PState)
  (p1 p2 p3 rev jump : Z) (bt : string) :
  unpack_string file (p_pos st) = (inr bt, p1) ->
  unpack_int file p1 = (inr rev, p2) ->
  unpack_int file p2 = (inr jump, p3) ->
  known_block bt = false ->
  0 <= p_pos st + jump ->
  block_step file st
  = (inr false,
     mk_PState (p_pos st + jump) (p_components st) (p_tstore st)
       (currentComp st) (currentTempl st) (recordLength st)).
Proof.
  intros Hs Hr Hj Hk Hpos. destruct st as [pos comps ts cc ct rl].
  simpl in *.
  rewrite (block_step_unknown file comps ts cc ct rl pos p1 p2 p3 rev jump bt)
    by assumption.
  replace (pos + jump <? 0) with false by (symmetry; apply Z.ltb_ge; lia).
  reflexivity.
Qed.

Lemma unknown_block_is_skipped_witness :
  block_step (octets (xdr_block "JUNK" [1; 2; 3; 4]))
    (mk_PState 0 [] [] None None 24)
  = (inr false, mk_PState (0 + 20) [] [] None None 24).
Proof.
  apply (unknown_block_is_skipped (octets (xdr_block "JUNK" [1; 2; 3; 4]))
           (mk_PState 0 [] [] None None 24) 8 12 16 0 20 "JUNK");
    try reflexivity.
  simpl. lia.
Defined.

Lemma block_loop_fixpoint (file : list byte) (st : PState) :
  block_step file st = (inr false, st) ->
  forall fuel, block_loop file fuel st = None.
Proof.
  intros H. induction fuel as [|fuel IH]; [reflexivity|].
  cbn [block_loop]. now rewrite H.
Qed.

(** X11.  A file the constructor never finishes reading: when the block
    after the starting block of a ["MUX"] file has an unknown type and
    declares the size 0, the seek that ends the turn goes back to the start
    of the same block; the loop reads it again and again, and the
    constructor returns nothing, however many turns it is given. *)
Theorem zero_size_block_never_ends (file : list byte) (sb : StartingBlock)
  (pos p1 p2 p3 rev : Z) (bt : string) :
  read_StartingBlock file 0 = (inr sb, pos) ->
  fmtString sb = "MUX" ->
  0 <= pos ->
  unpack_string file pos = (inr bt, p1) ->
  unpack_int file p1 = (inr rev, p2) ->
  unpack_int file p2 = (inr 0, p3) ->
  known_block bt = false ->
  forall fuel, XtvFile_init file fuel = None.
Proof.
  intros Hsb Hfmt Hpos Hs Hr Hj Hk fuel. unfold XtvFile_init.
  rewrite Hsb, Hfmt. simpl negb. cbv iota.
  rewrite block_loop_fixpoint; [reflexivity|].
  rewrite (block_step_unknown file [] [] None None 24 pos p1 p2 p3 rev 0 bt)
    by assumption.
  rewrite Z.add_0_r.
  replace (pos <? 0) with false by (symmetry; apply Z.ltb_ge; lia).
  reflexivity.
Qed.

Lemma zero_size_block_never_ends_witness :
  XtvFile_init zero_size_block 1000 = None.
Proof.
  refine (zero_size_block_never_ends zero_size_block
           (mk_StartingBlock "" 0 0 0 0 0 0 0 0 0 0 0 0 0 0 0 0 0
              "MUX" "" "" "" "" "" "") 104 112 116 120 0 "JUNK"
            _ _ _ _ _ _ _ 1000%nat);
    try reflexivity.
  lia.
Defined.

(* ================================================================= *)
(** ** Channel strings *)

Lemma string_forall_app (p : ascii -> bool) (s1 s2 : string) :
  string_forall p (s1 ++ s2) = string_forall p s1 && string_forall p s2.
Proof.
  induction s1 as [|c s1 IH]; simpl; [reflexivity|].
  now rewrite IH, andb_assoc.
Qed.

Lemma digit_not_dash (c : ascii) :
  is_digit c = true -> negb (Ascii.eqb c "-") = true.
Proof.
  intros H. destruct (Ascii.eqb c "-") eqn:E; [|reflexivity].
  apply Ascii.eqb_eq in E. subst c. discriminate H.
Qed.

Lemma all_digits_no_dash (s : string) : all_digits s = true -> no_dash s = true.
Proof.
  unfold all_digits, no_dash. induction s as [|c s IH]; simpl; [reflexivity|].
  intros H. apply andb_prop in H. destruct H as [Hc Hs].
  now rewrite (digit_not_dash c Hc), IH.
Qed.

Lemma rsplit_dash_none (s : string) : no_dash s = true -> rsplit_dash s = None.
Proof.
  unfold no_dash. induction s as [|c s IH]; simpl; [reflexivity|].
  intros H. apply andb_prop in H. destruct H as [Hc Hs].
  rewrite (IH Hs). apply negb_true_iff in Hc. now rewrite Hc.
Qed.

(** The last hyphen of [v-tail] is the one written, when [tail] has none. *)
Lemma rpartition_last (v tail : string) :
  no_dash tail = true -> rpartition (v ++ "-" ++ tail) = (v, "-", tail).
Proof.
  intros H. unfold rpartition.
  assert (E : rsplit_dash (v ++ "-" ++ tail) = Some (v, tail)).
  { induction v as [|c v IH]; simpl.
    - now rewrite (rsplit_dash_none tail H).
    - simpl in IH. now rewrite IH. }
  now rewrite E.
Qed.

Lemma span_digits_app (ds rest : string) :
  all_digits ds = true -> starts_with_digit rest = false ->
  span_digits (ds ++ rest) = (ds, rest).
Proof.
  unfold all_digits. induction ds as [|c ds IH]; simpl; intros Hd Hr.
  - destruct rest as [|c rest]; [reflexivity|].
    simpl in *. now rewrite Hr.
  - apply andb_prop in Hd. destruct Hd as [Hc Hd].
    now rewrite Hc, (IH Hd Hr).
Qed.

Lemma index_group_app (letter : ascii) (ds rest : string) :
  all_digits ds = true -> (2 <=? String.length ds)%nat = true ->
  starts_with_digit rest = false ->
  index_group letter (String letter (ds ++ rest)) = Some (ds, rest).
Proof.
  intros Hd Hl Hr. unfold index_group.
  now rewrite Ascii.eqb_refl, (span_digits_app ds rest Hd Hr), Hl.
Qed.

Lemma index_group_other (letter : ascii) (s : string) :
  match s with
  | EmptyString => true
  | String c _ => negb (Ascii.eqb c letter)
  end = true ->
  index_group letter s = None.
Proof.
  destruct s as [|c s]; [reflexivity|]. simpl. intros H.
  apply negb_true_iff in H. now rewrite H.
Qed.

Lemma trailing_text_facts (s : string) :
  trailing_text s = true ->
  no_dash s = true /\ starts_with_digit s = false
  /\ index_group "A" s = None /\ index_group "R" s = None
  /\ index_group "T" s = None.
Proof.
  unfold trailing_text. intros H. apply andb_prop in H. destruct H as [Hn H].
  split; [exact Hn|].
  destruct s as [|c s]; [repeat split|].
  repeat (apply andb_prop in H; destruct H as [H ?]).
  repeat split.
  - simpl. now apply negb_true_iff.
  - now apply index_group_other.
  - now apply index_group_other.
  - now apply index_group_other.
Qed.

Lemma non_empty_length (s : string) :
  s <> "" -> (String.length s =? 0)%nat = false.
Proof. destruct s; [congruence|reflexivity]. Qed.

Lemma string_app_assoc (a b c : string) : ((a ++ b) ++ c = a ++ (b ++ c))%string.
Proof. induction a as [|x a IH]; simpl; congruence. Qed.

Lemma index_ok_Some (s : string) :
  index_ok (Some s) = true ->
  all_digits s = true /\ (2 <=? String.length s)%nat = true.
Proof. unfold index_ok. intros H. now apply andb_prop in H. Qed.

(** X12.  Parsing inverts writing.  A channel identifier written as
    [<variable>-<id>[A<axial>[R<radial>[T<theta>]]]], with an id of one
    decimal digit or more and indices of two decimal digits or more, is
    parsed back into exactly its parts, the indices that were not written
    being [None].  The variable name may hold hyphens, and text that follows
    the identifier is ignored. *)
Theorem parseChannelString_round_trip
  (varName id : string) (a r t : option string) (text : string) :
  all_digits id = true -> id <> "" ->
  index_ok a = true -> index_ok r = true -> index_ok t = true ->
  (a = None -> r = None) -> (r = None -> t = None) ->
  trailing_text text = true ->
  parseChannelString (channel_string varName id a r t ++ text)
  = (varName, IdStr id, a, r, t).
Proof.
  intros Hid Hne Ha Hr Ht Har Hrt Htext.
  destruct (trailing_text_facts text Htext) as (Hnd & Hsd & HA & HR & HT).
  pose proof (all_digits_no_dash id Hid) as Hidd.
  pose proof (non_empty_length id Hne) as Hlen.
  unfold parseChannelString, channel_string.
  rewrite !string_app_assoc.
  destruct a as [a|].
  - destruct (index_ok_Some a Ha) as [Hda Hla].
    pose proof (all_digits_no_dash a Hda) as Hdda.
    destruct r as [r|].
    + destruct (index_ok_Some r Hr) as [Hdr Hlr].
      pose proof (all_digits_no_dash r Hdr) as Hddr.
      destruct t as [t|].
      * destruct (index_ok_Some t Ht) as [Hdt Hlt].
        pose proof (all_digits_no_dash t Hdt) as Hddt.
        rewrite !string_app_assoc.
        rewrite rpartition_last.
        2:{ unfold no_dash in *. rewrite !string_forall_app.
            now rewrite Hidd, Hdda, Hddr, Hddt, Hnd. }
        unfold regex_match.
        rewrite span_digits_app by (auto; reflexivity). rewrite Hlen.
        simpl (("A" ++ _)%string).
        rewrite index_group_app by (auto; reflexivity).
        simpl (("R" ++ _)%string).
        rewrite index_group_app by (auto; reflexivity).
        simpl (("T" ++ _)%string).
        rewrite index_group_app by auto.
        reflexivity.
      * rewrite !string_app_assoc. simpl (("" ++ text)%string).
        rewrite rpartition_last.
        2:{ unfold no_dash in *. rewrite !string_forall_app.
            now rewrite Hidd, Hdda, Hddr, Hnd. }
        unfold regex_match.
        rewrite span_digits_app by (auto; reflexivity). rewrite Hlen.
        simpl (("A" ++ _)%string).
        rewrite index_group_app by (auto; reflexivity).
        simpl (("R" ++ _)%string).
        rewrite index_group_app by auto.
        rewrite HT. reflexivity.
    + rewrite (Hrt eq_refl).
      rewrite !string_app_assoc. simpl (("" ++ text)%string).
      rewrite rpartition_last.
      2:{ unfold no_dash in *. rewrite !string_forall_app.
          now rewrite Hidd, Hdda, Hnd. }
      unfold regex_match.
      rewrite span_digits_app by (auto; reflexivity). rewrite Hlen.
      simpl (("A" ++ _)%string).
      rewrite index_group_app by auto.
      rewrite HR. reflexivity.
  - rewrite (Har eq_refl), (Hrt (Har eq_refl)).
    simpl (("" ++ text)%string).
    rewrite rpartition_last.
    2:{ unfold no_dash in *. rewrite !string_forall_app.
        now rewrite Hidd, Hnd. }
    unfold regex_match.
    rewrite span_digits_app by auto. rewrite Hlen.
    rewrite HA. reflexivity.
Qed.

Lemma parseChannelString_round_trip_witness :
  parseChannelString
    (channel_string "alpha-n" "140" (Some "03") (Some "005") None ++ " (K)")
  = ("alpha-n", IdStr "140", Some "03", Some "005", None).
Proof.
  apply (parseChannelString_round_trip "alpha-n" "140" (Some "03")
           (Some "005") None " (K)"); try reflexivity; discriminate.
Defined.

(** X13.  An index of a single digit is no index.  In an identifier whose
    axial index has one digit, the pattern matches the id alone: the axial
    index is [None], and so are the radial and theta indices, whatever was
    written for them. *)
Theorem one_digit_index_is_dropped
  (varName id : string) (d : ascii) (rest : string) :
  all_digits id = true -> id <> "" ->
  is_digit d = true -> starts_with_digit rest = false ->
  no_dash rest = true ->
  parseChannelString (varName ++ "-" ++ id ++ "A" ++ String d rest)
  = (varName, IdStr id, None, None, None).
Proof.
  intros Hid Hne Hd Hr Hnd.
  pose proof (all_digits_no_dash id Hid) as Hidd.
  pose proof (non_empty_length id Hne) as Hlen.
  unfold parseChannelString.
  rewrite rpartition_last.
  2:{ unfold no_dash in *. rewrite !string_forall_app. simpl.
      now rewrite Hidd, (digit_not_dash d Hd), Hnd. }
  unfold regex_match.
  rewrite span_digits_app by (auto; reflexivity). rewrite Hlen.
  simpl (("A" ++ _)%string). unfold index_group.
  rewrite Ascii.eqb_refl.
  change (String d rest) with (String d "" ++ rest)%string.
  rewrite span_digits_app; [reflexivity| |exact Hr].
  unfold all_digits. simpl. now rewrite Hd.
Qed.

Lemma one_digit_index_is_dropped_witness :
  parseChannelString ("rftn" ++ "-" ++ "140" ++ "A" ++ String "3" "R05")
  = ("rftn", IdStr "140", None, None, None).
Proof.
  apply (one_digit_index_is_dropped "rftn" "140" "3" "R05");
    try reflexivity; discriminate.
Defined.

(* ================================================================= *)
(** ** The component type of a channel *)

Lemma key_eqb_eq (k1 k2 : Z * string) : key_eqb k1 k2 = true -> k1 = k2.
Proof.
  destruct k1 as [a b], k2 as [c d]. unfold key_eqb. simpl. intros H.
  apply andb_prop in H. destruct H as [H1 H2].
  apply Z.eqb_eq in H1. apply String.eqb_eq in H2. congruence.
Qed.

Lemma od_get_In {V} (d : list ((Z * string) * V)) (k : Z * string) (v : V) :
  od_get key_eqb d k = Some v -> In k (od_keys d).
Proof.
  induction d as [|[k' v'] d IH]; simpl; [discriminate|].
  destruct (key_eqb k' k) eqn:E.
  - intros _. left. now apply key_eqb_eq.
  - intros H. right. now apply IH.
Qed.

Lemma getCompType_loop_sound (self : XtvFile) (keys : list (Z * string))
  (compID : Z) (varName ct : string) :
  getCompType_loop self keys compID varName = Some ct ->
  exists c ch,
    od_get key_eqb (components self) (compID, ct) = Some c
    /\ od_get String.eqb (channels c) varName = Some ch.
Proof.
  induction keys as [|[id ct'] keys IH]; simpl; [discriminate|].
  destruct (id =? compID) eqn:E; [|exact IH].
  apply Z.eqb_eq in E. subst id.
  destruct (od_get key_eqb (components self) (compID, ct')) as [c|] eqn:Ec;
    [|exact IH].
  destruct (od_get String.eqb (channels c) varName) as [ch|] eqn:Ech;
    [|exact IH].
  intros H. injection H as <-. now exists c, ch.
Qed.

Lemma getCompType_loop_complete (self : XtvFile) (keys : list (Z * string))
  (compID : Z) (varName ct : string) (c : _Component) :
  getCompType_loop self keys compID varName = None ->
  In (compID, ct) keys ->
  od_get key_eqb (components self) (compID, ct) = Some c ->
  od_get String.eqb (channels c) varName = None.
Proof.
  induction keys as [|[id ct'] keys IH]; simpl; [contradiction|].
  intros H [Hin|Hin] Hc.
  - injection Hin as -> ->. rewrite Z.eqb_refl, Hc in H.
    destruct (od_get String.eqb (channels c) varName); [discriminate|reflexivity].
  - destruct (id =? compID); [|now apply IH].
    destruct (od_get key_eqb (components self) (id, ct')) as [c'|];
      [|now apply IH].
    destruct (od_get String.eqb (channels c') varName); [discriminate|].
    now apply IH.
Qed.

(** X14.  The component type [__getCompType] finds for a component id and a
    variable name is one under which the channel is there: the lookup of the
    channel with the id and the type found succeeds.  And it finds none
    only when the lookup fails for every type. *)
Theorem getCompType_resolves (self : XtvFile) (id : comp_id) (varName : string) :
  (forall ct, getCompType self id varName = Some ct ->
     exists ch, get_channel self (int_of_id id) (Some ct) varName = inr ch)
  /\ (getCompType self id varName = None ->
        forall ct, get_channel self (int_of_id id) (Some ct) varName
                   = inl AttributeError).
Proof.
  unfold getCompType, get_channel, get_component. split.
  - intros ct H.
    destruct (getCompType_loop_sound _ _ _ _ _ H) as (c & ch & Hc & Hch).
    exists ch. rewrite Hc. simpl. now rewrite Hch.
  - intros H ct.
    destruct (od_get key_eqb (components self) (int_of_id id, ct)) as [c|] eqn:Ec;
      [|reflexivity].
    simpl.
    now rewrite (getCompType_loop_complete _ _ _ _ _ c H (od_get_In _ _ _ Ec) Ec).
Qed.

(* ================================================================= *)
(** ** The bulk queries *)

Lemma eval_bind {S A B} (m : M S A) (k : A -> M S B) (s : S) :
  eval (bind m k) s
  = match m s with
    | (inl e, _) => inl e
    | (inr a, s') => eval (k a) s'
    end.
Proof. unfold eval, bind. destruct (m s) as [[e|a] s']; reflexivity. Qed.

(** A loop whose body has the same outcome from every state is the loop
    over the pure steps. *)
Lemma eval_mapM {S A B} (f : A -> M S B) (g : A -> res B) :
  (forall x s, eval (f x) s = g x) ->
  forall xs s, eval (mapM f xs) s = mapR g xs.
Proof.
  intros H. induction xs as [|x xs IH]; intros s; [reflexivity|].
  cbn [mapM mapR]. rewrite eval_bind. specialize (H x s). unfold eval in H.
  destruct (f x s) as [[e|y] s']; simpl in H; rewrite <- H; [reflexivity|].
  unfold rbind at 1. rewrite eval_bind. specialize (IH s'). unfold eval in IH.
  destruct (mapM f xs s') as [[e|ys] s'']; simpl in IH; rewrite <- IH;
    reflexivity.
Qed.

Lemma mapR_length {A B} (f : A -> res B) (xs : list A) (ys : list B) :
  mapR f xs = inr ys -> List.length ys = List.length xs.
Proof.
  revert ys. induction xs as [|x xs IH]; intros ys H.
  - injection H as <-. reflexivity.
  - cbn [mapR] in H. unfold rbind in H.
    destruct (f x) as [e|y]; [discriminate|].
    destruct (mapR f xs) as [e|ys']; [discriminate|].
    injection H as <-. simpl. now rewrite (IH ys').
Qed.

Lemma mapR_ext_nth {A B} (g : A -> res B) (g' : nat * A -> res B)
  (l : list A) :
  forall s,
    (forall r x, nth_error l r = Some x -> g x = g' ((s + r)%nat, x)) ->
    mapR g l = mapR g' (combine (seq s (List.length l)) l).
Proof.
  induction l as [|x l IH]; intros s H; [reflexivity|].
  cbn [List.length seq combine mapR].
  pose proof (H 0%nat x eq_refl) as H0. rewrite Nat.add_0_r in H0.
  rewrite <- H0.
  rewrite (IH (Datatypes.S s)); [reflexivity|].
  intros r y Hr. rewrite (H (Datatypes.S r) y Hr). f_equal. f_equal. lia.
Qed.

(** X15.  [getTimeData] is [getData] at each requested time, in order: it
    returns the list of the values [getData] returns, one for each time, and
    raises the exception of the first time at which [getData] raises.  The
    file position between the calls does not matter. *)
Theorem getTimeData_pointwise
  (self : XtvFile) (ts : list float) (id : Z) (ct : option string)
  (varName : string) (i j k : option Z) (pos : Z) :
  eval (getTimeData self ts id ct varName i j k) pos
  = mapR (fun t => eval (getData self t id ct varName i j k) 0) ts
  /\ forall vs, eval (getTimeData self ts id ct varName i j k) pos = inr vs ->
                List.length vs = List.length ts.
Proof.
  assert (E : eval (getTimeData self ts id ct varName i j k) pos
              = mapR (fun t => eval (getData self t id ct varName i j k) 0) ts).
  { unfold getTimeData. apply eval_mapM. intros x s. now rewrite !getData_eval. }
  split; [exact E|].
  intros vs H. rewrite E in H. now apply mapR_length in H.
Qed.

(** [getData_pure] at a time of the index, see [getData_exact_time]. *)
Lemma getData_pure_exact
  (self : XtvFile) (time : float) (id : Z) (ct : option string)
  (varName : string) (i j k : option Z) (ch : _Channel) (cell : Z)
  (r : nat) (tr : float) :
  locate self id ct varName i j k = inr (ch, cell) ->
  ascending (times self) ->
  (time <? 0)%float = false ->
  nth_error (times self) r = Some tr ->
  (time =? tr)%float = true ->
  (forall r' t', (r < r')%nat -> nth_error (times self) r' = Some t' ->
                 (time =? t')%float = false) ->
  getData_pure self time id ct varName i j k
  = float_at (xtvFile self)
      (dataStart (SB self) + Z.of_nat r * dataLen (SB self)
       + (startIncrement ch + (cell - 1) * 4)).
Proof.
  intros Hloc Hasc Hneg Hr Heq Hlast.
  unfold getData_pure. rewrite Hloc.
  unfold rbind at 1. cbv zeta.
  destruct (feq_fle tr time Heq) as [Hle1 Hle2].
  rewrite (check_time_inside self time r r tr tr Hasc Hneg Hr Hr Hle1 Hle2).
  unfold rbind at 1.
  rewrite (bisect_exact _ _ _ _ Hasc Hr Heq Hlast).
  replace (Z.of_nat (Datatypes.S r) - 1) with (Z.of_nat r) by lia.
  rewrite (py_getitem_nth _ _ _ Hr). unfold rbind at 1.
  now rewrite Heq.
Qed.

(** X16.  [getTimeVector] on a time index that is ascending, without a
    negative time and without a repeated time: for a channel string that
    decodes to a valid channel with valid indices, the vector pairs the time
    of every record, in order, with the value decoded at the channel's cell
    in that record, at
    [dataStart + r*dataLen + startIncrement + (cell-1)*4]; nothing is
    interpolated, and the first value that cannot be read ends the query. *)
Theorem getTimeVector_raw_values
  (self : XtvFile) (channel varName : string) (ct : option string) (id : Z)
  (a xr yt i j k : option Z) (ch : _Channel) (cell : Z) (pos : Z) :
  decode_channel self channel = (varName, ct, id, a, xr, yt) ->
  transform_indices self id ct varName xr yt a = inr (i, j, k) ->
  locate self id ct varName i j k = inr (ch, cell) ->
  ascending (times self) ->
  Forall (fun t => (t <? 0)%float = false) (times self) ->
  (forall r r' t t', (r < r')%nat ->
     nth_error (times self) r = Some t -> nth_error (times self) r' = Some t' ->
     (t =? t')%float = false) ->
  eval (getTimeVector self channel) pos
  = mapR (fun '(r, t) =>
            v <~ float_at (xtvFile self)
                   (dataStart (SB self) + Z.of_nat r * dataLen (SB self)
                    + (startIncrement ch + (cell - 1) * 4)) ;;
            inr (t, v))
         (enumerate (times self)).
Proof.
  intros Hdec Htr Hloc Hasc Hpos Hnodup.
  unfold getTimeVector. rewrite Hdec, eval_bind_lift, Htr.
  rewrite (eval_mapM _ (fun t => v <~ getData_pure self t id ct varName i j k ;;
                                 inr (t, v))).
  2:{ intros x s. rewrite eval_bind.
      pose proof (getData_eval self x id ct varName i j k s) as H.
      unfold eval in H.
      destruct (getData self x id ct varName i j k s) as [[e|v] s'];
        simpl in H; rewrite <- H; reflexivity. }
  unfold enumerate. apply mapR_ext_nth.
  intros r t Hr. simpl.
  rewrite (getData_pure_exact self t id ct varName i j k ch cell r t);
    auto.
  - rewrite Forall_forall in Hpos. apply Hpos. eapply nth_error_In; eauto.
  - destruct Hasc as [_ Hnum]. rewrite Forall_forall in Hnum.
    apply Hnum. eapply nth_error_In; eauto.
  - intros r' t' Hlt Hr'. apply (Hnodup r r' t t'); auto.
Qed.

Lemma getTimeVector_raw_values_witness :
  eval (getTimeVector sample "pn-500A02") 0
  = mapR (fun '(r, t) =>
            v <~ float_at (xtvFile sample)
                   (dataStart (SB sample) + Z.of_nat r * dataLen (SB sample)
                    + (startIncrement pn_channel + (2 - 1) * 4)) ;;
            inr (t, v))
         (enumerate (times sample))
  /\ eval (getTimeVector sample "pn-500A02") 0
     = inr [(0, 2); (1, 102); (2, 202)]%float.
Proof.
  split.
  - apply (getTimeVector_raw_values sample "pn-500A02" "pn" (Some "pipe") 500
             (Some 2) None None (Some 2) (Some 0) (Some 0) pn_channel 2 0).
    + reflexivity.
    + reflexivity.
    + vm_compute; reflexivity.
    + split; repeat constructor.
    + repeat constructor.
    + intros r r' t t' Hlt Hr Hr'.
      destruct r as [|[|[|[|r]]]]; simpl in Hr; try discriminate;
        injection Hr as <-;
        destruct r' as [|[|[|[|r']]]]; try lia; simpl in Hr';
        try discriminate; injection Hr' as <-; reflexivity.
  - vm_compute. reflexivity.
Defined.

(** X17.  [getAxialVector] on a scalar: the channel has no axial location,
    the loop over the locations has nothing to do, and the query returns the
    empty list for every time, a time outside the time index included; no
    error is raised. *)
Theorem getAxialVector_scalar
  (self : XtvFile) (time : float) (channel varName : string)
  (ct : option string) (id : Z) (a xr yt : option Z)
  (ch : _Channel) (tmplInd : Z) (pos : Z) :
  decode_channel self channel = (varName, ct, id, a, xr, yt) ->
  getDimPosAt self id ct varName = inr "0D" ->
  get_channel self id ct (strip varName) = inr ch ->
  vTmpl ch = Some tmplInd ->
  getAxialVector self time channel pos = (inr [], pos).
Proof.
  intros Hdec Hd Hch Ht. unfold getAxialVector. rewrite Hdec.
  unfold bind.
  now rewrite (getAxialLocations_scalar self time id ct varName ch tmplInd pos
                 Hd Hch Ht).
Qed.

Lemma getAxialVector_scalar_witness :
  getAxialVector sample 99 "power-500" 0 = (inr [], 0)
  /\ eval (getData sample 99 500 (Some "pipe") "power" None None None) 0
     = inl (xtv_error TIME_UBOUND_ERR).
Proof.
  split.
  - apply (getAxialVector_scalar sample 99 "power-500" "power" (Some "pipe")
             500 None None None
             (mk_Channel "power" (500, "pipe") 44 (Some "label") (Some "u")
                (Some "U") (Some "0D") (Some "TD") (Some "") (Some "")
                (Some "") (Some "") (Some 0) (Some 1)) 0 0);
      reflexivity.
  - vm_compute. reflexivity.
Defined.

(* ================================================================= *)
(** ** The axial locations *)

Lemma bind_lift_run {S A B} (r : res A) (k : A -> M S B) (s : S) :
  bind (lift_res r) k s
  = match r with inl e => (inl e, s) | inr a => k a s end.
Proof. destruct r; reflexivity. Qed.

(** [getAxialLocations], step by step. *)
Lemma getAxialLocations_run (self : XtvFile) (time : float) (id : Z)
  (ct : option string) (varName : string) (pos : Z) :
  getAxialLocations self time id ct varName pos
  = match getDimPosAt self id ct varName with
    | inl e => (inl e, pos)
    | inr d =>
        match get_channel self id ct (strip varName) with
        | inl e => (inl e, pos)
        | inr ch =>
            match attr (vTmpl ch) with
            | inl e => (inl e, pos)
            | inr tmplInd =>
                if String.eqb d "0D" then (inr [], pos)
                else
                  match raw_axial_locations self time id ct varName d tmplInd
                          pos with
                  | (inl e, pos') => (inl e, pos')
                  | (inr zLocs, pos') =>
                      (inr (map (fun z => py_round z 13) zLocs), pos')
                  end
            end
        end
    end.
Proof.
  unfold getAxialLocations. rewrite bind_lift_run.
  destruct (getDimPosAt self id ct varName) as [e|d]; [reflexivity|].
  rewrite bind_lift_run.
  destruct (get_channel self id ct (strip varName)) as [e|ch]; [reflexivity|].
  rewrite bind_lift_run.
  destruct (attr (vTmpl ch)) as [e|ti]; [reflexivity|].
  destruct (String.eqb d "0D"); [reflexivity|].
  unfold bind.
  destruct (raw_axial_locations self time id ct varName d ti pos)
    as [[e|z] p]; reflexivity.
Qed.

(** X18.  For every variable but a fine-mesh variable of an ['htstrc']
    component, [getAxialLocations] does not use the time and does not read
    the file: its outcome is the same for all times, and the file position
    stays where it was. *)
Theorem getAxialLocations_time_independent
  (self : XtvFile) (id : Z) (ct : option string) (varName : string) :
  (match ct with Some c => String.eqb c "htstrc" | None => false end)
  && existsb (String.eqb varName) _fineMeshVars = false ->
  exists r, forall time pos,
    getAxialLocations self time id ct varName pos = (r, pos).
Proof.
  intros Hnf.
  destruct (getDimPosAt self id ct varName) as [e|d] eqn:Ed;
    [exists (inl e); intros; rewrite getAxialLocations_run, Ed; reflexivity|].
  destruct (get_channel self id ct (strip varName)) as [e|ch] eqn:Ech;
    [exists (inl e); intros; rewrite getAxialLocations_run, Ed, Ech;
     reflexivity|].
  destruct (attr (vTmpl ch)) as [e|ti] eqn:Eti;
    [exists (inl e); intros; rewrite getAxialLocations_run, Ed, Ech, Eti;
     reflexivity|].
  destruct (String.eqb d "0D") eqn:E0;
    [exists (inr []); intros; rewrite getAxialLocations_run, Ed, Ech, Eti, E0;
     reflexivity|].
  assert (Hraw : exists r, forall time pos,
             raw_axial_locations self time id ct varName d ti pos = (r, pos)).
  { unfold raw_axial_locations.
    destruct (match ct with Some c => String.eqb c "htstrc" | None => false end).
    - cbn [andb] in Hnf. rewrite Hnf.
      destruct (htstrc_vLength self id ct varName d ti) as [e|vl];
        [exists (inl e); reflexivity|].
      destruct (get_template self id ct ti) as [e|tm];
        [exists (inl e); reflexivity|].
      destruct tm as [t|]; [|exists (inl AttributeError); reflexivity].
      eexists; reflexivity.
    - destruct (match ct with Some c => String.eqb c "htstr" | None => false end).
      + destruct (get_template self id ct ti) as [e|tm];
          [exists (inl e); reflexivity|].
        destruct tm as [t|]; [|exists (inl AttributeError); reflexivity].
        eexists; reflexivity.
      + destruct (match ct with Some c => String.eqb c "vessel" | None => false end).
        * destruct (get_template self id ct ti) as [e|tm];
            [exists (inl e); reflexivity|].
          destruct tm as [t|]; [|exists (inl AttributeError); reflexivity].
          eexists; reflexivity.
        * destruct (startswith d "1"); [|exists (inl SystemExit); reflexivity].
          destruct (get_template self id ct ti) as [e|tm];
            [exists (inl e); reflexivity|].
          destruct tm as [t|]; [|exists (inl AttributeError); reflexivity].
          eexists; reflexivity. }
  destruct Hraw as [r Hr].
  exists (match r with
          | inl e => inl e
          | inr zLocs => inr (map (fun z => py_round z 13) zLocs)
          end).
  intros time pos.
  rewrite getAxialLocations_run, Ed, Ech, Eti, E0, Hr.
  destruct r; reflexivity.
Qed.

Lemma getAxialLocations_time_independent_witness :
  exists r, forall time pos,
    getAxialLocations sample time 500 (Some "pipe") "pn" pos = (r, pos).
Proof.
  apply (getAxialLocations_time_independent sample 500 (Some "pipe") "pn").
  reflexivity.
Defined.

Lemma list_index_first (pre post : list float) (m v : float) :
  Forall (fun z => (z =? v)%float = false) pre -> (m =? v)%float = true ->
  list_index (pre ++ m :: post) v = inr (Z.of_nat (List.length pre)).
Proof.
  intros Hpre Hm. induction Hpre as [|z pre Hz _ IH].
  - simpl. now rewrite Hm.
  - cbn [app list_index List.length]. rewrite Hz, IH. unfold rbind.
    f_equal. lia.
Qed.

(** X19.  For a fine-mesh variable of an ['htstrc'] component (its channel
    lookups succeed and give the array length [vLen]), when the [zht] array
    read from the time record at or before the requested time holds an
    entry equal to -1.0, [getAxialLocations] returns the heights before the
    first such entry, each rounded to 13 digits after the decimal point;
    the marker and what follows it are dropped. *)
Theorem fine_mesh_with_marker
  (self : XtvFile) (time : float) (id : Z) (varName d : string)
  (ch : _Channel) (tmplInd vLen : Z) (heights rest : list float)
  (marker : float) (pos pos' : Z) :
  getDimPosAt self id (Some "htstrc") varName = inr d ->
  get_channel self id (Some "htstrc") (strip varName) = inr ch ->
  vTmpl ch = Some tmplInd ->
  htstrc_vLength self id (Some "htstrc") varName d tmplInd = inr vLen ->
  existsb (String.eqb varName) _fineMeshVars = true ->
  read_zht self time id (Some "htstrc") vLen pos
  = (inr (heights ++ marker :: rest), pos') ->
  Forall (fun z => (z =? -1)%float = false) heights ->
  (marker =? -1)%float = true ->
  getAxialLocations self time id (Some "htstrc") varName pos
  = (inr (map (fun z => py_round z 13) heights), pos').
Proof.
  intros Hd Hch Ht Hv Hfine Hread Hno Hm.
  rewrite getAxialLocations_run, Hd, Hch, Ht. simpl attr. cbv iota.
  destruct (String.eqb d "0D") eqn:E0.
  - apply String.eqb_eq in E0. subst d. discriminate Hv.
  - unfold raw_axial_locations. simpl (String.eqb "htstrc" "htstrc").
    cbv iota. rewrite bind_lift_run, Hv, Hfine. unfold bind at 1.
    rewrite Hread, bind_lift_run, (list_index_first _ _ _ _ Hno Hm).
    unfold ret. rewrite Nat2Z.id.
    rewrite firstn_app, Nat.sub_diag, firstn_all. simpl firstn.
    now rewrite app_nil_r.
Qed.

Lemma fine_mesh_with_marker_witness :
  getAxialLocations sample 1 140 (Some "htstrc") "rftn" 0
  = (inr (map (fun z => py_round z 13) [0.5; 1.5]%float), 1664).
Proof.
  apply (fine_mesh_with_marker sample 1 140 "rftn" "2dFaJ"
           (mk_Channel "rftn" (140, "htstrc") 48 (Some "label") (Some "u")
              (Some "U") (Some "2dFaJ") (Some "TD") (Some "") (Some "")
              (Some "") (Some "") (Some 1) (Some 6))
           1 3 [0.5; 1.5]%float [] (-1)%float 0 1664).
  - reflexivity.
  - reflexivity.
  - reflexivity.
  - reflexivity.
  - reflexivity.
  - vm_compute. reflexivity.
  - repeat constructor.
  - reflexivity.
Defined.

(* ================================================================= *)
(** ** Values at an axial location *)

(** The checks on the axial location, read off a list with a first and a
    last entry. *)
Lemma check_axial_ends (zht : list float) (zLoc first last : float) (n : nat) :
  nth_error zht 0 = Some first ->
  List.length zht = Datatypes.S n -> nth_error zht n = Some last ->
  check_axial zht zLoc
  = if (last <? zLoc)%float then inl (xtv_error AXIAL_UBOUND_ERR)
    else if (zLoc <? first)%float then inl (xtv_error AXIAL_LBOUND_ERR)
    else inr tt.
Proof.
  intros H0 Hlen Hlast. unfold check_axial. rewrite Hlen. cbn [Nat.eqb].
  rewrite (py_getitem_last _ _ _ Hlen Hlast). unfold rbind at 1.
  destruct (last <? zLoc)%float; [reflexivity|].
  change 0 with (Z.of_nat 0). rewrite (py_getitem_nth _ 0%nat _ H0).
  reflexivity.
Qed.

(** [getAxialData] up to the lookup, when the axial locations are the same
    at the times it asks for. *)
Lemma getAxialData_checks
  (self : XtvFile) (time : float) (id : Z) (ct : option string)
  (varName : string) (zLoc : float) (xr yt : option Z)
  (t tprev : float) (zht : list float) (e : exn) (pos : Z) :
  check_time self time = inr t ->
  py_getitem (times self) (Z.of_nat (bisect_right (times self) t) - 1)
  = inr tprev ->
  ((t =? tprev)%float = true
   \/ exists tup,
        py_getitem (times self) (Z.of_nat (bisect_right (times self) t))
        = inr tup) ->
  (forall tm p, eval (getAxialLocations self tm id ct varName) p = inr zht) ->
  check_axial zht zLoc = inl e ->
  eval (getAxialData self time id ct varName zLoc xr yt) pos = inl e.
Proof.
  intros Hc Hp Hcase Hloc He. unfold getAxialData.
  rewrite eval_bind_lift, Hc. cbv zeta. rewrite eval_bind_lift, Hp.
  destruct (t =? tprev)%float eqn:E.
  - rewrite eval_bind. specialize (Hloc t pos). unfold eval in Hloc.
    destruct (getAxialLocations self t id ct varName pos) as [[e'|z] p];
      simpl in Hloc; [discriminate|]. injection Hloc as ->.
    now rewrite eval_bind_lift, He.
  - destruct Hcase as [?|[tup Hu]]; [discriminate|].
    rewrite eval_bind_lift. cbv iota. rewrite eval_bind_lift, Hu.
    rewrite eval_bind. specialize (Hloc tprev pos). unfold eval in Hloc.
    destruct (getAxialLocations self tprev id ct varName pos) as [[e'|z] p];
      simpl in Hloc; [discriminate|]. injection Hloc as ->.
    now rewrite eval_bind_lift, He.
Qed.

(** X20.  The bounds of the axial location in [getAxialData].  Once the time
    has passed the time checks, for a channel whose axial locations are the
    list [zht] at every time, with the first entry [first] and the last entry
    [last]: a location strictly above [last] raises the error
    [AXIAL_UBOUND_ERR]; otherwise a location strictly below [first] raises
    the error [AXIAL_LBOUND_ERR].  Nothing is extrapolated. *)
Theorem axial_out_of_bounds
  (self : XtvFile) (time : float) (id : Z) (ct : option string)
  (varName : string) (zLoc : float) (xr yt : option Z)
  (t tprev : float) (zht : list float) (first last : float) (n : nat)
  (pos : Z) :
  check_time self time = inr t ->
  py_getitem (times self) (Z.of_nat (bisect_right (times self) t) - 1)
  = inr tprev ->
  ((t =? tprev)%float = true
   \/ exists tup,
        py_getitem (times self) (Z.of_nat (bisect_right (times self) t))
        = inr tup) ->
  (forall tm p, eval (getAxialLocations self tm id ct varName) p = inr zht) ->
  nth_error zht 0 = Some first ->
  List.length zht = Datatypes.S n -> nth_error zht n = Some last ->
  ((last <? zLoc)%float = true ->
     eval (getAxialData self time id ct varName zLoc xr yt) pos
     = inl (xtv_error AXIAL_UBOUND_ERR))
  /\ ((last <? zLoc)%float = false -> (zLoc <? first)%float = true ->
        eval (getAxialData self time id ct varName zLoc xr yt) pos
        = inl (xtv_error AXIAL_LBOUND_ERR)).
Proof.
  intros Hc Hp Hcase Hloc H0 Hlen Hlast.
  pose proof (check_axial_ends zht zLoc first last n H0 Hlen Hlast) as Hca.
  split.
  - intros Hgt. rewrite Hgt in Hca.
    now apply (getAxialData_checks self time id ct varName zLoc xr yt
                 t tprev zht).
  - intros Hle Hlt. rewrite Hle, Hlt in Hca.
    now apply (getAxialData_checks self time id ct varName zLoc xr yt
                 t tprev zht).
Qed.

Lemma axial_out_of_bounds_witness :
  eval (getAxialData sample 0.5 500 (Some "pipe") "pn" 1.75 None None) 0
  = inl (xtv_error AXIAL_UBOUND_ERR)
  /\ eval (getAxialData sample 0.5 500 (Some "pipe") "pn" 0.25 None None) 0
     = inl (xtv_error AXIAL_LBOUND_ERR).
Proof.
  assert (Hloc : forall tm p,
             eval (getAxialLocations sample tm 500 (Some "pipe") "pn") p
             = inr [0.5; 1.5]%float).
  { intros tm p. reflexivity. }
  pose proof (fun zLoc =>
    axial_out_of_bounds sample 0.5 500 (Some "pipe") "pn" zLoc None None
      0.5 0 [0.5; 1.5]%float 0.5 1.5 1%nat 0 eq_refl eq_refl
      (or_intror (ex_intro _ 1%float eq_refl)) Hloc eq_refl eq_refl eq_refl)
    as H.
  split.
  - apply (H 1.75%float). reflexivity.
  - apply (H 0.25%float); reflexivity.
Defined.

(** An axial location equal to an entry of the ascending list passes the
    checks. *)
Lemma check_axial_inside (zht : list float) (zLoc zr : float) (r : nat) :
  ascending zht -> nth_error zht r = Some zr -> (zLoc =? zr)%float = true ->
  check_axial zht zLoc = inr tt.
Proof.
  intros Hasc Hr Heq.
  destruct (ends_of_list _ _ _ Hr) as (first & last & n & H0 & Hlen & Hlast & Hrn).
  rewrite (check_axial_ends zht zLoc first last n H0 Hlen Hlast).
  destruct (feq_fle zr zLoc Heq) as [Hle1 Hle2].
  rewrite (fle_fle_not_lt zLoc zr last Hle2
             (ascending_le zht r n zr last Hasc Hrn Hr Hlast)).
  now rewrite (fle_fle_not_lt first zr zLoc
                 (ascending_le zht 0%nat r first zr Hasc (Nat.le_0_l r) H0 Hr)
                 Hle1).
Qed.

(** X21.  [getAxialData] at a time of the time index and at an axial
    location of the mesh: when the requested time has passed the time checks
    and equals the time edit found for it, and the requested location equals
    the entry of (0-based) position [r] of the ascending list of axial
    locations, the last entry equal to it, the answer is what [getData]
    answers for that time at the mesh indices [__transform_indices] gives
    for the axial index [r+1]; nothing is interpolated. *)
Theorem getAxialData_at_mesh_location
  (self : XtvFile) (time : float) (id : Z) (ct : option string)
  (varName : string) (zLoc : float) (xr yt : option Z)
  (t tprev : float) (zht : list float) (r : nat) (zr : float) (pos : Z) :
  check_time self time = inr t ->
  py_getitem (times self) (Z.of_nat (bisect_right (times self) t) - 1)
  = inr tprev ->
  (t =? tprev)%float = true ->
  eval (getAxialLocations self t id ct varName) pos = inr zht ->
  ascending zht ->
  nth_error zht r = Some zr ->
  (zLoc =? zr)%float = true ->
  (forall r' z', (r < r')%nat -> nth_error zht r' = Some z' ->
                 (zLoc =? z')%float = false) ->
  eval (getAxialData self time id ct varName zLoc xr yt) pos
  = match transform_indices self id ct varName xr yt (Some (Z.of_nat r + 1)) with
    | inl e => inl e
    | inr (i, j, k) => eval (getData self t id ct varName i j k) 0
    end.
Proof.
  intros Hc Hp Heq Hloc Hasc Hr Hz Hlast. unfold getAxialData.
  rewrite eval_bind_lift, Hc. cbv zeta. rewrite eval_bind_lift, Hp, Heq.
  rewrite eval_bind. unfold eval in Hloc.
  destruct (getAxialLocations self t id ct varName pos) as [[e'|z] p];
    simpl in Hloc; [discriminate|]. injection Hloc as ->.
  rewrite eval_bind_lift, (check_axial_inside zht zLoc zr r Hasc Hr Hz).
  unfold axial_lookup. cbv zeta.
  rewrite (bisect_exact _ _ _ _ Hasc Hr Hz Hlast).
  replace (Z.of_nat (Datatypes.S r) - 1) with (Z.of_nat r) by lia.
  rewrite eval_bind_lift, (py_getitem_nth _ _ _ Hr), Hz.
  rewrite eval_bind_lift.
  replace (Z.of_nat (Datatypes.S r)) with (Z.of_nat r + 1) by lia.
  destruct (transform_indices self id ct varName xr yt (Some (Z.of_nat r + 1)))
    as [e|[[i j] k]]; [reflexivity|].
  now rewrite !getData_eval.
Qed.

Lemma getAxialData_at_mesh_location_witness :
  eval (getAxialData sample 1 500 (Some "pipe") "pn" 1.5 None None) 0
  = match transform_indices sample 500 (Some "pipe") "pn" None None
            (Some (Z.of_nat 1 + 1)) with
    | inl e => inl e
    | inr (i, j, k) => eval (getData sample 1 500 (Some "pipe") "pn" i j k) 0
    end.
Proof.
  apply (getAxialData_at_mesh_location sample 1 500 (Some "pipe") "pn" 1.5
           None None 1 1 [0.5; 1.5]%float 1%nat 1.5 0).
  - reflexivity.
  - reflexivity.
  - reflexivity.
  - reflexivity.
  - split; repeat constructor.
  - reflexivity.
  - reflexivity.
  - intros r' z' Hlt Hr'.
    destruct r' as [|[|[|r']]]; try lia; simpl in Hr'; discriminate.
Defined.

(* ================================================================= *)
(** ** An unknown channel *)

(** X22.  A channel that is not in the file: when there is no component
    with the id and the type, or the component has no channel of the name
    (stripped of white space), [getData] raises the error
    [INVALID_CHANNEL1] whatever the time and the indices are (the time is
    not checked before), and so do [getAxialLocations] and
    [__transform_indices]. *)
Theorem unknown_channel
  (self : XtvFile) (id : Z) (ct : option string) (varName : string) :
  (forall c, get_component self id ct = Some c ->
             od_get String.eqb (channels c) (strip varName) = None) ->
  forall (time : float) (i j k : option Z) (pos : Z),
    eval (getData self time id ct varName i j k) pos
    = inl (xtv_error INVALID_CHANNEL1)
    /\ eval (getAxialLocations self time id ct varName) pos
       = inl (xtv_error INVALID_CHANNEL1)
    /\ transform_indices self id ct varName i j k
       = inl (xtv_error INVALID_CHANNEL1).
Proof.
  intros Hno time i j k pos.
  assert (Hd : getDimPosAt self id ct varName = inl (xtv_error INVALID_CHANNEL1)).
  { unfold getDimPosAt.
    destruct (get_component self id ct) as [c|] eqn:Ec; [|reflexivity].
    now rewrite (Hno c eq_refl). }
  split; [|split].
  - rewrite getData_eval. unfold getData_pure, locate. now rewrite Hd.
  - unfold eval. now rewrite getAxialLocations_run, Hd.
  - unfold transform_indices. now rewrite Hd.
Qed.

Lemma unknown_channel_witness :
  eval (getData sample 99 500 (Some "pipe") "tln" (Some 1) None None) 0
  = inl (xtv_error INVALID_CHANNEL1)
  /\ eval (getAxialLocations sample 99 500 (Some "pipe") "tln") 0
     = inl (xtv_error INVALID_CHANNEL1)
  /\ transform_indices sample 500 (Some "pipe") "tln" (Some 1) None None
     = inl (xtv_error INVALID_CHANNEL1).
Proof.
  refine (unknown_channel sample 500 (Some "pipe") "tln" _ 99%float
            (Some 1) None None 0).
  intros c Hc. vm_compute in Hc. injection Hc as <-. reflexivity.
Defined.

(* ================================================================= *)
(** ** A file that ends in the starting block *)

Lemma unpack_uint_ok (file : list byte) (pos v p : Z) :
  0 <= pos -> unpack_uint file pos = (inr v, p) ->
  p = pos + 4 /\ pos + 4 <= Z.of_nat (List.length file) /\ 0 <= v.
Proof.
  intros Hp H.
  destruct (fixed_width_run file 4 (fun x => x) pos) as [U1 U2]; [lia|lia|].
  destruct (Z.le_gt_cases (pos + 4) (Z.of_nat (List.length file))) as [Hle|Hgt].
  - destruct (U1 Hle) as (d & E & _ & _). unfold unpack_uint in H.
    rewrite E in H. injection H as <- <-.
    pose proof (be_value_bound d). lia.
  - unfold unpack_uint in H. rewrite (U2 Hgt) in H. discriminate.
Qed.

Lemma unpack_int_ok (file : list byte) (pos v p : Z) :
  0 <= pos -> unpack_int file pos = (inr v, p) ->
  pos + 4 <= p /\ pos + 4 <= Z.of_nat (List.length file).
Proof.
  intros Hp H.
  destruct (fixed_width_run file 4
              (fun x => if x <? 2 ^ 31 then x else x - 2 ^ 32) pos)
    as [I1 I2]; [lia|lia|].
  destruct (Z.le_gt_cases (pos + 4) (Z.of_nat (List.length file))) as [Hle|Hgt].
  - destruct (I1 Hle) as (d & E & _ & _). unfold unpack_int in H.
    rewrite E in H. injection H as _ <-. lia.
  - unfold unpack_int in H. rewrite (I2 Hgt) in H. discriminate.
Qed.

Lemma unpack_string_ok (file : list byte) (pos : Z) (s : string) (p : Z) :
  0 <= pos -> unpack_string file pos = (inr s, p) ->
  pos + 4 <= p /\ pos + 4 <= Z.of_nat (List.length file).
Proof.
  intros Hp H. unfold unpack_string, bind in H.
  destruct (unpack_uint file pos) as [[e|n] p1] eqn:E; [discriminate|].
  destruct (unpack_uint_ok file pos n p1 Hp E) as (-> & Hlen & Hn).
  unfold unpack_fstring in H.
  replace (n <? 0) with false in H by (symmetry; apply Z.ltb_ge; lia).
  unfold bind, file_read, ret in H. injection H as _ <-. lia.
Qed.

(** A loop of reads that each need four bytes at least. *)
Lemma replicateM_needs_bytes {A} (file : list byte) (m : M Z A) :
  (forall pos v p, 0 <= pos -> m pos = (inr v, p) ->
     pos + 4 <= p /\ pos + 4 <= Z.of_nat (List.length file)) ->
  forall (n : nat) (pos : Z) (l : list A) (p : Z),
    0 <= pos -> replicateM n m pos = (inr l, p) ->
    pos + 4 * Z.of_nat n <= p
    /\ ((0 < n)%nat -> pos + 4 * Z.of_nat n <= Z.of_nat (List.length file)).
Proof.
  intros Hm. induction n as [|n IH]; intros pos l p Hp H.
  - cbn [replicateM] in H. unfold ret in H. injection H as _ <-. lia.
  - cbn [replicateM] in H. unfold bind in H.
    destruct (m pos) as [[e|v] p1] eqn:E; [discriminate|].
    destruct (Hm pos v p1 Hp E) as [H1 H2].
    destruct (replicateM n m p1) as [[e|l'] p2] eqn:E2; [discriminate|].
    unfold ret in H. injection H as _ <-.
    destruct (IH p1 l' p2 ltac:(lia) E2) as [H3 H4].
    split; [lia|]. intros _.
    destruct n as [|n]; [lia|]. specialize (H4 ltac:(lia)). lia.
Qed.

(** The starting block is a string, seventeen integers and seven strings:
    a hundred bytes at least. *)
Lemma read_StartingBlock_needs_bytes (file : list byte) (sb : StartingBlock)
  (p : Z) :
  read_StartingBlock file 0 = (inr sb, p) ->
  100 <= Z.of_nat (List.length file).
Proof.
  unfold read_StartingBlock, bind. intros H.
  destruct (unpack_string file 0) as [[e|h] p1] eqn:E1; [discriminate|].
  destruct (unpack_string_ok file 0 h p1 ltac:(lia) E1) as [H1 _].
  destruct (replicateM 17 (unpack_int file) p1) as [[e|ints] p2] eqn:E2;
    [discriminate|].
  destruct (replicateM_needs_bytes file (unpack_int file)
              (unpack_int_ok file) 17 p1 ints p2 ltac:(lia) E2) as [H2 _].
  destruct (replicateM 7 (unpack_string file) p2) as [[e|strs] p3] eqn:E3;
    [discriminate|].
  destruct (replicateM_needs_bytes file (unpack_string file)
              (unpack_string_ok file) 7 p2 strs p3 ltac:(lia) E3) as [_ H3].
  specialize (H3 ltac:(lia)). lia.
Qed.

(** X23.  A file of fewer than 100 bytes cannot hold the starting block
    (a string, seventeen integers and seven strings, four bytes each at
    least).  The constructor catches the [EOFError] of the read that fails,
    goes on, and reads [self.SB], which was never assigned: what leaves the
    constructor is an [AttributeError], whatever the content of the file. *)
Theorem truncated_header (file : list byte) (fuel : nat) :
  Z.of_nat (List.length file) < 100 ->
  XtvFile_init file fuel = Some (inl AttributeError).
Proof.
  intros Hlen. unfold XtvFile_init.
  destruct (read_StartingBlock file 0) as [[e|sb] p] eqn:E; [reflexivity|].
  apply read_StartingBlock_needs_bytes in E. lia.
Qed.

Lemma truncated_header_witness :
  XtvFile_init (firstn 99 hdr_only) 5 = Some (inl AttributeError).
Proof.
  apply (truncated_header (firstn 99 hdr_only) 5).
  vm_compute. reflexivity.
Defined.

(* ================================================================= *)
(** ** A negative mesh index *)

Lemma startswith_1 (d : string) :
  startswith d "1" = true ->
  startswith d "3" = false /\ startswith d "2" = false.
Proof.
  destruct d as [|c d]; [discriminate|]. simpl.
  intros H. apply Ascii.eqb_eq in H. subst c. split; reflexivity.
Qed.

(** X24.  A negative index is not refused.  For a 1D channel (its lookups
    succeed, its vector length is not negative), the lower-bound check of
    [getData] tests [i] for [None] and 0 only: with [i = n < 0] no index
    error is raised and the cell is [n].  At a time of an ascending time
    index, [getData] then returns the float decoded at
    [dataStart + r*dataLen + startIncrement + (n-1)*4], an offset before the
    first value of the channel. *)
Theorem negative_index_not_refused
  (self : XtvFile) (time : float) (id : Z) (ct : option string)
  (varName d : string) (n : Z) (j k : option Z)
  (ch ch' : _Channel) (tmplInd vLen : Z) (tm : option _Template)
  (r : nat) (tr : float) (pos : Z) :
  getDimPosAt self id ct varName = inr d ->
  startswith d "1" = true ->
  get_channel self id ct (strip varName) = inr ch ->
  vTmpl ch = Some tmplInd -> vLength ch = Some vLen -> 0 <= vLen ->
  get_template self id ct tmplInd = inr tm ->
  get_channel self id ct varName = inr ch' ->
  n < 0 ->
  ascending (times self) ->
  (time <? 0)%float = false ->
  nth_error (times self) r = Some tr ->
  (time =? tr)%float = true ->
  (forall r' t', (r < r')%nat -> nth_error (times self) r' = Some t' ->
                 (time =? t')%float = false) ->
  locate self id ct varName (Some n) j k = inr (ch', n)
  /\ eval (getData self time id ct varName (Some n) j k) pos
     = float_at (xtvFile self)
         (dataStart (SB self) + Z.of_nat r * dataLen (SB self)
          + (startIncrement ch' + (n - 1) * 4)).
Proof.
  intros Hd H1 Hch Ht Hv Hvl Htm Hch' Hn Hasc Hneg Hr Heq Hlast.
  assert (Hloc : locate self id ct varName (Some n) j k = inr (ch', n)).
  { unfold locate. rewrite Hd, Hch. unfold rbind at 1. unfold rbind at 1.
    rewrite Ht, Hv. simpl attr. unfold rbind at 1. unfold rbind at 1.
    rewrite Htm. unfold rbind at 1.
    unfold locate_cell. destruct (startswith_1 d H1) as [H3 H2].
    rewrite H3, H2, H1. simpl none_or_zero. simpl gt. simpl int_of.
    replace (n =? 0) with false by (symmetry; apply Z.eqb_neq; lia).
    replace (vLen <? n) with false by (symmetry; apply Z.ltb_ge; lia).
    unfold rbind at 1. now rewrite Hch'. }
  split; [exact Hloc|].
  rewrite getData_eval.
  now apply (getData_pure_exact self time id ct varName (Some n) j k ch' n r tr).
Qed.

Lemma negative_index_not_refused_witness :
  eval (getData sample 1 500 (Some "pipe") "vln" (Some (-1)) None None) 0
  = float_at (xtvFile sample)
      (dataStart (SB sample) + Z.of_nat 1 * dataLen (SB sample)
       + (32 + (-1 - 1) * 4))
  /\ eval (getData sample 1 500 (Some "pipe") "vln" (Some (-1)) None None) 0
     = eval (getData sample 1 500 (Some "pipe") "pn" (Some 1) None None) 0.
Proof.
  split.
  - apply (negative_index_not_refused sample 1 500 (Some "pipe") "vln" "1dFa"
             (-1) None None
             (mk_Channel "vln" (500, "pipe") 32 (Some "label") (Some "u")
                (Some "U") (Some "1dFa") (Some "TD") (Some "") (Some "")
                (Some "") (Some "") (Some 1) (Some 3))
             (mk_Channel "vln" (500, "pipe") 32 (Some "label") (Some "u")
                (Some "U") (Some "1dFa") (Some "TD") (Some "") (Some "")
                (Some "") (Some "") (Some 1) (Some 3))
             1 3
             (Some (mk_Template "GD1D" 2 2 0 0 2 0 0 "" "x" "" "" 0 0 0
                      [0; 1; 2]%float [] [] [] []))
             1%nat 1%float 0); try reflexivity; try lia.
    + split; repeat constructor.
    + intros r' t' Hlt Hr'.
      destruct r' as [|[|[|[|r']]]]; try lia; simpl in Hr'; try discriminate.
      injection Hr' as <-. reflexivity.
  - vm_compute. reflexivity.
Defined.

(* ================================================================= *)
(** ** The component table the constructor builds *)

Section OrderedDictFacts.
Context {K V : Type} (keqb : K -> K -> bool).
Hypothesis keqb_eq : forall a b, keqb a b = true <-> a = b.

Lemma od_set_keys_in (d : list (K * V)) (k : K) (v : V) (x : K) :
  In x (od_keys (od_set keqb d k v)) -> x = k \/ In x (od_keys d).
Proof.
  induction d as [|[k' v'] d IH]; simpl.
  - intros [H|[]]. now left.
  - destruct (keqb k' k) eqn:E; simpl.
    + apply keqb_eq in E. subst k'. intros [H|H]; [now left|].
      right. now right.
    + intros [H|H]; [right; now left|].
      destruct (IH H) as [H'|H']; [now left|]. right. now right.
Qed.

Lemma od_set_NoDup (d : list (K * V)) (k : K) (v : V) :
  NoDup (od_keys d) -> NoDup (od_keys (od_set keqb d k v)).
Proof.
  induction d as [|[k' v'] d IH]; simpl; intros H.
  - constructor; [intros []|constructor].
  - inversion H as [|? ? Hnin Hnd]; subst.
    destruct (keqb k' k) eqn:E; simpl.
    + apply keqb_eq in E. subst k'. now constructor.
    + constructor; [|now apply IH].
      intros Hin. destruct (od_set_keys_in _ _ _ _ Hin) as [->|Hin'].
      * assert (keqb k k = true) by now apply keqb_eq. congruence.
      * contradiction.
Qed.

Lemma od_set_Forall (P : K * V -> Prop) (d : list (K * V)) (k : K) (v : V) :
  Forall P d -> P (k, v) -> Forall P (od_set keqb d k v).
Proof.
  intros H Hkv. induction H as [|[k' v'] d Hx Hd IH]; simpl.
  - now constructor.
  - destruct (keqb k' k); constructor; auto.
Qed.

Lemma od_modify_keys (d : list (K * V)) (k : K) (f : V -> V) :
  od_keys (od_modify keqb d k f) = od_keys d.
Proof.
  induction d as [|[k' v'] d IH]; simpl; [reflexivity|].
  destruct (keqb k' k); simpl; [reflexivity|]. now rewrite IH.
Qed.

Lemma od_modify_Forall (P : K * V -> Prop) (d : list (K * V)) (k : K)
  (f : V -> V) :
  (forall k' v, P (k', v) -> P (k', f v)) ->
  Forall P d -> Forall P (od_modify keqb d k f).
Proof.
  intros Hf H. induction H as [|[k' v'] d Hx Hd IH]; simpl.
  - constructor.
  - destruct (keqb k' k); constructor; auto.
Qed.
End OrderedDictFacts.

Lemma key_eqb_iff (a b : Z * string) : key_eqb a b = true <-> a = b.
Proof.
  split; [apply key_eqb_eq|]. intros <-. destruct a as [n s].
  unfold key_eqb. simpl. now rewrite Z.eqb_refl, String.eqb_refl.
Qed.

Lemma keeps_ret {A} (a : A) : keeps_keyed (ret a).
Proof. intros st H. exact H. Qed.

Lemma keeps_raise {A} (e : exn) : keeps_keyed (@raise PState A e).
Proof. intros st H. exact H. Qed.

Lemma keeps_get : keeps_keyed (@get PState).
Proof. intros st H. exact H. Qed.

Lemma keeps_bind {A B} (m : M PState A) (k : A -> M PState B) :
  keeps_keyed m -> (forall a, keeps_keyed (k a)) -> keeps_keyed (bind m k).
Proof.
  intros Hm Hk st H. unfold bind. specialize (Hm st H).
  destruct (m st) as [[e|a] st']; simpl in *; [exact Hm|].
  now apply Hk.
Qed.

Lemma keeps_up {A} (m : M Z A) : keeps_keyed (up m).
Proof.
  intros st H. unfold up. destruct (m (p_pos st)) as [r p]. exact H.
Qed.

Lemma keeps_the_currentComp : keeps_keyed the_currentComp.
Proof.
  intros st H. unfold the_currentComp, bind, get.
  destruct (currentComp st); exact H.
Qed.

Lemma keeps_the_currentTempl : keeps_keyed the_currentTempl.
Proof.
  intros st H. unfold the_currentTempl, bind, get.
  destruct (currentTempl st); exact H.
Qed.

Lemma keeps_upd_templ (f : _Template -> _Template) : keeps_keyed (upd_templ f).
Proof.
  intros st H. unfold upd_templ, the_currentTempl, bind, get.
  destruct (currentTempl st); exact H.
Qed.

Lemma keeps_new_currentTempl (nm : string) : keeps_keyed (new_currentTempl nm).
Proof. intros st H. exact H. Qed.

Lemma keeps_upd_comp (f : _Component -> _Component) :
  (forall k c, component_keyed (k, c) -> component_keyed (k, f c)) ->
  keeps_keyed (upd_comp f).
Proof.
  intros Hf st [HF HN]. unfold upd_comp, the_currentComp, bind, get.
  destruct (currentComp st) as [k|]; [|split; assumption].
  simpl. split.
  - now apply od_modify_Forall.
  - now rewrite od_modify_keys.
Qed.

Lemma keeps_upd_chan (key : string) (f : _Channel -> _Channel) :
  (forall ch, name (f ch) = name ch) -> keeps_keyed (upd_chan key f).
Proof.
  intros Hf. apply keeps_upd_comp. intros k c (Hk & HF & HN).
  split; [exact Hk|]. simpl. split.
  - apply od_modify_Forall; [|exact HF].
    intros n ch Hc. unfold channel_keyed in *. simpl in *. now rewrite Hf.
  - now rewrite od_modify_keys.
Qed.

Lemma keeps_append_currentTempl : keeps_keyed append_currentTempl.
Proof.
  unfold append_currentTempl.
  apply keeps_bind; [apply keeps_the_currentComp|intros _].
  apply keeps_bind; [apply keeps_the_currentTempl|intros r].
  apply keeps_upd_comp. intros k c H. exact H.
Qed.

(** The steps of a block, one after the other. *)
Ltac keeps :=
  repeat first
    [ apply keeps_ret
    | apply keeps_up
    | apply keeps_upd_templ
    | apply keeps_new_currentTempl
    | apply keeps_append_currentTempl
    | apply keeps_the_currentComp
    | apply keeps_get
    | apply keeps_upd_chan; intros ch; reflexivity
    | apply keeps_upd_comp; intros k c H; exact H
    | apply keeps_bind; [|intros ?]
    | match goal with
      | |- keeps_keyed (if ?b then _ else _) => destruct b
      end ].

Lemma keeps_block_GCHd (file : list byte) : keeps_keyed (block_GCHd file).
Proof.
  unfold block_GCHd.
  apply keeps_bind; [apply keeps_up|intros compID].
  apply keeps_bind; [apply keeps_up|intros _].
  apply keeps_bind; [apply keeps_up|intros ct].
  apply keeps_bind; [|intros _; keeps].
  intros st [HF HN]. simpl. split.
  - apply od_set_Forall; [exact HF|].
    split; [reflexivity|]. simpl. split; constructor.
  - apply od_set_NoDup; [apply key_eqb_iff|exact HN].
Qed.

Lemma keeps_block_VARD (file : list byte) : keeps_keyed (block_VARD file).
Proof.
  unfold block_VARD.
  apply keeps_bind; [apply keeps_up|intros varName].
  apply keeps_bind; [apply keeps_the_currentComp|intros k0].
  apply keeps_bind; [apply keeps_get|intros st0].
  apply keeps_bind; [|intros _; keeps].
  - apply keeps_upd_comp. intros k c (Hk & HF & HN).
    split; [exact Hk|]. simpl. split.
    + apply od_set_Forall; [exact HF|]. reflexivity.
    + apply od_set_NoDup; [apply String.eqb_eq|exact HN].
Qed.

Lemma keeps_block_step (file : list byte) : keeps_keyed (block_step file).
Proof.
  unfold block_step.
  apply keeps_bind; [apply keeps_up|intros start].
  apply keeps_bind; [apply keeps_up|intros blockType].
  apply keeps_bind; [apply keeps_up|intros _].
  apply keeps_bind; [apply keeps_up|intros jump].
  apply keeps_bind; [|intros brk; keeps].
  repeat match goal with
         | |- keeps_keyed (if ?b then _ else _) => destruct b
         end;
    try (apply keeps_bind; [|intros _; apply keeps_ret]);
    try apply keeps_ret.
  - apply keeps_block_GCHd.
  - unfold block_GD3D. keeps.
  - unfold block_GD3A. keeps.
  - unfold block_GD2D. keeps.
  - unfold block_GD2A. keeps.
  - unfold block_GD1D. keeps.
  - unfold block_GD1A. keeps.
  - unfold block_GDLg. keeps.
  - unfold block_DsAx. keeps.
  - apply keeps_block_VARD.
Qed.

Lemma keeps_block_loop (file : list byte) (fuel : nat) :
  forall st r st',
    components_keyed (p_components st) ->
    block_loop file fuel st = Some (r, st') ->
    components_keyed (p_components st').
Proof.
  induction fuel as [|fuel IH]; intros st r st' H E; [discriminate|].
  cbn [block_loop] in E.
  pose proof (keeps_block_step file st H) as Hs.
  destruct (block_step file st) as [[e|[|]] st1]; simpl in Hs.
  - injection E as _ <-. exact Hs.
  - injection E as _ <-. exact Hs.
  - now apply (IH st1 r st').
Qed.

Lemma od_get_In_entry {K V} (keqb : K -> K -> bool) (d : list (K * V))
  (k : K) (v : V) :
  od_get keqb d k = Some v -> exists k', keqb k' k = true /\ In (k', v) d.
Proof.
  induction d as [|[k' v'] d IH]; simpl; [discriminate|].
  destruct (keqb k' k) eqn:E.
  - intros H. injection H as ->. exists k'. split; [exact E|now left].
  - intros H. destruct (IH H) as (k1 & H1 & H2). exists k1.
    split; [exact H1|now right].
Qed.

(** The table of a returned object is keyed, and so are its lookups. *)
Lemma init_components_keyed_lemma (file : list byte) (fuel : nat) (x : XtvFile) :
  XtvFile_init file fuel = Some (inr x) ->
  components_keyed (components x)
  /\ (forall id ct c,
        get_component x id (Some ct) = Some c ->
        number c = id /\ strip (compType c) = ct
        /\ forall n ch, od_get String.eqb (channels c) n = Some ch ->
                        strip (name ch) = n).
Proof.
  intros H.
  assert (HK : components_keyed (components x)).
  { unfold XtvFile_init in H.
    destruct (read_StartingBlock file 0) as [[e|sb] pos]; [discriminate|].
    destruct (negb (String.eqb (fmtString sb) "MUX")).
    - injection H as <-. split; constructor.
    - destruct (block_loop file fuel _) as [[r st]|] eqn:E; [|discriminate].
      apply keeps_block_loop in E; [|split; constructor].
      destruct (read_times file sb 0 _ _) as [[e|ts] p]; [discriminate|].
      injection H as <-. destruct r; exact E. }
  split; [exact HK|].
  intros id ct c Hc. unfold get_component in Hc.
  destruct (od_get_In_entry _ _ _ _ Hc) as (k' & Hk & Hin).
  apply key_eqb_eq in Hk. subst k'.
  destruct HK as [HF _]. rewrite Forall_forall in HF.
  destruct (HF _ Hin) as (Hkey & HC & _). simpl in Hkey, HC.
  injection Hkey as -> ->. repeat split.
  intros n ch Hch.
  destruct (od_get_In_entry _ _ _ _ Hch) as (n' & Hn & Hin').
  apply String.eqb_eq in Hn. subst n'.
  rewrite Forall_forall in HC. symmetry. exact (HC _ Hin').
Qed.


(** X25.  The component table of every object the constructor returns,
    whatever the file and however the block loop ended: no key of the table
    is there twice and every component is stored under
    [(number, compType.strip())]; in every component no channel name is
    there twice and every channel is stored under its stripped name.  So a
    lookup by [(id, type)] gives a component with that number and type, and
    a lookup of a channel gives a channel of that name. *)
Theorem init_components_keyed (file : list byte) (fuel : nat) (x : XtvFile) :
  XtvFile_init file fuel = Some (inr x) ->
  components_keyed (components x)
  /\ (forall id ct c,
        get_component x id (Some ct) = Some c ->
        number c = id /\ strip (compType c) = ct
        /\ forall n ch, od_get String.eqb (channels c) n = Some ch ->
                        strip (name ch) = n).
Proof. apply init_components_keyed_lemma. Qed.

Lemma init_components_keyed_witness :
  components_keyed (components sample)
  /\ (forall id ct c,
        get_component sample id (Some ct) = Some c ->
        number c = id /\ strip (compType c) = ct
        /\ forall n ch, od_get String.eqb (channels c) n = Some ch ->
                        strip (name ch) = n).
Proof.
  apply (init_components_keyed
           (sample_file 0 (f32_of_nat 1) (f32_of_nat 2)
              [s_half; s_3half; s_minus1]) 100 sample).
  vm_compute. reflexivity.
Defined.

(* ================================================================= *)
(** ** A variable name with white space around it *)


Lemma lstrip_list (s : string) :
  list_ascii_of_string (lstrip s) = drop_space (list_ascii_of_string s).
Proof.
  induction s as [|c s IH]; simpl; [reflexivity|].
  destruct (is_space c); [exact IH|reflexivity].
Qed.

Lemma rev_string_list (s acc : string) :
  list_ascii_of_string (rev_string acc s)
  = rev (list_ascii_of_string s) ++ list_ascii_of_string acc.
Proof.
  revert acc. induction s as [|c s IH]; intros acc; simpl; [reflexivity|].
  rewrite IH. simpl. now rewrite <- app_assoc.
Qed.

Lemma strip_list (s : string) :
  list_ascii_of_string (strip s)
  = rev (drop_space (rev (drop_space (list_ascii_of_string s)))).
Proof.
  unfold strip.
  rewrite rev_string_list, lstrip_list, rev_string_list, lstrip_list.
  simpl. now rewrite !app_nil_r.
Qed.

Lemma drop_space_first (l : list ascii) : no_space_first (drop_space l).
Proof.
  induction l as [|c l IH]; simpl; [exact I|].
  destruct (is_space c) eqn:E; [exact IH|exact E].
Qed.

Lemma drop_space_id (l : list ascii) : no_space_first l -> drop_space l = l.
Proof. destruct l as [|c l]; simpl; [reflexivity|]. now intros ->. Qed.

Lemma drop_space_suffix (l : list ascii) : exists sp, l = sp ++ drop_space l.
Proof.
  induction l as [|c l [sp IH]]; simpl.
  - now exists [].
  - destruct (is_space c).
    + exists (c :: sp). simpl. now rewrite <- IH.
    + now exists [].
Qed.

Lemma strip_strip (s : string) : strip (strip s) = strip s.
Proof.
  rewrite <- (string_of_list_ascii_of_string (strip (strip s))).
  rewrite <- (string_of_list_ascii_of_string (strip s)) at 2.
  f_equal. rewrite (strip_list (strip s)), strip_list.
  set (a := drop_space (list_ascii_of_string s)).
  set (b := drop_space (rev a)).
  assert (Ha : no_space_first a) by apply drop_space_first.
  assert (Hb : no_space_first b) by apply drop_space_first.
  assert (Hrb : no_space_first (rev b)).
  { destruct (drop_space_suffix (rev a)) as [sp Hsp]. fold b in Hsp.
    assert (Ea : a = rev b ++ rev sp).
    { rewrite <- (rev_involutive a), Hsp. apply rev_app_distr. }
    destruct (rev b) as [|c rb]; [exact I|].
    rewrite Ea in Ha. exact Ha. }
  rewrite (drop_space_id (rev b) Hrb), rev_involutive.
  now rewrite (drop_space_id b Hb).
Qed.

(** X26.  A variable name with white space around it is never found.
    [__getDimPosAt] strips the name before it looks the channel up, the
    later lookups of [getData] do not, and the constructor stores every
    channel under its stripped name: for an object the constructor returned
    and a name that [strip()] changes, [getData] returns no value, whatever
    the component, the time and the indices are. *)
Theorem padded_name_never_resolves
  (file : list byte) (fuel : nat) (x : XtvFile) (varName : string) :
  XtvFile_init file fuel = Some (inr x) ->
  strip varName <> varName ->
  forall (time : float) (id : Z) (ct : option string) (i j k : option Z)
         (pos : Z),
    (exists e, eval (getData x time id ct varName i j k) pos = inl e)
    /\ get_channel x id ct varName = inl AttributeError.
Proof.
  intros Hinit Hpad time id ct i j k pos.
  assert (Hch : get_channel x id ct varName = inl AttributeError).
  { unfold get_channel.
    destruct (get_component x id ct) as [c|] eqn:Ec; [|reflexivity].
    simpl.
    destruct (od_get String.eqb (channels c) varName) as [ch|] eqn:Ech;
      [|reflexivity].
    exfalso. apply Hpad.
    destruct ct as [ct|]; [|discriminate Ec].
    destruct (init_components_keyed_lemma file fuel x Hinit) as [_ Hk].
    destruct (Hk id ct c Ec) as (_ & _ & Hn).
    rewrite <- (Hn varName ch Ech). apply strip_strip. }
  split; [|exact Hch].
  assert (Hloc : exists e, locate x id ct varName i j k = inl e).
  { unfold locate, rbind. rewrite Hch.
    destruct (getDimPosAt x id ct varName) as [e|d]; [now exists e|].
    destruct (get_channel x id ct (strip varName)) as [e|ch]; [now exists e|].
    destruct (attr (vTmpl ch)) as [e|ti]; [now exists e|].
    destruct (attr (vLength ch)) as [e|vl]; [now exists e|].
    destruct (get_template x id ct ti) as [e|tm]; [now exists e|].
    destruct (locate_cell d tm vl i j k) as [e|cell]; [now exists e|].
    now exists AttributeError. }
  destruct Hloc as [e He]. exists e.
  rewrite getData_eval. unfold getData_pure. now rewrite He.
Qed.

Lemma padded_name_never_resolves_witness :
  (exists e, eval (getData sample 1 500 (Some "pipe") " pn"
                     (Some 1) None None) 0 = inl e)
  /\ get_channel sample 500 (Some "pipe") " pn" = inl AttributeError.
Proof.
  refine (padded_name_never_resolves
            (sample_file 0 (f32_of_nat 1) (f32_of_nat 2)
               [s_half; s_3half; s_minus1]) 100 sample " pn" _ _
            1%float 500 (Some "pipe") (Some 1) None None 0).
  - vm_compute. reflexivity.
  - vm_compute. discriminate.
Defined.

(* ================================================================= *)
(** ** Queries by channel string *)

(** X27.  A scalar addressed by a channel string.  When the string decodes
    to a ['0D'] channel, [getDataChannel] refuses an axial, radial or theta
    index above 0 with the error [ERR_AXRYT_INDEX]; without such an index it
    is [getData] on that channel, and the indices written (0, or none) play
    no part. *)
Theorem getDataChannel_scalar
  (self : XtvFile) (time : float) (channel varName d : string)
  (ct : option string) (id : Z) (a xr yt : option Z) (pos : Z) :
  decode_channel self channel = (varName, ct, id, a, xr, yt) ->
  getDimPosAt self id ct varName = inr d ->
  startswith d "0" = true ->
  (gt0 yt || gt0 xr || gt0 a = true ->
     eval (getDataChannel self time channel) pos
     = inl (xtv_error ERR_AXRYT_INDEX))
  /\ (gt0 yt || gt0 xr || gt0 a = false ->
        forall i j k,
          eval (getDataChannel self time channel) pos
          = eval (getData self time id ct varName i j k) pos).
Proof.
  intros Hdec Hd H0.
  destruct (startswith_0 d H0) as (H3 & H2 & H1).
  assert (Htr : transform_indices self id ct varName xr yt a
                = if gt0 yt || gt0 xr || gt0 a
                  then inl (xtv_error ERR_AXRYT_INDEX)
                  else inr (Some 0, Some 0, Some 0)).
  { unfold transform_indices. now rewrite Hd, H3, H2, H1, H0. }
  unfold getDataChannel. rewrite Hdec, eval_bind_lift, Htr.
  split; intros Hg; rewrite Hg; [reflexivity|].
  intros i j k. rewrite !getData_eval. unfold getData_pure.
  assert (Hloc : forall a b c,
             locate self id ct varName a b c
             = (ch <~ get_channel self id ct (strip varName) ;;
                tmplInd <~ attr (vTmpl ch) ;;
                vLen <~ attr (vLength ch) ;;
                tm <~ get_template self id ct tmplInd ;;
                ch' <~ get_channel self id ct varName ;;
                inr (ch', 1))).
  { intros a0 b0 c0. unfold locate, rbind. rewrite Hd.
    destruct (get_channel self id ct (strip varName)) as [e|ch0]; [reflexivity|].
    destruct (attr (vTmpl ch0)) as [e|ti]; [reflexivity|].
    destruct (attr (vLength ch0)) as [e|vl]; [reflexivity|].
    destruct (get_template self id ct ti) as [e|tm]; [reflexivity|].
    now rewrite (locate_cell_0D d tm vl a0 b0 c0 H0). }
  now rewrite (Hloc (Some 0) (Some 0) (Some 0)), (Hloc i j k).
Qed.

Lemma getDataChannel_scalar_witness :
  eval (getDataChannel sample 1 "power-500A01") 0
  = inl (xtv_error ERR_AXRYT_INDEX)
  /\ eval (getDataChannel sample 1 "power-500") 0
     = eval (getData sample 1 500 (Some "pipe") "power"
               (Some 5) None None) 0.
Proof.
  split.
  - apply (getDataChannel_scalar sample 1 "power-500A01" "power" "0D"
             (Some "pipe") 500 (Some 1) None None 0); reflexivity.
  - apply (getDataChannel_scalar sample 1 "power-500" "power" "0D"
             (Some "pipe") 500 None None None 0); reflexivity.
Defined.

(** X28.  A 1D channel addressed without an axial index.  When the channel
    string decodes to a 1D channel (its lookups succeed) and gives no axial
    index, or the axial index 0, and no radial or theta index above 0,
    [getDataChannel] and [getTimeVector] over a time index that is not empty
    raise the error [INDEX_I_LBOUND_ERR], whatever the time is. *)
Theorem channel_1D_needs_axial_index
  (self : XtvFile) (time : float) (channel varName d : string)
  (ct : option string) (id : Z) (a xr yt : option Z)
  (ch : _Channel) (tmplInd vLen : Z) (tm : option _Template)
  (t0 : float) (rest : list float) (pos : Z) :
  decode_channel self channel = (varName, ct, id, a, xr, yt) ->
  getDimPosAt self id ct varName = inr d ->
  startswith d "1" = true ->
  get_channel self id ct (strip varName) = inr ch ->
  vTmpl ch = Some tmplInd -> vLength ch = Some vLen ->
  get_template self id ct tmplInd = inr tm ->
  none_or_zero a = true -> gt0 yt || gt0 xr = false ->
  times self = t0 :: rest ->
  eval (getDataChannel self time channel) pos
  = inl (xtv_error INDEX_I_LBOUND_ERR)
  /\ eval (getTimeVector self channel) pos
     = inl (xtv_error INDEX_I_LBOUND_ERR).
Proof.
  intros Hdec Hd H1 Hch Ht Hv Htm Ha Hg Htimes.
  destruct (startswith_1 d H1) as [H3 H2].
  assert (Htr : transform_indices self id ct varName xr yt a
                = inr (a, Some 0, Some 0)).
  { unfold transform_indices. now rewrite Hd, H3, H2, H1, Hg. }
  assert (Hget : forall tm' p,
             eval (getData self tm' id ct varName a (Some 0) (Some 0)) p
             = inl (xtv_error INDEX_I_LBOUND_ERR)).
  { intros tm' p. rewrite getData_eval. unfold getData_pure, locate.
    rewrite Hd, Hch. unfold rbind at 1. unfold rbind at 1.
    unfold rbind at 1. rewrite Ht, Hv. simpl attr. unfold rbind at 1.
    unfold rbind at 1. unfold rbind at 1. rewrite Htm. unfold rbind at 1.
    unfold rbind at 1. unfold locate_cell. now rewrite H3, H2, H1, Ha. }
  split.
  - unfold getDataChannel. rewrite Hdec, eval_bind_lift, Htr. apply Hget.
  - unfold getTimeVector. rewrite Hdec, eval_bind_lift, Htr, Htimes.
    cbn [mapM]. rewrite eval_bind. unfold bind at 1.
    specialize (Hget t0 pos). unfold eval in Hget.
    destruct (getData self t0 id ct varName a (Some 0) (Some 0) pos)
      as [[e|v] p]; simpl in Hget; [|discriminate].
    now injection Hget as ->.
Qed.

Lemma channel_1D_needs_axial_index_witness :
  eval (getDataChannel sample 1 "pn-500") 0
  = inl (xtv_error INDEX_I_LBOUND_ERR)
  /\ eval (getTimeVector sample "pn-500") 0
     = inl (xtv_error INDEX_I_LBOUND_ERR).
Proof.
  apply (channel_1D_needs_axial_index sample 1 "pn-500" "pn" "1dCc"
           (Some "pipe") 500 None None None pn_channel 1 2
           (Some (mk_Template "GD1D" 2 2 0 0 2 0 0 "" "x" "" "" 0 0 0
                    [0; 1; 2]%float [] [] [] []))
           0 [1; 2]%float 0); reflexivity.
Defined.

(* ================================================================= *)
(** ** The times of a time vector *)

(** A loop whose body pairs every entry with a value returns the entries
    in order. *)
Lemma mapM_paired {S A B} (g : A -> M S (A * B)) (l : list A) :
  (forall x s p s', g x s = (inr p, s') -> fst p = x) ->
  forall (s : S) (v : list (A * B)),
    eval (mapM g l) s = inr v -> map fst v = l.
Proof.
  intros Hg. induction l as [|x l IH]; intros s v H.
  - cbn [mapM] in H. unfold eval, ret in H. simpl in H.
    injection H as <-. reflexivity.
  - cbn [mapM] in H. rewrite eval_bind in H.
    destruct (g x s) as [[e|p] s1] eqn:Eg; [discriminate|].
    rewrite eval_bind in H.
    destruct (mapM g l s1) as [[e|v'] s2] eqn:E; [discriminate|].
    unfold eval, ret in H. simpl in H. injection H as <-.
    simpl. f_equal.
    + exact (Hg x s p s1 Eg).
    + apply (IH s1). unfold eval. now rewrite E.
Qed.

(** X29.  The times of a time vector.  Whatever the channel and the file,
    a list [getTimeVector] returns has one pair for every time edit, and the
    times of its pairs are [self.times], in order; the same holds for
    [getTimeVectorAxial].  Two vectors taken from one file have the same
    length and the same time column. *)
Theorem time_vectors_carry_the_time_index
  (self : XtvFile) (channel : string) (zLoc : float) (pos : Z) :
  (forall v, eval (getTimeVector self channel) pos = inr v ->
             map fst v = times self
             /\ List.length v = List.length (times self))
  /\ (forall v, eval (getTimeVectorAxial self channel zLoc) pos = inr v ->
                map fst v = times self
                /\ List.length v = List.length (times self)).
Proof.
  assert (Hlen : forall (v : list (float * float)) l,
             map fst v = l -> map fst v = l /\ List.length v = List.length l).
  { intros v l H. split; [exact H|]. now rewrite <- H, length_map. }
  split; intros v H; apply Hlen.
  - unfold getTimeVector in H.
    destruct (decode_channel self channel) as [[[[[vn ct] id] a] xr] yt].
    rewrite eval_bind_lift in H.
    destruct (transform_indices self id ct vn xr yt a) as [e|[[i j] k]];
      [discriminate|].
    revert H. apply mapM_paired. intros x s p s' E.
    unfold bind, ret in E.
    destruct (getData self x id ct vn i j k s) as [[e|y] s1];
      [discriminate|].
    now injection E as <- _.
  - unfold getTimeVectorAxial in H.
    destruct (decode_channel self channel) as [[[[[vn ct] id] a] xr] yt].
    revert H. apply mapM_paired. intros x s p s' E.
    unfold bind at 1 in E.
    destruct (getAxialLocations self x id ct vn s) as [[e|z] s1];
      [discriminate|].
    unfold bind at 1 in E.
    destruct (axial_lookup self x id ct vn z zLoc xr yt s1) as [[e|y] s2];
      [discriminate|].
    unfold ret in E. now injection E as <- _.
Qed.
